(** * cloudkey: the UniFi controller client (package [network])

    A shallow embedding of the speed-test client of [cloudkey.go]:
    construction and detection of the controller ([NewUDMProClient],
    [detectControllerType]), session handling ([isSessionValid],
    [cacheSession], [Login], [extractCSRFToken]), the result cache
    ([getCachedSpeedtest], [setCachedSpeedtest]), the archive request with
    its retry on 401 ([GetSpeedtestResults], [GetSpeedtestResultsInRange],
    [GetUDMProSpeedtest]) and [FormatSpeed]; of the utilities [LANIP] and
    [GetRelativeTime]; and of the loop of [buildSpeedTest], in package
    [display], that shows the result on the screen.

    The Go methods mutate the client through a pointer and talk to the
    outside (clock, HTTP transport); here they are functions on an explicit
    state made of the client and of a scripted environment.  The libraries
    the code calls ([strings], [encoding/base64], [encoding/json],
    [strconv], [time], [fmt], [net]) are modelled in the first half of the
    file, each in a module named after the package. *)

From Stdlib Require Import ZArith List String Ascii Bool Lia.
From Stdlib Require Import Floats DecimalString DecimalPos.
Import ListNotations.

Set Warnings "-register-all".

Local Open Scope list_scope.
Local Open Scope string_scope.
Local Open Scope Z_scope.

(** ** Bytes and small helpers *)

Definition byte_val (c : ascii) : Z := Z.of_N (N_of_ascii c).

Definition byte_of (n : Z) : ascii := ascii_of_N (Z.to_N (n mod 256)).

Definition in_range (lo hi : Z) (c : ascii) : bool :=
  (lo <=? byte_val c) && (byte_val c <=? hi).

Definition is_digit (c : ascii) : bool := in_range 48 57 c.

Definition is_byte (n : Z) (c : ascii) : bool := byte_val c =? n.

Fixpoint rev_string (acc s : string) : string :=
  match s with
  | EmptyString => acc
  | String c r => rev_string (String c acc) r
  end.

Fixpoint map_string (f : ascii -> ascii) (s : string) : string :=
  match s with
  | EmptyString => EmptyString
  | String c r => String (f c) (map_string f r)
  end.

Fixpoint filter_string (f : ascii -> bool) (s : string) : string :=
  match s with
  | EmptyString => EmptyString
  | String c r => if f c then String c (filter_string f r) else filter_string f r
  end.

Definition len (s : string) : Z := Z.of_nat (String.length s).

(** The double quote, as a string. *)
Definition quote : string := String (ascii_of_nat 34) EmptyString.

(** [int64] and [int] (taken to be 64 bits wide) are [Z] with the
    wrap-around of two's complement written out. *)
Definition minInt64 : Z := - 2 ^ 63.
Definition maxInt64 : Z := 2 ^ 63 - 1.

Definition wrap64 (z : Z) : Z := (z + 2 ^ 63) mod 2 ^ 64 - 2 ^ 63.

Definition in_int64 (z : Z) : bool := (minInt64 <=? z) && (z <=? maxInt64).

(** ** Package [strings] *)
Module strings.

(** [strings.Split(s, sep)] for a separator of one byte. *)
Fixpoint Split (s : string) (sep : ascii) : list string :=
  match s with
  | EmptyString => [EmptyString]
  | String c r =>
      if Ascii.eqb c sep then EmptyString :: Split r sep
      else match Split r sep with
           | h :: t => String c h :: t
           | [] => [String c EmptyString]
           end
  end.

(** [strings.ReplaceAll(s, old, new)] for [old] and [new] of one byte. *)
Definition ReplaceAll (s : string) (old new : ascii) : string :=
  map_string (fun c => if Ascii.eqb c old then new else c) s.

(** [strings.TrimRight(s, cutset)] for a cutset of one byte. *)
Fixpoint TrimRight (s : string) (cut : ascii) : string :=
  match s with
  | EmptyString => EmptyString
  | String c r =>
      match TrimRight r cut with
      | EmptyString => if Ascii.eqb c cut then EmptyString else String c EmptyString
      | r' => String c r'
      end
  end.

Fixpoint Contains (s sub : string) : bool :=
  String.prefix sub s ||
  match s with
  | EmptyString => false
  | String _ r => Contains r sub
  end.

End strings.

(** ** Package [strconv] and the verbs of [fmt] the client uses *)
Module strconv.

(** [%d] of an integer. *)
Definition Itoa (z : Z) : string := NilEmpty.string_of_int (Z.to_int z).

Fixpoint digits_val (acc : Z) (s : string) : Z :=
  match s with
  | EmptyString => acc
  | String c r => digits_val (10 * acc + (byte_val c - 48)) r
  end.

Fixpoint all_digits (s : string) : bool :=
  match s with
  | EmptyString => true
  | String c r => is_digit c && all_digits r
  end.

Fixpoint span_digits (s : string) : string * string :=
  match s with
  | EmptyString => (EmptyString, EmptyString)
  | String c r =>
      if is_digit c then let (d, t) := span_digits r in (String c d, t)
      else (EmptyString, s)
  end.

(** [strconv.ParseInt(s, 10, 64)] on the text of a JSON number: an
    optional minus sign and decimal digits, within [int64]. *)
Definition ParseInt (s : string) : option Z :=
  let (neg, d) := match s with
                  | String c r => if is_byte 45 c then (true, r) else (false, s)
                  | EmptyString => (false, s)
                  end in
  if negb (all_digits d) || (String.length d =? 0)%nat then None
  else let v := if neg then - digits_val 0 d else digits_val 0 d in
       if in_int64 v then Some v else None.

(** A decimal literal [-d.dddE±x] read as sign, integer mantissa and power
    of ten; the literal is assumed to follow the grammar of JSON numbers. *)
Definition decimal_of_literal (s : string) : bool * Z * Z :=
  let (neg, s1) := match s with
                   | String c r => if is_byte 45 c then (true, r) else (false, s)
                   | EmptyString => (false, s)
                   end in
  let (ip, s2) := span_digits s1 in
  let (fp, s3) := match s2 with
                  | String c r => if is_byte 46 c then span_digits r else (EmptyString, s2)
                  | EmptyString => (EmptyString, s2)
                  end in
  let ex := match s3 with
            | String _ (String c r) =>
                if is_byte 45 c then - digits_val 0 r
                else if is_byte 43 c then digits_val 0 r
                else digits_val 0 (String c r)
            | _ => 0
            end in
  (neg, digits_val 0 (ip ++ fp), ex - len fp).

(** The binary64 number nearest to [num / den] (both positive), ties to
    even; [None] when it lies beyond the largest finite number. *)
Definition round_ratio (num den : Z) : option float :=
  let e0 := Z.max (Z.log2 num - Z.log2 den - 53) (-1074) in
  let quot e := if 0 <=? e then num / (den * 2 ^ e) else (num * 2 ^ (- e)) / den in
  let e := if 2 ^ 53 <=? quot e0 then e0 + 1 else e0 in
  let n := if 0 <=? e then num else num * 2 ^ (- e) in
  let d := if 0 <=? e then den * 2 ^ e else den in
  let q := n / d in
  let r := n mod d in
  let q' := if (d <? 2 * r) || ((d =? 2 * r) && Z.odd q) then q + 1 else q in
  if (971 <? e) || ((e =? 971) && (2 ^ 53 <=? q')) then None
  else Some (Z.ldexp (PrimFloat.of_uint63 (Uint63.of_Z q')) e).

(** [strconv.ParseFloat(s, 64)] on the text of a JSON number: the nearest
    binary64 number, an error ([None]) on overflow, zero on underflow. *)
Definition ParseFloat (s : string) : option float :=
  let '(neg, m, e10) := decimal_of_literal s in
  let sign (f : float) := if neg then PrimFloat.opp f else f in
  if m =? 0 then Some (sign PrimFloat.zero)
  else
    let nd := len (Itoa m) in
    if 310 <? nd + e10 then None
    else if nd + e10 <? -330 then Some (sign PrimFloat.zero)
    else option_map sign
           (if 0 <=? e10 then round_ratio (m * 10 ^ e10) 1
            else round_ratio m (10 ^ (- e10))).

(** [%.1f] of a [float64]: the exact value rounded to one decimal, ties
    to the even digit; [NaN], [+Inf] and [-Inf] are printed as words. *)
Definition tenths (m : positive) (e : Z) : Z :=
  let n := 10 * Z.pos m in
  if 0 <=? e then n * 2 ^ e
  else
    let d := 2 ^ (- e) in
    let q := n / d in
    let r := n mod d in
    if (d <? 2 * r) || ((d =? 2 * r) && Z.odd q) then q + 1 else q.

Definition fixed1 (neg : bool) (t : Z) : string :=
  (if neg then "-" else "") ++ Itoa (t / 10) ++ "." ++ Itoa (t mod 10).

Definition FormatFloat1 (f : float) : string :=
  match Prim2SF f with
  | S754_nan => "NaN"
  | S754_infinity false => "+Inf"
  | S754_infinity true => "-Inf"
  | S754_zero s => fixed1 s 0
  | S754_finite s m e => fixed1 s (tenths m e)
  end.

End strconv.

(** ** Package [encoding/base64] *)
Module base64.

(** The standard alphabet: [A-Z], [a-z], [0-9], [+], [/]. *)
Definition decodeMap (c : ascii) : option Z :=
  let n := byte_val c in
  if in_range 65 90 c then Some (n - 65)
  else if in_range 97 122 c then Some (n - 71)
  else if is_digit c then Some (n + 4)
  else if is_byte 43 c then Some 62
  else if is_byte 47 c then Some 63
  else None.

Definition pad (c : ascii) : bool := is_byte 61 c.

Definition is_empty (s : string) : bool :=
  match s with EmptyString => true | _ => false end.

(** Groups of four characters give three bytes; the last group may end
    in [=] or [==]; anything after the padding, a group cut short or a
    character outside the alphabet is an error. *)
Fixpoint decodeQuanta (s : string) : option string :=
  match s with
  | EmptyString => Some EmptyString
  | String a (String b (String c (String d rest))) =>
      match decodeMap a, decodeMap b with
      | Some x, Some y =>
          let b0 := byte_of (Z.shiftr (Z.lor (Z.shiftl x 18) (Z.shiftl y 12)) 16) in
          if pad c then
            if pad d && is_empty rest then Some (String b0 EmptyString) else None
          else
            match decodeMap c with
            | None => None
            | Some z =>
                let v3 := Z.lor (Z.lor (Z.shiftl x 18) (Z.shiftl y 12)) (Z.shiftl z 6) in
                let b1 := byte_of (Z.shiftr v3 8) in
                if pad d then
                  if is_empty rest then Some (String b0 (String b1 EmptyString)) else None
                else
                  match decodeMap d with
                  | None => None
                  | Some w =>
                      let b2 := byte_of (Z.lor v3 w) in
                      option_map (fun t => String b0 (String b1 (String b2 t)))
                                 (decodeQuanta rest)
                  end
            end
      | _, _ => None
      end
  | _ => None
  end.

(** [base64.StdEncoding.DecodeString]: carriage returns and line feeds
    are skipped, padding is required.  The position carried by Go's
    [CorruptInputError] is not kept. *)
Definition DecodeString (s : string) : option string :=
  decodeQuanta (filter_string (fun c => negb (is_byte 10 c || is_byte 13 c)) s).

End base64.

(** ** Package [encoding/json] *)
Module json.

(** A JSON text as the scanner sees it; a number keeps its literal, which
    is converted when the target type is known. *)
Inductive value : Type :=
| JNull
| JBool (b : bool)
| JNumber (lit : string)
| JString (s : string)
| JArray (l : list value)
| JObject (l : list (string * value)).

(** *** Strings: escapes and well-formed UTF-8 *)

Definition hexval (c : ascii) : option Z :=
  let n := byte_val c in
  if is_digit c then Some (n - 48)
  else if in_range 97 102 c then Some (n - 87)
  else if in_range 65 70 c then Some (n - 55)
  else None.

Definition getu4 (a b c d : ascii) : option Z :=
  match hexval a, hexval b, hexval c, hexval d with
  | Some x, Some y, Some z, Some w => Some (((x * 16 + y) * 16 + z) * 16 + w)
  | _, _, _, _ => None
  end.

(** [utf8.EncodeRune] of a code point below [0x110000] that is not a
    surrogate. *)
Definition EncodeRune (r : Z) : string :=
  if r <? 128 then String (byte_of r) EmptyString
  else if r <? 2048 then
    String (byte_of (192 + r / 64)) (String (byte_of (128 + r mod 64)) EmptyString)
  else if r <? 65536 then
    String (byte_of (224 + r / 4096))
      (String (byte_of (128 + (r / 64) mod 64))
         (String (byte_of (128 + r mod 64)) EmptyString))
  else
    String (byte_of (240 + r / 262144))
      (String (byte_of (128 + (r / 4096) mod 64))
         (String (byte_of (128 + (r / 64) mod 64))
            (String (byte_of (128 + r mod 64)) EmptyString))).

Definition RuneError : string := EncodeRune 65533.

Definition is_surrogate (r : Z) : bool := (55296 <=? r) && (r <? 57344).

Definition cont (c : ascii) : bool := in_range 128 191 c.

(** Length of the well-formed UTF-8 sequence that starts with [c0],
    followed by [c1 c2 c3] (zero when it is ill-formed). *)
Definition utf8_len (c0 : ascii) (c1 c2 c3 : option ascii) : nat :=
  let ok (f : ascii -> bool) (o : option ascii) :=
    match o with Some c => f c | None => false end in
  if in_range 194 223 c0 then (if ok cont c1 then 2 else 0)%nat
  else if in_range 224 239 c0 then
    let lo := if is_byte 224 c0 then 160 else 128 in
    let hi := if is_byte 237 c0 then 159 else 191 in
    (if ok (in_range lo hi) c1 && ok cont c2 then 3 else 0)%nat
  else if in_range 240 244 c0 then
    let lo := if is_byte 240 c0 then 144 else 128 in
    let hi := if is_byte 244 c0 then 143 else 191 in
    (if ok (in_range lo hi) c1 && ok cont c2 && ok cont c3 then 4 else 0)%nat
  else 0%nat.

Definition nth_byte (n : nat) (s : string) : option ascii := String.get n s.

(** [unquote]: what lies between the quotes, with the escapes replaced
    and ill-formed UTF-8 coerced to U+FFFD.  [skip] counts continuation
    bytes of a sequence already checked. *)
Fixpoint unquote (skip : nat) (s : string) : option string :=
  match s with
  | EmptyString => Some EmptyString
  | String c r =>
      match skip with
      | S k => option_map (String c) (unquote k r)
      | O =>
          if is_byte 92 c then
            match r with
            | String e r1 =>
                let lit (b : Z) := option_map (String (byte_of b)) (unquote 0 r1) in
                if is_byte 34 e then lit 34
                else if is_byte 92 e then lit 92
                else if is_byte 47 e then lit 47
                else if is_byte 98 e then lit 8
                else if is_byte 102 e then lit 12
                else if is_byte 110 e then lit 10
                else if is_byte 114 e then lit 13
                else if is_byte 116 e then lit 9
                else if is_byte 117 e then
                  match r1 with
                  | String h1 (String h2 (String h3 (String h4 r2))) =>
                      match getu4 h1 h2 h3 h4 with
                      | None => None
                      | Some rr =>
                          if is_surrogate rr then
                            match r2 with
                            | String b1 (String u1 (String g1 (String g2 (String g3 (String g4 r3))))) =>
                                match (if is_byte 92 b1 && is_byte 117 u1
                                       then getu4 g1 g2 g3 g4 else None) with
                                | Some rr1 =>
                                    if (rr <? 56320) && (56320 <=? rr1) && (rr1 <? 57344)
                                    then option_map
                                           (append (EncodeRune
                                              ((rr - 55296) * 1024 + (rr1 - 56320) + 65536)))
                                           (unquote 0 r3)
                                    else option_map (append RuneError) (unquote 0 r2)
                                | None => option_map (append RuneError) (unquote 0 r2)
                                end
                            | _ => option_map (append RuneError) (unquote 0 r2)
                            end
                          else option_map (append (EncodeRune rr)) (unquote 0 r2)
                      end
                  | _ => None
                  end
                else None
            | EmptyString => None
            end
          else if is_byte 34 c || (byte_val c <? 32) then None
          else if byte_val c <? 128 then option_map (String c) (unquote 0 r)
          else
            match utf8_len c (nth_byte 0 r) (nth_byte 1 r) (nth_byte 2 r) with
            | O => option_map (append RuneError) (unquote 0 r)
            | S k => option_map (String c) (unquote k r)
            end
      end
  end.

(** *** Numbers and words *)

Definition strip_minus (s : string) : string :=
  match s with
  | String c r => if is_byte 45 c then r else s
  | EmptyString => s
  end.

(** The grammar of a JSON number: an optional minus sign; a single zero
    or digits that do not start with zero; an optional dot with at least
    one digit; an optional exponent [e] or [E] with sign and digits. *)
Definition valid_number (w : string) : bool :=
  let (ip, r1) := strconv.span_digits (strip_minus w) in
  let int_ok := match ip with
                | EmptyString => false
                | String c EmptyString => true
                | String c _ => negb (is_byte 48 c)
                end in
  let frac := match r1 with
              | String c r =>
                  if is_byte 46 c then
                    let (fp, r') := strconv.span_digits r in
                    if base64.is_empty fp then None else Some r'
                  else Some r1
              | EmptyString => Some r1
              end in
  int_ok &&
  match frac with
  | None => false
  | Some EmptyString => true
  | Some (String c r) =>
      if is_byte 101 c || is_byte 69 c then
        let r' := match r with
                  | String sg t => if is_byte 43 sg || is_byte 45 sg then t else r
                  | EmptyString => r
                  end in
        negb (base64.is_empty r') && strconv.all_digits r'
      else false
  end.

Definition word_value (w : string) : option value :=
  if String.eqb w "null" then Some JNull
  else if String.eqb w "true" then Some (JBool true)
  else if String.eqb w "false" then Some (JBool false)
  else if valid_number w then Some (JNumber w)
  else None.

(** *** Tokens *)

Inductive token : Type :=
| TLBrace | TRBrace | TLBracket | TRBracket | TColon | TComma
| TString (s : string)
| TWord (w : string).

Inductive lexstate : Type :=
| LOut
| LStr (acc : string) (esc : bool)
| LWord (acc : string).

Definition is_ws (c : ascii) : bool :=
  is_byte 32 c || is_byte 9 c || is_byte 10 c || is_byte 13 c.

(** The characters of numbers and of [true], [false], [null]. *)
Definition is_word_char (c : ascii) : bool :=
  is_digit c || is_byte 45 c || is_byte 43 c || is_byte 46 c
  || in_range 65 90 c || in_range 97 122 c.

Definition lex_out (c : ascii) : option (list token * lexstate) :=
  if is_ws c then Some ([], LOut)
  else if is_byte 123 c then Some ([TLBrace], LOut)
  else if is_byte 125 c then Some ([TRBrace], LOut)
  else if is_byte 91 c then Some ([TLBracket], LOut)
  else if is_byte 93 c then Some ([TRBracket], LOut)
  else if is_byte 58 c then Some ([TColon], LOut)
  else if is_byte 44 c then Some ([TComma], LOut)
  else if is_byte 34 c then Some ([], LStr EmptyString false)
  else if is_word_char c then Some ([], LWord (String c EmptyString))
  else None.

Fixpoint lex (st : lexstate) (s : string) : option (list token) :=
  match s with
  | EmptyString =>
      match st with
      | LOut => Some []
      | LStr _ _ => None
      | LWord acc => Some [TWord (rev_string EmptyString acc)]
      end
  | String c r =>
      match st with
      | LStr acc esc =>
          if esc then lex (LStr (String c acc) false) r
          else if is_byte 92 c then lex (LStr (String c acc) true) r
          else if is_byte 34 c then
            match unquote 0 (rev_string EmptyString acc) with
            | Some str => option_map (cons (TString str)) (lex LOut r)
            | None => None
            end
          else lex (LStr (String c acc) false) r
      | LWord acc =>
          if is_word_char c then lex (LWord (String c acc)) r
          else
            match lex_out c with
            | Some (ts, st') =>
                option_map (fun l => TWord (rev_string EmptyString acc) :: (ts ++ l)%list)
                           (lex st' r)
            | None => None
            end
      | LOut =>
          match lex_out c with
          | Some (ts, st') => option_map (app ts) (lex st' r)
          | None => None
          end
      end
  end.

(** *** The parser: a stack of the containers under construction *)

Inductive frame : Type :=
| FArr (acc : list value)
| FObj (acc : list (string * value)) (key : option string).

Inductive expect : Type :=
| EValue          (* a value *)
| EValueOrClose   (* after the opening bracket: a value or the closing one *)
| EKeyOrClose     (* after the opening brace: a key or the closing one *)
| EKey            (* after a comma in an object *)
| EColon
| ECommaOrClose
| EEnd (v : value).

Definition maxNestingDepth : Z := 10000.

Definition complete (v : value) (stk : list frame) : option (list frame * expect) :=
  match stk with
  | [] => Some ([], EEnd v)
  | FArr acc :: rest => Some (FArr (v :: acc) :: rest, ECommaOrClose)
  | FObj acc (Some k) :: rest => Some (FObj ((k, v) :: acc) None :: rest, ECommaOrClose)
  | FObj _ None :: _ => None
  end.

Definition push (f : frame) (e : expect) (stk : list frame) : option (list frame * expect) :=
  if maxNestingDepth <? Z.of_nat (S (List.length stk)) then None
  else Some (f :: stk, e).

Definition step (stk : list frame) (e : expect) (t : token) : option (list frame * expect) :=
  match e, t with
  | (EValue | EValueOrClose), TString s => complete (JString s) stk
  | (EValue | EValueOrClose), TWord w =>
      match word_value w with
      | Some v => complete v stk
      | None => None
      end
  | (EValue | EValueOrClose), TLBracket => push (FArr []) EValueOrClose stk
  | (EValue | EValueOrClose), TLBrace => push (FObj [] None) EKeyOrClose stk
  | EValueOrClose, TRBracket =>
      match stk with
      | FArr [] :: rest => complete (JArray []) rest
      | _ => None
      end
  | (EKeyOrClose | EKey), TString k =>
      match stk with
      | FObj acc None :: rest => Some (FObj acc (Some k) :: rest, EColon)
      | _ => None
      end
  | EKeyOrClose, TRBrace =>
      match stk with
      | FObj [] None :: rest => complete (JObject []) rest
      | _ => None
      end
  | EColon, TColon => Some (stk, EValue)
  | ECommaOrClose, TComma =>
      match stk with
      | FArr _ :: _ => Some (stk, EValue)
      | FObj _ None :: _ => Some (stk, EKey)
      | _ => None
      end
  | ECommaOrClose, TRBracket =>
      match stk with
      | FArr acc :: rest => complete (JArray (List.rev acc)) rest
      | _ => None
      end
  | ECommaOrClose, TRBrace =>
      match stk with
      | FObj acc None :: rest => complete (JObject (List.rev acc)) rest
      | _ => None
      end
  | _, _ => None
  end.

Fixpoint run (stk : list frame) (e : expect) (ts : list token) : option value :=
  match ts with
  | [] => match stk, e with
          | [], EEnd v => Some v
          | _, _ => None
          end
  | t :: r => match step stk e t with
              | Some (stk', e') => run stk' e' r
              | None => None
              end
  end.

(** The syntax check and scan of [json.Unmarshal]: [None] is Go's
    [SyntaxError]. *)
Definition parse (s : string) : option value :=
  match lex LOut s with
  | Some ts => run [] EValue ts
  | None => None
  end.

(** *** Decoding into Go types

    [None] stands for the error [Unmarshal] returns (a type mismatch or
    a number out of range anywhere in the text).  [null] leaves the
    target as it is.  Keys of an object are handled in the order of the
    text, so a key that comes twice is decoded twice.  Field names are
    compared exactly or, failing that, without regard to the case of
    ASCII letters. *)

Definition upper (c : ascii) : ascii :=
  if in_range 97 122 c then byte_of (byte_val c - 32) else c.

Definition field_is (tag key : string) : bool :=
  String.eqb key tag || String.eqb (map_string upper key) (map_string upper tag).

Definition into_string (v : value) (old : string) : option string :=
  match v with
  | JNull => Some old
  | JString s => Some s
  | _ => None
  end.

Definition into_float64 (v : value) (old : float) : option float :=
  match v with
  | JNull => Some old
  | JNumber lit => strconv.ParseFloat lit
  | _ => None
  end.

Definition into_int64 (v : value) (old : Z) : option Z :=
  match v with
  | JNull => Some old
  | JNumber lit => strconv.ParseInt lit
  | _ => None
  end.

Fixpoint members {A : Type} (field : A -> string -> value -> option A)
         (ms : list (string * value)) (a : A) : option A :=
  match ms with
  | [] => Some a
  | (k, v) :: r =>
      match field a k v with
      | Some a' => members field r a'
      | None => None
      end
  end.

Definition into_struct {A : Type} (field : A -> string -> value -> option A)
           (v : value) (old : A) : option A :=
  match v with
  | JNull => Some old
  | JObject ms => members field ms old
  | _ => None
  end.

Fixpoint elements {A : Type} (elem : value -> option A) (l : list value) : option (list A) :=
  match l with
  | [] => Some []
  | v :: r =>
      match elem v, elements elem r with
      | Some a, Some t => Some (a :: t)
      | _, _ => None
      end
  end.

(** An array into a slice that was empty: [null] gives the nil slice. *)
Definition into_slice {A : Type} (elem : value -> option A) (v : value) : option (list A) :=
  match v with
  | JNull => Some []
  | JArray l => elements elem l
  | _ => None
  end.

(** A value held in an [any]: every number in it must fit a [float64]. *)
Fixpoint any_ok (v : value) : bool :=
  match v with
  | JNumber lit => match strconv.ParseFloat lit with Some _ => true | None => false end
  | JArray l => forallb any_ok l
  | JObject ms => forallb (fun kv : string * value => let (_, x) := kv in any_ok x) ms
  | _ => true
  end.

(** [map[string]any]: the bindings in the order of the text, the last
    binding of a key being the one that counts. *)
Definition Map : Type := list (string * value).

Definition lookup (m : Map) (k : string) : option value :=
  fold_left (fun found kv => if String.eqb (fst kv) k then Some (snd kv) else found) m None.

Definition into_map (v : value) (old : Map) : option Map :=
  match v with
  | JNull => Some old
  | JObject ms => if forallb (fun kv : string * value => any_ok (snd kv)) ms then Some (old ++ ms)%list else None
  | _ => None
  end.

(** A plain rendering of a value, for strings that need no escape. *)
Fixpoint render (v : value) : string :=
  match v with
  | JNull => "null"
  | JBool b => if b then "true" else "false"
  | JNumber lit => lit
  | JString s => quote ++ s ++ quote
  | JArray l => "[" ++ String.concat "," (List.map render l) ++ "]"
  | JObject ms =>
      "{" ++ String.concat ","
               (List.map (fun kv : string * value =>
                            let (k, x) := kv in quote ++ k ++ quote ++ ":" ++ render x) ms)
          ++ "}"
  end.

(** [json.Unmarshal(data, &x)] with [x] decoded by [into] from its
    initial value. *)
Definition Unmarshal {A : Type} (into : value -> option A) (data : string) : option A :=
  match parse data with
  | Some v => into v
  | None => None
  end.

End json.

(** ** Package [time]

    A [Time] is a number of nanoseconds since the Unix epoch; the wall
    clock and the monotonic clock are taken to agree.  A [Duration] is an
    [int64] of nanoseconds. *)
Module time.

Definition Time : Type := Z.
Definition Duration : Type := Z.

Definition Millisecond : Duration := 1000000.
Definition Second : Duration := 1000 * Millisecond.
Definition Minute : Duration := 60 * Second.
Definition Hour : Duration := 3600 * Second.

(** The zero [Time]: January 1 of year 1. *)
Definition zero : Time := - 62135596800 * Second.

Definition Before (t u : Time) : bool := t <? u.

Definition Add (t : Time) (d : Duration) : Time := t + d.

(** [t.Sub(u)] saturates at the ends of [Duration]. *)
Definition Sub (t u : Time) : Duration := Z.max minInt64 (Z.min maxInt64 (t - u)).

Definition UnixMilli (t : Time) : Z := wrap64 (t / Millisecond).

End time.

(** ** Package [net/http], as far as the client is concerned *)
Module http.

Record Cookie : Type := mkCookie { Name : string; Value : string }.

(** What [io.ReadAll(resp.Body)] gives. *)
Inductive body : Type :=
| Readable (b : string)
| Unreadable (cause : string).

Record Response : Type := mkResponse {
  StatusCode : Z;
  Cookies : list Cookie;
  Body : body
}.

(** The outcome of [HTTPClient.Do]: the text of a transport error, or a
    response. *)
Inductive round_trip : Type :=
| Failed (cause : string)
| Answered (r : Response).

(** A request; [Payload] is the JSON value whose encoding is the body. *)
Record Request : Type := mkRequest {
  Method : string;
  URL : string;
  Header : list (string * string);
  Payload : option json.value
}.

Definition StatusOK : Z := 200.
Definition StatusUnauthorized : Z := 401.
Definition StatusTooManyRequests : Z := 429.

(** [req.Header.Set] and [req.Header[k] = []string{v}]. *)
Definition set_header (k v : string) (r : Request) : Request :=
  mkRequest (Method r) (URL r)
    (filter (fun kv => negb (String.eqb (fst kv) k)) (Header r) ++ [(k, v)])%list
    (Payload r).

End http.

(** ** Package [net], as far as [LANIP] is concerned *)
Module net.

(** [net.IP] is a slice of bytes.  Nothing below tells [nil] from the
    empty slice, so both are the empty string. *)
Definition IP : Type := string.

Definition IPv4len : Z := 4.
Definition IPv6len : Z := 16.

Fixpoint bytes (l : list Z) : string :=
  match l with
  | [] => EmptyString
  | b :: r => String (byte_of b) (bytes r)
  end.

Definition v4InV6Prefix : string := bytes [0; 0; 0; 0; 0; 0; 0; 0; 0; 0; 255; 255].

Definition IPv6loopback : IP := bytes [0; 0; 0; 0; 0; 0; 0; 0; 0; 0; 0; 0; 0; 0; 0; 1].

(** [ip[i]], for [i] within the slice. *)
Definition at_ (ip : IP) (i : nat) : Z :=
  match String.get i ip with
  | Some c => byte_val c
  | None => 0
  end.

Fixpoint isZeros (p : string) : bool :=
  match p with
  | EmptyString => true
  | String c r => (byte_val c =? 0) && isZeros r
  end.

(** [ip.To4()]; [None] is the [nil] it returns for what is not an IPv4
    address. *)
Definition To4 (ip : IP) : option IP :=
  if len ip =? IPv4len then Some ip
  else if (len ip =? IPv6len) && isZeros (substring 0 10 ip)
          && (at_ ip 10 =? 255) && (at_ ip 11 =? 255)
  then Some (substring 12 4 ip)
  else None.

(** [ip.Equal(x)] *)
Definition Equal (ip x : IP) : bool :=
  if len ip =? len x then String.eqb ip x
  else if (len ip =? IPv4len) && (len x =? IPv6len) then
    String.eqb (substring 0 12 x) v4InV6Prefix && String.eqb ip (substring 12 4 x)
  else if (len ip =? IPv6len) && (len x =? IPv4len) then
    String.eqb (substring 0 12 ip) v4InV6Prefix && String.eqb (substring 12 4 ip) x
  else false.

(** [ip.IsLoopback()] *)
Definition IsLoopback (ip : IP) : bool :=
  match To4 ip with
  | Some ip4 => at_ ip4 0 =? 127
  | None => Equal ip IPv6loopback
  end.

(** [ip.String()] for an address of four bytes, which is what [To4]
    returns: the dotted notation. *)
Definition dotted (ip : IP) : string :=
  strconv.Itoa (at_ ip 0) ++ "." ++ strconv.Itoa (at_ ip 1) ++ "."
  ++ strconv.Itoa (at_ ip 2) ++ "." ++ strconv.Itoa (at_ ip 3).

(** The dynamic types behind a [net.Addr]. *)
Inductive Addr : Type :=
| IPNet (ip : IP) (mask : string)
| IPAddr (ip : IP) (zone : string)
| OtherAddr.

Definition FlagUp : Z := 1.
Definition FlagLoopback : Z := 4.

(** An interface as [net.Interfaces()] lists it, with what a call of its
    method [Addrs()] gives: the text of an error, or the addresses. *)
Record Interface : Type := mkInterface {
  Flags : Z;
  Addrs : string + list Addr
}.

End net.

(** ** Package [network]: the client *)
Module network.

Import http.

(** *** Types *)

(** [SpeedtestResult] *)
Record SpeedtestResult : Type := mkSpeedtestResult {
  DownloadMbps : float;
  UploadMbps : float;
  LatencyMs : float;
  Timestamp : Z
}.

(** [SpeedtestCache]; [Result] is a pointer, [None] when nil. *)
Record SpeedtestCache : Type := mkSpeedtestCache {
  Result : option SpeedtestResult;
  CachedAt : time.Time;               (* field [Timestamp] of the cache *)
  TTL : time.Duration
}.

(** [SessionCache] *)
Record SessionCache : Type := mkSessionCache {
  SessionAuthToken : string;          (* [session.AuthToken] *)
  SessionCSRFToken : string;          (* [session.CSRFToken] *)
  Expires : time.Time
}.

(** [UDMProClient], without the HTTP client and the mutex. *)
Record UDMProClient : Type := mkClient {
  BaseURL : string;
  Username : string;
  Password : string;
  Site : string;
  Version : string;
  IsUniFiOS : bool;
  AuthToken : string;
  CSRFToken : string;
  cache : SpeedtestCache;
  session : SessionCache
}.

(** An element of [data]: the anonymous struct with [xput_download],
    [xput_upload], [latency] and [time]. *)
Record Sample : Type := mkSample {
  XputDownload : float;
  XputUpload : float;
  Latency : float;
  Time : Z
}.

Record Meta : Type := mkMeta { RC : string; Msg : string }.

(** [SpeedtestResponse] *)
Record SpeedtestResponse : Type := mkSpeedtestResponse {
  RespMeta : Meta;
  RespData : list Sample
}.

(** The v2 response: [errorCode], [message], [data]. *)
Record V2Response : Type := mkV2Response {
  ErrorCode : Z;
  Message : string;
  V2Data : list Sample
}.

(** The errors of the package, one constructor for each [fmt.Errorf];
    the comment gives the format. *)
Inductive error : Type :=
| ErrTimeout (base : string)            (* network timeout - cannot reach UDM Pro at %s. ... *)
| ErrRefused (base : string)            (* connection refused - UDM Pro at %s is not accessible. ... *)
| ErrNoHost (base : string)             (* host not found - invalid UDM Pro address: %s. ... *)
| ErrDetect (cause : string)            (* failed to detect controller type: %v *)
| ErrDetectFailed (e : error)           (* failed to detect controller type: %v (NewUDMProClient) *)
| ErrCreateLoginRequest (cause : string) (* failed to create login request: %v *)
| ErrLoginRequest (cause : string)      (* login request failed: %v *)
| ErrReadBody (cause : string)          (* failed to read response body: %v *)
| ErrRateLimited (status : Z)           (* login failed with status: %d (rate limited) - ... *)
| ErrLoginStatus (status : Z)           (* login failed with status: %d *)
| ErrExtractCSRF (e : error)            (* failed to extract CSRF token: %v *)
| ErrJWTFormat (parts : Z)              (* invalid JWT format - expected 3 parts, got %d *)
| ErrJWTDecode                          (* failed to decode JWT payload: %v *)
| ErrJWTParse                           (* failed to parse JWT payload: %v *)
| ErrNoAuthToken                        (* no authentication token found in response *)
| ErrCreateSpeedtestRequest (cause : string) (* failed to create speedtest request: %v *)
| ErrSpeedtestRequest (cause : string)  (* speedtest request failed: %v *)
| ErrReauth (e : error)                 (* re-authentication failed: %v *)
| ErrSpeedtestStatus (status : Z)       (* speedtest request failed with status: %d *)
| ErrAPI (msg : string)                 (* API error: %s *)
| ErrAPIStatus (rc : string)            (* API returned status: %s *)
| ErrNoResults                          (* no speedtest results found in response *)
| ErrNoValidResults                     (* no valid speedtest results found (all results have zero values) *)
| ErrV2 (code : Z) (msg : string)       (* v2 API error (code %d): %s *)
| ErrUnparsed (raw : string)            (* failed to parse speedtest response in any known format. Raw response: %s *)
| ErrCreateClient (e : error)           (* failed to create client: %v *)
| ErrLoginFailed (e : error)            (* login failed: %v *)
| ErrFetchFailed (e : error).           (* failed to fetch speedtest results: %v *)

(** *** The environment

    The clock is read by [time.Now()]; each reading moves it forward by
    the next of [ticks] (it stays where it is once they are used up).
    [wire] scripts the outcomes of the round trips to come; when it is
    used up the gateway cannot be reached.  [sent] records the requests
    handed to the transport, oldest first.  [url_error] is the verdict of
    [url.Parse] on a URL: the text of its error, if any. *)
Record World : Type := mkWorld {
  now : time.Time;
  ticks : list N;
  wire : list round_trip;
  sent : list Request;
  url_error : string -> option string
}.

Definition unreachable : string := "dial tcp: connect: connection refused".

Record State : Type := mkState { client : UDMProClient; world : World }.

(** How a call ends: with a value, with an error, with a panic of the
    runtime, or (for the recursion on 401 only) short of fuel. *)
Inductive result (A : Type) : Type :=
| Ok (a : A)
| Err (e : error)
| Panic (msg : string)
| OutOfFuel.
Arguments Ok {A} a.
Arguments Err {A} e.
Arguments Panic {A} msg.
Arguments OutOfFuel {A}.

Definition M (A : Type) : Type := State -> result A * State.

Definition ret {A : Type} (a : A) : M A := fun s => (Ok a, s).

Definition bind {A B : Type} (m : M A) (k : A -> M B) : M B :=
  fun s =>
    match m s with
    | (Ok a, s') => k a s'
    | (Err e, s') => (Err e, s')
    | (Panic p, s') => (Panic p, s')
    | (OutOfFuel, s') => (OutOfFuel, s')
    end.

Definition fail {A : Type} (e : error) : M A := fun s => (Err e, s).

Definition panic {A : Type} (msg : string) : M A := fun s => (Panic msg, s).

(** [if err := m; err != nil { return fmt.Errorf(w, err) }] *)
Definition wrap {A : Type} (w : error -> error) (m : M A) : M A :=
  fun s =>
    match m s with
    | (Err e, s') => (Err (w e), s')
    | r => r
    end.

Declare Scope go_scope.
Delimit Scope go_scope with go.
Notation "x <- m ;; k" := (bind m (fun x => k))
  (at level 100, m at next level, right associativity) : go_scope.
Notation "m ;;; k" := (bind m (fun _ => k))
  (at level 100, right associativity) : go_scope.
Local Open Scope go_scope.

Definition get_client : M UDMProClient := fun s => (Ok (client s), s).

Definition update (f : UDMProClient -> UDMProClient) : M unit :=
  fun s => (Ok tt, mkState (f (client s)) (world s)).

Definition set_IsUniFiOS (b : bool) (c : UDMProClient) : UDMProClient :=
  mkClient (BaseURL c) (Username c) (Password c) (Site c) (Version c)
           b (AuthToken c) (CSRFToken c) (cache c) (session c).

Definition set_AuthToken (t : string) (c : UDMProClient) : UDMProClient :=
  mkClient (BaseURL c) (Username c) (Password c) (Site c) (Version c)
           (IsUniFiOS c) t (CSRFToken c) (cache c) (session c).

Definition set_CSRFToken (t : string) (c : UDMProClient) : UDMProClient :=
  mkClient (BaseURL c) (Username c) (Password c) (Site c) (Version c)
           (IsUniFiOS c) (AuthToken c) t (cache c) (session c).

Definition set_cache (k : SpeedtestCache) (c : UDMProClient) : UDMProClient :=
  mkClient (BaseURL c) (Username c) (Password c) (Site c) (Version c)
           (IsUniFiOS c) (AuthToken c) (CSRFToken c) k (session c).

Definition set_session (k : SessionCache) (c : UDMProClient) : UDMProClient :=
  mkClient (BaseURL c) (Username c) (Password c) (Site c) (Version c)
           (IsUniFiOS c) (AuthToken c) (CSRFToken c) (cache c) k.

(** [time.Now()] *)
Definition Now : M time.Time :=
  fun s =>
    let w := world s in
    match ticks w with
    | [] => (Ok (now w), s)
    | dt :: r =>
        let t := now w + Z.of_N dt in
        (Ok t, mkState (client s) (mkWorld t r (wire w) (sent w) (url_error w)))
    end.

(** [http.NewRequest(method, url, body)] *)
Definition NewRequest (method url : string) (payload : option json.value)
           (w : string -> error) : M Request :=
  fun s =>
    match url_error (world s) url with
    | Some cause => (Err (w cause), s)
    | None => (Ok (mkRequest method url [] payload), s)
    end.

(** [c.HTTPClient.Do(req)] *)
Definition Do (req : Request) (w : string -> error) : M Response :=
  fun s =>
    let wd := world s in
    let logged r := mkWorld (now wd) (ticks wd) r (sent wd ++ [req])%list (url_error wd) in
    match wire wd with
    | [] => (Err (w unreachable), mkState (client s) (logged []))
    | Failed cause :: r => (Err (w cause), mkState (client s) (logged r))
    | Answered resp :: r => (Ok resp, mkState (client s) (logged r))
    end.

(** [io.ReadAll(resp.Body)] *)
Definition ReadAll (resp : Response) : M string :=
  match Body resp with
  | Readable b => ret b
  | Unreadable cause => fail (ErrReadBody cause)
  end.

(** *** Decoders of the response types (their [json] tags) *)

Definition zeroSample : Sample :=
  mkSample PrimFloat.zero PrimFloat.zero PrimFloat.zero 0.

Definition sample_field (e : Sample) (k : string) (v : json.value) : option Sample :=
  if json.field_is "xput_download" k then
    option_map (fun x => mkSample x (XputUpload e) (Latency e) (Time e))
               (json.into_float64 v (XputDownload e))
  else if json.field_is "xput_upload" k then
    option_map (fun x => mkSample (XputDownload e) x (Latency e) (Time e))
               (json.into_float64 v (XputUpload e))
  else if json.field_is "latency" k then
    option_map (fun x => mkSample (XputDownload e) (XputUpload e) x (Time e))
               (json.into_float64 v (Latency e))
  else if json.field_is "time" k then
    option_map (fun x => mkSample (XputDownload e) (XputUpload e) (Latency e) x)
               (json.into_int64 v (Time e))
  else Some e.

Definition into_Samples (v : json.value) : option (list Sample) :=
  json.into_slice (fun x => json.into_struct sample_field x zeroSample) v.

Definition meta_field (m : Meta) (k : string) (v : json.value) : option Meta :=
  if json.field_is "rc" k then option_map (fun x => mkMeta x (Msg m)) (json.into_string v (RC m))
  else if json.field_is "msg" k then option_map (fun x => mkMeta (RC m) x) (json.into_string v (Msg m))
  else Some m.

Definition response_field (r : SpeedtestResponse) (k : string) (v : json.value)
  : option SpeedtestResponse :=
  if json.field_is "meta" k then
    option_map (fun x => mkSpeedtestResponse x (RespData r))
               (json.into_struct meta_field v (RespMeta r))
  else if json.field_is "data" k then
    option_map (fun x => mkSpeedtestResponse (RespMeta r) x) (into_Samples v)
  else Some r.

Definition into_SpeedtestResponse (v : json.value) : option SpeedtestResponse :=
  json.into_struct response_field v (mkSpeedtestResponse (mkMeta "" "") []).

Definition v2_field (r : V2Response) (k : string) (v : json.value) : option V2Response :=
  if json.field_is "errorCode" k then
    option_map (fun x => mkV2Response x (Message r) (V2Data r)) (json.into_int64 v (ErrorCode r))
  else if json.field_is "message" k then
    option_map (fun x => mkV2Response (ErrorCode r) x (V2Data r)) (json.into_string v (Message r))
  else if json.field_is "data" k then
    option_map (fun x => mkV2Response (ErrorCode r) (Message r) x) (into_Samples v)
  else Some r.

Definition into_V2Response (v : json.value) : option V2Response :=
  json.into_struct v2_field v (mkV2Response 0 "" []).

(** [json.Marshal] of a [LoginRequest] and of a [SpeedtestRequest]
    ([start] and [end] are [omitempty]), as the value that is encoded. *)
Definition marshal_LoginRequest (username password : string) : json.value :=
  json.JObject [("username", json.JString username); ("password", json.JString password)].

Definition marshal_SpeedtestRequest (start end_ : Z) : json.value :=
  json.JObject
    ([("attrs", json.JArray [json.JString "xput_download"; json.JString "xput_upload";
                             json.JString "latency"; json.JString "time"])]
     ++ (if start =? 0 then [] else [("start", json.JNumber (strconv.Itoa start))])
     ++ (if end_ =? 0 then [] else [("end", json.JNumber (strconv.Itoa end_))]))%list.

(** *** Construction and detection of the controller family *)

(** The branches of [detectControllerType] on [err.Error()], which reads
    [op "url": cause] with [op] one of [parse] and [Get]. *)
Definition detect_error (op url base cause : string) : error :=
  let msg := op ++ " " ++ quote ++ url ++ quote ++ ": " ++ cause in
  if strings.Contains msg "timeout" || strings.Contains msg "deadline exceeded"
  then ErrTimeout base
  else if strings.Contains msg "connection refused" then ErrRefused base
  else if strings.Contains msg "no such host" then ErrNoHost base
  else ErrDetect msg.

Definition detectControllerType : M unit :=
  c <- get_client ;;
  let url := BaseURL c ++ "/" in
  req <- NewRequest "GET" url None (detect_error "parse" url (BaseURL c)) ;;
  resp <- Do req (detect_error "Get" url (BaseURL c)) ;;
  update (set_IsUniFiOS (StatusCode resp =? 200)).

Definition NewUDMProClient (baseURL username password site version : string)
  : World -> result UDMProClient * World :=
  fun w =>
    let c0 := mkClient (strings.TrimRight baseURL "/") username password site version
                       false "" ""
                       (mkSpeedtestCache None time.zero (24 * time.Hour))
                       (mkSessionCache "" "" time.zero) in
    match (t <- Now ;;
           update (fun c => set_session (mkSessionCache "" "" t) c) ;;;
           wrap ErrDetectFailed detectControllerType) (mkState c0 w) with
    | (Ok _, s) => (Ok (client s), world s)
    | (Err e, s) => (Err e, world s)
    | (Panic p, s) => (Panic p, world s)
    | (OutOfFuel, s) => (OutOfFuel, world s)
    end.

(** *** The session *)

(** [isSessionValid]; the conjunction stops at an empty token, before the
    clock is read. *)
Definition isSessionValid : M bool :=
  c <- get_client ;;
  if String.eqb (SessionAuthToken (session c)) "" then ret false
  else t <- Now ;; ret (time.Before t (Expires (session c))).

Definition cacheSession : M unit :=
  t <- Now ;;
  update (fun c => set_session
                     (mkSessionCache (AuthToken c) (CSRFToken c) (time.Add t (8 * time.Hour))) c).

Definition useCachedSession : M unit :=
  update (fun c => set_CSRFToken (SessionCSRFToken (session c))
                     (set_AuthToken (SessionAuthToken (session c)) c)).

Definition possibleFields : list string := ["csrfToken"; "csrf_token"; "xsrfToken"; "token"].

(** The loop over [possibleFields]: the first field that is present with
    a non-empty string. *)
Fixpoint findCSRF (fields : list string) (jwtData : json.Map) : option string :=
  match fields with
  | [] => None
  | field :: r =>
      match json.lookup jwtData field with
      | Some (json.JString tokenStr) =>
          if String.eqb tokenStr "" then findCSRF r jwtData else Some tokenStr
      | _ => findCSRF r jwtData
      end
  end.

(** The payload made ready for [base64.StdEncoding]. *)
Definition fixPayload (payload : string) : string :=
  let padded := match len payload mod 4 with
                | 2 => payload ++ "=="
                | 3 => payload ++ "="
                | _ => payload
                end in
  strings.ReplaceAll (strings.ReplaceAll padded "-" "+") "_" "/".

Definition extractCSRFToken : M unit :=
  c <- get_client ;;
  if negb (IsUniFiOS c) || String.eqb (AuthToken c) "" then ret tt
  else
    let parts := strings.Split (AuthToken c) "." in
    if negb (Z.of_nat (List.length parts) =? 3) then
      fail (ErrJWTFormat (Z.of_nat (List.length parts)))
    else
      match base64.DecodeString (fixPayload (nth 1 parts "")) with
      | None => fail ErrJWTDecode
      | Some decoded =>
          match json.Unmarshal (fun v => json.into_map v []) decoded with
          | None => fail ErrJWTParse
          | Some jwtData =>
              match findCSRF possibleFields jwtData with
              | Some tokenStr => update (set_CSRFToken tokenStr)
              | None => ret tt
              end
          end
      end.

(** The loop of [Login] over [resp.Cookies()]. *)
Fixpoint loginCookies (cookies : list Cookie) : M unit :=
  match cookies with
  | [] => ret tt
  | cookie :: r =>
      c <- get_client ;;
      (if IsUniFiOS c && String.eqb (Name cookie) "TOKEN" then
         update (set_AuthToken (Value cookie)) ;;;
         wrap ErrExtractCSRF extractCSRFToken
       else if negb (IsUniFiOS c) && String.eqb (Name cookie) "unifises" then
         update (set_AuthToken (Value cookie))
       else ret tt) ;;;
      loginCookies r
  end.

Definition loginURL (c : UDMProClient) : string :=
  if IsUniFiOS c then BaseURL c ++ "/api/auth/login" else BaseURL c ++ "/api/login".

(** [Login] past the check of the cached session. *)
Definition freshLogin : M unit :=
  c <- get_client ;;
  req <- NewRequest "POST" (loginURL c)
           (Some (marshal_LoginRequest (Username c) (Password c))) ErrCreateLoginRequest ;;
  let req := set_header "Referer" (BaseURL c ++ "/login")
               (set_header "Expect" ""
                  (set_header "Content-Type" "application/json"
                     (set_header "Accept" "application/json" req))) in
  resp <- Do req ErrLoginRequest ;;
  _ <- ReadAll resp ;;
  if StatusCode resp =? StatusTooManyRequests then fail (ErrRateLimited (StatusCode resp))
  else if negb (StatusCode resp =? StatusOK) then fail (ErrLoginStatus (StatusCode resp))
  else
    loginCookies (Cookies resp) ;;;
    c' <- get_client ;;
    if String.eqb (AuthToken c') "" then fail ErrNoAuthToken
    else cacheSession.

Definition Login : M unit :=
  valid <- isSessionValid ;;
  if valid then useCachedSession else freshLogin.

(** *** The result cache *)

(** [getCachedSpeedtest]; [time.Since] is not evaluated when there is no
    result. *)
Definition getCachedSpeedtest : M (option SpeedtestResult) :=
  c <- get_client ;;
  match Result (cache c) with
  | None => ret None
  | Some r =>
      t <- Now ;;
      if time.Sub t (CachedAt (cache c)) <? TTL (cache c) then ret (Some r) else ret None
  end.

Definition setCachedSpeedtest (result : option SpeedtestResult) : M unit :=
  t <- Now ;;
  update (fun c => set_cache (mkSpeedtestCache result t (TTL (cache c))) c).

(** *** The archive request and its response *)

Definition convertSpeedtestResult (data : Sample) : SpeedtestResult :=
  mkSpeedtestResult (XputDownload data) (XputUpload data) (Latency data) (Time data).

(** [result.XputDownload > 0 || result.XputUpload > 0] *)
Definition nonzero (result : Sample) : bool :=
  PrimFloat.ltb PrimFloat.zero (XputDownload result)
  || PrimFloat.ltb PrimFloat.zero (XputUpload result).

(** The loop that looks for the most recent valid sample; it is written
    three times in the source, once for each shape of response.
    [mostRecent] points into the slice: it is kept as an index with the
    element found there. *)
Fixpoint scan (i : nat) (data : list Sample) (mostRecent : option (nat * Sample))
  : option (nat * Sample) :=
  match data with
  | [] => mostRecent
  | result :: rest =>
      scan (S i) rest
        (if nonzero result then
           match mostRecent with
           | None => Some (i, result)
           | Some (_, m) => if Time m <? Time result then Some (i, result) else mostRecent
           end
         else mostRecent)
  end.

Definition findMostRecent (data : list Sample) : option (nat * Sample) :=
  scan 0 data None.

(** The loop followed by the test of [mostRecent == nil]. *)
Definition selectMostRecent (data : list Sample) : error + SpeedtestResult :=
  match findMostRecent data with
  | None => inl ErrNoValidResults
  | Some (_, m) => inr (convertSpeedtestResult m)
  end.

Definition is_nil {A : Type} (l : list A) : bool :=
  match l with [] => true | _ => false end.

(** The third attempt: the v2 shape, then the failure of all three. *)
Definition parseV2 (body : string) : error + SpeedtestResult :=
  match json.Unmarshal into_V2Response body with
  | Some v2Response =>
      if negb (ErrorCode v2Response =? 0) then
        inl (ErrV2 (ErrorCode v2Response)
                   (if String.eqb (Message v2Response) "" then "Unknown error from v2 API"
                    else Message v2Response))
      else if negb (is_nil (V2Data v2Response)) then selectMostRecent (V2Data v2Response)
      else inl (ErrUnparsed body)
  | None => inl (ErrUnparsed body)
  end.

(** The second attempt: an array without wrapper. *)
Definition parseArray (body : string) : error + SpeedtestResult :=
  match json.Unmarshal into_Samples body with
  | Some (x :: l) => selectMostRecent (x :: l)
  | _ => parseV2 body
  end.

(** The body of a 200 response: the three shapes in turn. *)
Definition parseSpeedtest (body : string) : error + SpeedtestResult :=
  match json.Unmarshal into_SpeedtestResponse body with
  | Some standardResp =>
      let rc := RC (RespMeta standardResp) in
      if String.eqb rc "" then parseArray body
      else if negb (String.eqb rc "ok") then
        if String.eqb rc "error" then
          inl (ErrAPI (if String.eqb (Msg (RespMeta standardResp)) ""
                       then "Unknown error from controller"
                       else Msg (RespMeta standardResp)))
        else inl (ErrAPIStatus rc)
      else if is_nil (RespData standardResp) then inl ErrNoResults
      else selectMostRecent (RespData standardResp)
  | None => parseArray body
  end.

Definition lift {A : Type} (r : error + A) : M A :=
  match r with
  | inl e => fail e
  | inr a => ret a
  end.

Definition archiveURL (c : UDMProClient) : string :=
  let path := "/api/s/" ++ Site c ++ "/stat/report/archive.speedtest" in
  if IsUniFiOS c then BaseURL c ++ "/proxy/network" ++ path else BaseURL c ++ path.

(** The request of [GetSpeedtestResultsInRange], up to the call of the
    transport.  The token is sliced as [c.CSRFToken[:10]] for a message:
    that panics when it has fewer than ten bytes. *)
Definition archiveRequest (start end_ : Z) : M Request :=
  c <- get_client ;;
  req <- NewRequest "GET" (archiveURL c) None ErrCreateSpeedtestRequest ;;
  let req := mkRequest "POST" (URL req) (Header req)
                       (Some (marshal_SpeedtestRequest start end_)) in
  let req := set_header "Expect" ""
               (set_header "Content-Type" "application/json"
                  (set_header "Accept" "application/json" req)) in
  if IsUniFiOS c && String.eqb (Method req) "POST" && negb (String.eqb (CSRFToken c) "") then
    if len (CSRFToken c) <? 10 then panic "slice bounds out of range"
    else ret (set_header "x-csrf-token" (CSRFToken c) req)
  else ret req.

(** The three assignments made on a 401, before the new login. *)
Definition clearSession : M unit :=
  update (set_AuthToken "") ;;;
  update (set_CSRFToken "") ;;;
  t <- Now ;;
  update (fun c => set_session
                     (mkSessionCache (SessionAuthToken (session c))
                                     (SessionCSRFToken (session c)) t) c).

(** The body of [GetSpeedtestResultsInRange], with the call it makes to
    itself after a 401 as [self]. *)
Definition fetchBody (self : Z -> Z -> M SpeedtestResult) (start end_ : Z)
  : M SpeedtestResult :=
  req <- archiveRequest start end_ ;;
  resp <- Do req ErrSpeedtestRequest ;;
  if StatusCode resp =? StatusUnauthorized then
    clearSession ;;;
    wrap ErrReauth Login ;;;
    self start end_
  else if negb (StatusCode resp =? StatusOK) then
    fail (ErrSpeedtestStatus (StatusCode resp))
  else
    body <- ReadAll resp ;;
    lift (parseSpeedtest body).

(** [fuel] bounds the depth of the calls of the function to itself. *)
Fixpoint fetchInRange (fuel : nat) : Z -> Z -> M SpeedtestResult :=
  match fuel with
  | O => fun _ _ s => (OutOfFuel, s)
  | S fuel' => fetchBody (fetchInRange fuel')
  end.

(** Each call consumes a scripted round trip before it calls itself, so
    one more unit of fuel than there are round trips left is enough. *)
Definition GetSpeedtestResultsInRange (start end_ : Z) : M SpeedtestResult :=
  fun s => fetchInRange (S (List.length (wire (world s)))) start end_ s.

Definition GetSpeedtestResults : M SpeedtestResult :=
  cached <- getCachedSpeedtest ;;
  match cached with
  | Some r => ret r
  | None =>
      t <- Now ;;
      let end_ := time.UnixMilli t in
      let start := wrap64 (end_ - 24 * 60 * 60 * 1000) in
      result <- GetSpeedtestResultsInRange start end_ ;;
      setCachedSpeedtest (Some result) ;;;
      ret result
  end.

(** [FormatSpeed] *)
Definition FormatSpeed (mbps : float) : string :=
  if PrimFloat.leb 1000 mbps then strconv.FormatFloat1 (mbps / 1000) ++ " Gb/s"
  else strconv.FormatFloat1 mbps ++ " Mb/s".

(** [GetUDMProSpeedtest] *)
Definition GetUDMProSpeedtest (baseURL username password site version : string)
  : World -> result SpeedtestResult * World :=
  fun w =>
    match NewUDMProClient baseURL username password site version w with
    | (Ok c, w1) =>
        let (r, s) := (wrap ErrLoginFailed Login ;;;
                       wrap ErrFetchFailed GetSpeedtestResults) (mkState c w1) in
        (r, world s)
    | (Err e, w1) => (Err (ErrCreateClient e), w1)
    | (Panic p, w1) => (Panic p, w1)
    | (OutOfFuel, w1) => (OutOfFuel, w1)
    end.

(** *** Addresses of the device and relative time *)

(** The inner loop of [LANIP], over the addresses of one interface. *)
Fixpoint firstIPv4 (addrs : list net.Addr) : option string :=
  match addrs with
  | [] => None
  | addr :: r =>
      let ip := match addr with
                | net.IPNet ip _ => ip
                | net.IPAddr ip _ => ip
                | net.OtherAddr => EmptyString
                end in
      if (len ip =? 0) || net.IsLoopback ip then firstIPv4 r
      else
        match net.To4 ip with
        | None => firstIPv4 r
        | Some ip4 => Some (net.dotted ip4)
        end
  end.

(** The outer loop of [LANIP], over the interfaces; an error is returned
    as its text. *)
Fixpoint scanInterfaces (ifaces : list net.Interface) : string + string :=
  match ifaces with
  | [] => inl "network not found"
  | iface :: r =>
      if Z.land (net.Flags iface) net.FlagUp =? 0 then scanInterfaces r
      else if negb (Z.land (net.Flags iface) net.FlagLoopback =? 0) then scanInterfaces r
      else
        match net.Addrs iface with
        | inl err => inl err
        | inr addrs =>
            match firstIPv4 addrs with
            | Some s => inr s
            | None => scanInterfaces r
            end
        end
  end.

(** [LANIP], given what [net.Interfaces()] returns. *)
Definition LANIP (interfaces : string + list net.Interface) : string + string :=
  match interfaces with
  | inl err => inl err
  | inr ifaces => scanInterfaces ifaces
  end.

(** [time.Now()] in a function that is not a method of the client. *)
Definition clock (w : World) : time.Time * World :=
  match ticks w with
  | [] => (now w, w)
  | dt :: r =>
      let t := now w + Z.of_N dt in
      (t, mkWorld t r (wire w) (sent w) (url_error w))
  end.

(** [GetRelativeTime]; the subtraction is one of [int64], the divisions
    truncate. *)
Definition GetRelativeTime (timestamp : Z) (w : World) : string * World :=
  let (t, w') := clock w in
  let now_ := time.UnixMilli t in
  let diff := wrap64 (now_ - timestamp) in
  (if diff <? 60000 then "just now"
   else if diff <? 3600000 then strconv.Itoa (Z.quot diff 60000) ++ " minutes ago"
   else if diff <? 86400000 then strconv.Itoa (Z.quot diff 3600000) ++ " hours ago"
   else strconv.Itoa (Z.quot diff 86400000) ++ " days ago",
   w').

End network.

(** ** Package [display]: the loop of the speed-test screen *)
Module display.
Import network.

(** The options of the command line that the loop hands to the client. *)
Record CmdLineOpts : Type := mkOpts {
  UDMBaseURL : string;
  UDMUsername : string;
  UDMPassword : string;
  UDMSite : string;
  UDMVersion : string
}.

(** The variables of the goroutine of [buildSpeedTest]: what it keeps
    from one turn of its loop to the next, and the three lines it writes
    on the screen at the end of each turn. *)
Record Vars : Type := mkVars {
  lastResult : option SpeedtestResult;
  lastFetchTime : time.Time;
  lastKnownTimestamp : Z;
  dmsg : string;
  umsg : string;
  tmsg : string
}.

Definition initial : Vars :=
  mkVars None time.zero 0 "fetching..." "fetching..." "from UDM Pro".

Definition set_lines (d u t : string) (v : Vars) : Vars :=
  mkVars (lastResult v) (lastFetchTime v) (lastKnownTimestamp v) d u t.

(** The lines chosen from the text of the error, [msg] being
    [err.Error()]. *)
Definition showError (msg : string) (v : Vars) : Vars :=
  if strings.Contains msg "timeout" || strings.Contains msg "cannot reach" then
    set_lines "network error" "check UDM IP" "verify connectivity" v
  else if strings.Contains msg "connection refused" then
    set_lines "UDM offline" "check device" "verify running" v
  else if strings.Contains msg "login failed" || strings.Contains msg "403" then
    set_lines "auth error" "403 forbidden" "check credentials" v
  else if strings.Contains msg "429" then
    set_lines "rate limited" "retry tomorrow" "API limit hit" v
  else
    set_lines "connection error" "check logs" "see UDM_SETUP" v.

Section Loop.

(** [err.Error()], and [t.Hour()] in the time zone of the device. *)
Variable Error : error -> string.
Variable Hour : time.Time -> Z.

(** One turn of the loop, up to the lines it writes; the pause of five
    minutes that follows is time that passes on the clock. *)
Definition turn (opts : CmdLineOpts) (v : Vars) (w : World) : result Vars * World :=
  let (now_, w1) := clock w in
  let (shouldFetch, w2) :=
    match lastResult v with
    | None => (true, w1)
    | Some _ =>
        let (t, w2) := clock w1 in
        (5 * time.Minute <=? time.Sub t (lastFetchTime v), w2)
    end in
  if shouldFetch then
    match GetUDMProSpeedtest (UDMBaseURL opts) (UDMUsername opts) (UDMPassword opts)
                             (UDMSite opts) (UDMVersion opts) w2 with
    | (Err e, w3) => (Ok (showError (Error e) v), w3)
    | (Ok result, w3) =>
        let isNewer := (lastKnownTimestamp v =? 0)
                       || (lastKnownTimestamp v <? Timestamp result) in
        if isNewer then
          let (rel, w4) := GetRelativeTime (Timestamp result) w3 in
          (Ok (mkVars (Some result) now_ (Timestamp result)
                      (FormatSpeed (DownloadMbps result))
                      (FormatSpeed (UploadMbps result)) rel), w4)
        else
          (Ok (mkVars (lastResult v) now_ (lastKnownTimestamp v)
                      (dmsg v) (umsg v) (tmsg v)), w3)
    | (Panic p, w3) => (Panic p, w3)
    | (OutOfFuel, w3) => (OutOfFuel, w3)
    end
  else
    match lastResult v with
    | Some r =>
        let (rel, w3) := GetRelativeTime (Timestamp r) w2 in
        (Ok (set_lines (FormatSpeed (DownloadMbps r)) (FormatSpeed (UploadMbps r)) rel v), w3)
    | None =>
        let cst := time.Add now_ (- 6 * time.Hour) in
        if Hour cst <? 14 then (Ok (set_lines "waiting" "test at 2pm" "CST today" v), w2)
        else (Ok (set_lines "no test yet" "check after" "2pm CST" v), w2)
    end.

End Loop.

End display.

(** ** Notions used in the statements *)

Import http network.
Local Open Scope go_scope.

(** The value the next [time.Now()] returns. *)
Definition reading (w : World) : time.Time :=
  match ticks w with
  | [] => now w
  | dt :: _ => now w + Z.of_N dt
  end.

(** The world once the clock has been read. *)
Definition after_reading (w : World) : World :=
  mkWorld (reading w) (tl (ticks w)) (wire w) (sent w) (url_error w).

(** [download == 0 && upload == 0] *)
Definition zero_valued (e : Sample) : bool :=
  PrimFloat.eqb (XputDownload e) PrimFloat.zero && PrimFloat.eqb (XputUpload e) PrimFloat.zero.

(** [data] is the array the normalizer takes from [body]: the [data] of a
    meta-wrapped response whose [rc] is [ok], a bare array, or the [data] of
    a v2 response whose [errorCode] is zero.  The source goes on to the
    selection only when the array is not empty. *)
Inductive parsed_data (body : string) (data : list Sample) : Prop :=
| parsed_meta (r : SpeedtestResponse) :
    json.Unmarshal into_SpeedtestResponse body = Some r ->
    RC (RespMeta r) = "ok" ->
    RespData r = data ->
    data <> [] ->
    parsed_data body data
| parsed_array :
    (forall r, json.Unmarshal into_SpeedtestResponse body = Some r -> RC (RespMeta r) = "") ->
    json.Unmarshal into_Samples body = Some data ->
    data <> [] ->
    parsed_data body data
| parsed_v2 (r : V2Response) :
    (forall r', json.Unmarshal into_SpeedtestResponse body = Some r' -> RC (RespMeta r') = "") ->
    (forall l, json.Unmarshal into_Samples body = Some l -> l = []) ->
    json.Unmarshal into_V2Response body = Some r ->
    ErrorCode r = 0 ->
    V2Data r = data ->
    data <> [] ->
    parsed_data body data.

(** The three shapes of response the normalizer knows. *)
Inductive Shape : Type :=
| MetaWrapped
| BareArray
| V2Wrapped.

(** [data] is the array that [body] holds in the shape [sh], empty or not:
    the [data] of a meta-wrapped response whose [rc] is [ok], the array of
    a body that is an array once the first attempt has given no [rc], or
    the [data] of a v2 response whose [errorCode] is zero once the second
    attempt has given no sample. *)
Inductive decoded_data (body : string) : Shape -> list Sample -> Prop :=
| decoded_meta (r : SpeedtestResponse) :
    json.Unmarshal into_SpeedtestResponse body = Some r ->
    RC (RespMeta r) = "ok" ->
    decoded_data body MetaWrapped (RespData r)
| decoded_array (data : list Sample) :
    (forall r, json.Unmarshal into_SpeedtestResponse body = Some r -> RC (RespMeta r) = "") ->
    json.Unmarshal into_Samples body = Some data ->
    decoded_data body BareArray data
| decoded_v2 (r : V2Response) :
    (forall r', json.Unmarshal into_SpeedtestResponse body = Some r' -> RC (RespMeta r') = "") ->
    (forall l, json.Unmarshal into_Samples body = Some l -> l = []) ->
    json.Unmarshal into_V2Response body = Some r ->
    ErrorCode r = 0 ->
    decoded_data body V2Wrapped (V2Data r).

(** What the loop of the selection has found once it has gone through
    [seen]: nothing when no sample of [seen] is valid; otherwise the place
    and the sample of the first greatest timestamp among the valid ones. *)
Definition best (seen : list Sample) (r : option (nat * Sample)) : Prop :=
  match r with
  | None => forall e, In e seen -> nonzero e = false
  | Some (i, m) =>
      nth_error seen i = Some m /\ nonzero m = true /\
      forall j e, nth_error seen j = Some e -> nonzero e = true ->
                  Time e <= Time m /\ ((j < i)%nat -> Time e < Time m)
  end.

(** The state once [req] has gone to the transport and the head of the
    script has been consumed, [rest] being what is left of it. *)
Definition after_round_trip (s : State) (req : Request) (rest : list round_trip) : State :=
  mkState (client s)
          (mkWorld (now (world s)) (ticks (world s)) rest
                   (sent (world s) ++ [req])%list (url_error (world s))).

(** [m] relates every state to the state it leaves by [R]. *)
Definition keeps {A : Type} (R : State -> State -> Prop) (m : M A) : Prop :=
  forall s, R s (snd (m s)).

Definition same_cache (s s' : State) : Prop := cache (client s') = cache (client s).

Definition same_session (s s' : State) : Prop := session (client s') = session (client s).

(** The script only gets shorter. *)
Definition wire_le (s s' : State) : Prop :=
  (List.length (wire (world s')) <= List.length (wire (world s)))%nat.

(** Requests are only added to those sent. *)
Definition sent_grows (s s' : State) : Prop :=
  exists later, sent (world s') = (sent (world s) ++ later)%list.

(** The transport is left alone: same script, same requests sent. *)
Definition same_traffic (s s' : State) : Prop :=
  wire (world s') = wire (world s) /\ sent (world s') = sent (world s).

(** [m] always ends: with a value, an error or a panic. *)
Definition total {A : Type} (m : M A) : Prop := forall s, fst (m s) <> OutOfFuel.

(** [m] ends with a value or an error: it neither panics nor runs short
    of fuel. *)
Definition safe {A : Type} (m : M A) : Prop :=
  forall s, (exists a, fst (m s) = Ok a) \/ (exists e, fst (m s) = Err e).

(** What is fixed at construction stays: the family of the controller, the
    addresses, the credentials; and the verdicts on URLs. *)
Definition same_static (s s' : State) : Prop :=
  IsUniFiOS (client s') = IsUniFiOS (client s)
  /\ BaseURL (client s') = BaseURL (client s)
  /\ Site (client s') = Site (client s)
  /\ Username (client s') = Username (client s)
  /\ Password (client s') = Password (client s)
  /\ url_error (world s') = url_error (world s).

(** The request of a fresh login. *)
Definition loginRequest (c : UDMProClient) : Request :=
  set_header "Referer" (BaseURL c ++ "/login")
    (set_header "Expect" ""
       (set_header "Content-Type" "application/json"
          (set_header "Accept" "application/json"
             (mkRequest "POST" (loginURL c) []
                        (Some (marshal_LoginRequest (Username c) (Password c))))))).

(** What [freshLogin] does with the response. *)
Definition afterLogin (resp : Response) : M unit :=
  _ <- ReadAll resp ;;
  if StatusCode resp =? StatusTooManyRequests then fail (ErrRateLimited (StatusCode resp))
  else if negb (StatusCode resp =? StatusOK) then fail (ErrLoginStatus (StatusCode resp))
  else
    loginCookies (Cookies resp) ;;;
    c' <- get_client ;;
    if String.eqb (AuthToken c') "" then fail ErrNoAuthToken
    else cacheSession.

(** A token of three parts whose middle part decodes and unmarshals. *)
Definition well_formed_token (v : string) : bool :=
  match strings.Split v "." with
  | [_; p; _] =>
      match base64.DecodeString (fixPayload p) with
      | Some d =>
          match json.Unmarshal (fun x => json.into_map x []) d with
          | Some _ => true
          | None => false
          end
      | None => false
      end
  | _ => false
  end.

Definition is_TOKEN (k : Cookie) : bool := String.eqb (Name k) "TOKEN".

(** A finite number: neither NaN nor an infinity. *)
Definition is_number (f : float) : bool :=
  match Prim2SF f with
  | S754_zero _ | S754_finite _ _ _ => true
  | _ => false
  end.

(** What [%.1f] writes for a finite number: a sign if it is negative,
    digits, a dot, one digit. *)
Definition one_decimal (s : string) : Prop :=
  exists (sign ip : string) (d : ascii),
    s = sign ++ ip ++ "." ++ String d EmptyString
    /\ (sign = "" \/ sign = "-")
    /\ strconv.all_digits ip = true /\ ip <> "" /\ is_digit d = true.

(** [download > 0 || upload > 0], of a result. *)
Definition measured (r : SpeedtestResult) : bool :=
  PrimFloat.ltb PrimFloat.zero (DownloadMbps r)
  || PrimFloat.ltb PrimFloat.zero (UploadMbps r).

(** The call has returned, with a value or with an error: it has not
    panicked, and it has not run short of fuel. *)
Definition returned {A : Type} (r : result A) : bool :=
  match r with
  | Ok _ | Err _ => true
  | Panic _ | OutOfFuel => false
  end.

(** The last byte of a string, and [n] times the byte [c]. *)
Fixpoint last_byte (s : string) : option ascii :=
  match s with
  | EmptyString => None
  | String c EmptyString => Some c
  | String _ r => last_byte r
  end.

Fixpoint replicate (n : nat) (c : ascii) : string :=
  match n with
  | O => EmptyString
  | S k => String c (replicate k c)
  end.

(** The request that probes the family of the controller. *)
Definition probeRequest (base : string) : Request := mkRequest "GET" (base ++ "/") [] None.

(** The address behind an entry of [Addrs()], if it has one. *)
Definition addr_ip (a : net.Addr) : net.IP :=
  match a with
  | net.IPNet ip _ => ip
  | net.IPAddr ip _ => ip
  | net.OtherAddr => EmptyString
  end.

(** The four bytes of an entry that is an IPv4 address outside
    [127.0.0.0/8], whether it is stored in four bytes or in sixteen. *)
Definition usable (a : net.Addr) : option net.IP :=
  match net.To4 (addr_ip a) with
  | Some ip4 => if net.at_ ip4 0 =? 127 then None else Some ip4
  | None => None
  end.

Definition is_usable (a : net.Addr) : bool :=
  match usable a with Some _ => true | None => false end.

(** An interface that is up and is not a loopback. *)
Definition eligible (i : net.Interface) : bool :=
  negb (Z.land (net.Flags i) net.FlagUp =? 0)
  && (Z.land (net.Flags i) net.FlagLoopback =? 0).

(** An interface [LANIP] goes past: it is not eligible, or it lists its
    addresses and none is usable. *)
Definition passed_over (i : net.Interface) : bool :=
  negb (eligible i)
  || match net.Addrs i with
     | inr addrs => forallb (fun a => negb (is_usable a)) addrs
     | inl _ => false
     end.

(** The loop of the screen knows the timestamp of the result it holds. *)
Definition knows_its_result (v : display.Vars) : Prop :=
  forall r, display.lastResult v = Some r -> display.lastKnownTimestamp v = Timestamp r.

(** From [v] to [v'] the loop has kept track of its result. *)
Definition tracked (v v' : display.Vars) : Prop :=
  knows_its_result v'
  /\ (display.lastKnownTimestamp v <> 0 ->
      display.lastKnownTimestamp v <= display.lastKnownTimestamp v')
  /\ (forall r, display.lastResult v' = Some r ->
                display.lastResult v = Some r \/ measured r = true).

(** The cache holds no result, or one with a positive download or
    upload. *)
Definition cache_measured (c : UDMProClient) : Prop :=
  forall r, Result (cache c) = Some r -> measured r = true.

(** The encoding of the parts of a JWT: base64url without padding
    (RFC 4648, section 5).  The client only decodes; the encoder is what
    the gateway applies. *)
Definition urlChar (i : Z) : ascii :=
  if i <? 26 then byte_of (65 + i)
  else if i <? 52 then byte_of (71 + i)
  else if i <? 62 then byte_of (i - 4)
  else if i =? 62 then "-"%char
  else "_"%char.

Fixpoint encodeURL (s : string) : string :=
  match s with
  | EmptyString => EmptyString
  | String a EmptyString =>
      String (urlChar (byte_val a / 4))
        (String (urlChar (byte_val a mod 4 * 16)) EmptyString)
  | String a (String b EmptyString) =>
      String (urlChar (byte_val a / 4))
        (String (urlChar (byte_val a mod 4 * 16 + byte_val b / 16))
           (String (urlChar (byte_val b mod 16 * 4)) EmptyString))
  | String a (String b (String c r)) =>
      String (urlChar (byte_val a / 4))
        (String (urlChar (byte_val a mod 4 * 16 + byte_val b / 16))
           (String (urlChar (byte_val b mod 16 * 4 + byte_val c / 64))
              (String (urlChar (byte_val c mod 64)) (encodeURL r))))
  end.

(** What the two replacements of [extractCSRFToken] make of a character,
    and the values of six bits. *)
Definition std (c : ascii) : ascii :=
  if Ascii.eqb (if Ascii.eqb c "-" then "+"%char else c) "_" then "/"%char
  else if Ascii.eqb c "-" then "+"%char else c.

Definition sextets : list Z := List.map Z.of_nat (List.seq 0 64).

(** The header of an archive request: the three fields every such request
    is given, then [x-csrf-token] when a token goes with it. *)
Definition archive_header (csrf : option string) : list (string * string) :=
  ([("Accept", "application/json"); ("Content-Type", "application/json"); ("Expect", "")]
   ++ match csrf with
      | Some t => [("x-csrf-token", t)]
      | None => []
      end)%list.

(** A request for the archive of the window from [start] to [end_], or a
    login, of the client [c].  The archive request is given whole: a POST
    to the archive URL whose body is the window and whose header holds
    nothing but the fields of [archive_header], the token being one of at
    least ten bytes that only a UniFi OS client sends. *)
Definition archive_or_login (c : UDMProClient) (start end_ : Z) (r : Request) : Prop :=
  (exists csrf,
      r = mkRequest "POST" (archiveURL c) (archive_header csrf)
                    (Some (marshal_SpeedtestRequest start end_))
      /\ forall t, csrf = Some t -> IsUniFiOS c = true /\ 10 <= len t)
  \/ r = loginRequest c.

(** The value of the last cookie of the given name. *)
Fixpoint cookie_value (name : string) (cookies : list Cookie) : option string :=
  match cookies with
  | [] => None
  | k :: r =>
      match cookie_value name r with
      | Some v => Some v
      | None => if String.eqb (Name k) name then Some (Value k) else None
      end
  end.

(** The requests sent and the answers still to come, counted together. *)
Definition traffic (w : World) : nat := (List.length (sent w) + List.length (wire w))%nat.

(** Every request [m] sends takes an answer, except the one that finds
    none: the count is kept when [m] gives a value, and grows by one at
    most otherwise. *)
Definition spends {A : Type} (m : M A) : Prop :=
  forall s,
    match fst (m s) with
    | Ok _ => traffic (world (snd (m s))) = traffic (world s)
    | _ => (traffic (world (snd (m s))) <= traffic (world s) + 1)%nat
    end.

(** ** Concrete clients, worlds and responses *)
Module Ex.

Definition sample (d u : float) (t : Z) : Sample := mkSample d u PrimFloat.zero t.

(** The samples of the example in the specification. *)
Definition samples : list Sample := [sample 50 0 100; sample 80 0 200; sample 0 0 150].

Definition jsample (d : string) (t : string) : json.value :=
  json.JObject [("xput_download", json.JNumber d); ("xput_upload", json.JNumber "0");
                ("time", json.JNumber t)].

Definition jsamples : json.value :=
  json.JArray [jsample "50" "100"; jsample "80" "200"; jsample "0" "150"].

Definition meta_body : string :=
  json.render (json.JObject [("meta", json.JObject [("rc", json.JString "ok")]);
                            ("data", jsamples)]).

Definition zeros : list Sample := [sample 0 0 150; sample 0 0 300].

Definition zeros_body : string :=
  json.render (json.JObject [("meta", json.JObject [("rc", json.JString "ok")]);
                            ("data", json.JArray [jsample "0" "150"; jsample "0" "300"])]).

(** Responses whose array is empty, in each of the three shapes. *)
Definition empty_body : string :=
  json.render (json.JObject [("meta", json.JObject [("rc", json.JString "ok")]);
                            ("data", json.JArray [])]).

Definition empty_array_body : string := json.render (json.JArray []).

Definition empty_v2_body : string :=
  json.render (json.JObject [("errorCode", json.JNumber "0"); ("data", json.JArray [])]).

Definition legacy : UDMProClient :=
  mkClient "https://gw" "admin" "secret" "default" "8.0.28" false "" ""
           (mkSpeedtestCache None time.zero (24 * time.Hour))
           (mkSessionCache "" "" 0).

Definition unifi : UDMProClient := set_IsUniFiOS true legacy.

(** 14 November 2023, 22:13:20 UTC. *)
Definition t0 : time.Time := 1700000000 * time.Second.

Definition with_session (k : SessionCache) (c : UDMProClient) : UDMProClient :=
  set_CSRFToken (SessionCSRFToken k) (set_AuthToken (SessionAuthToken k) (set_session k c)).

(** A client logged in an hour before [t0], and one whose session ran out
    a second before [t0]. *)
Definition logged_in : UDMProClient :=
  with_session (mkSessionCache "s3ss10n" "" (t0 + 7 * time.Hour)) legacy.

Definition expired : UDMProClient :=
  with_session (mkSessionCache "s3ss10n" "" (t0 - time.Second)) legacy.

(** A client of a UniFi OS gateway that holds a CSRF token from an earlier
    login and has just been given a token whose payload is [{}]. *)
Definition stale : UDMProClient :=
  set_AuthToken "h.e30.s" (set_CSRFToken "0123456789abcdef" unifi).

(** The same client before the login that gives it that token: its session
    ran out a second before [t0]. *)
Definition stale_before : UDMProClient :=
  with_session (mkSessionCache "h.e30.old" "0123456789abcdef" (t0 - time.Second)) unifi.

Definition world (script : list round_trip) : World :=
  mkWorld t0 [] script [] (fun _ => None).

Definition answer (status : Z) (cookies : list Cookie) (b : string) : round_trip :=
  Answered (mkResponse status cookies (Readable b)).

Definition unauthorized : round_trip := answer 401 [] "".

Definition login_ok : round_trip := answer 200 [mkCookie "unifises" "s3ss10n"] "{}".

Definition archive_ok : round_trip := answer 200 [] meta_body.

(** [n] times: the archive request answered 401, then a login accepted. *)
Fixpoint rounds (n : nat) (then_ : list round_trip) : list round_trip :=
  match n with
  | O => then_
  | S k => unauthorized :: login_ok :: rounds k then_
  end.

(** A UniFi OS client with a session cached an hour before [t0]. *)
Definition unifi_logged_in : UDMProClient :=
  with_session (mkSessionCache "h.e30.s" "0123456789abcdef" (t0 + 7 * time.Hour)) unifi.

(** A token whose payload is the object with the given field set to
    [abc], and one whose payload is the empty object. *)
Definition token_csrfToken : string := "h.eyJjc3JmVG9rZW4iOiJhYmMifQ.s".
Definition token_csrf_token : string := "h.eyJjc3JmX3Rva2VuIjoiYWJjIn0.s".
Definition token_xsrfToken : string := "h.eyJ4c3JmVG9rZW4iOiJhYmMifQ.s".
Definition token_empty : string := "h.e30.s".

(** A UniFi OS gateway that accepts the login with a token whose payload
    is [{"csrfToken":"abc"}]. *)
Definition login_abc : round_trip := answer 200 [mkCookie "TOKEN" token_csrfToken] "{}".

(** The client that [NewUDMProClient] makes at [t0] of a UniFi OS gateway
    at [https://gw]. *)
Definition unifi' : UDMProClient :=
  mkClient "https://gw" "admin" "secret" "default" "8.0.28" true "" ""
           (mkSpeedtestCache None time.zero (24 * time.Hour))
           (mkSessionCache "" "" t0).

(** The milliseconds of [t0] since 1970. *)
Definition t0_ms : Z := 1700000000000.

(** A token whose payload is
    [{"csrfToken":"","csrf_token":7,"token":"fallback-token"}]. *)
Definition token_fallback : string :=
  "h.eyJjc3JmVG9rZW4iOiIiLCJjc3JmX3Rva2VuIjo3LCJ0b2tlbiI6ImZhbGxiYWNrLXRva2VuIn0.s".

(** The options of the loop of the screen, and its variables once a turn
    has shown a result fetched ten minutes before [t0] and a later turn has
    failed. *)
Definition opts : display.CmdLineOpts :=
  display.mkOpts "https://gw/" "admin" "secret" "default" "8.0.28".

Definition after_error : display.Vars :=
  display.mkVars (Some (mkSpeedtestResult 80 0 0 200)) (t0 - 10 * time.Minute) 200
                 "network error" "check UDM IP" "verify connectivity".

(** A legacy gateway that answers the probe, the login and the archive
    request. *)
Definition gateway : list round_trip := [answer 404 [] ""; login_ok; archive_ok].

(** The interfaces of a device: a loopback, an interface that is down, one
    that only has IPv6 addresses, and one whose second address is
    192.168.1.5, stored in sixteen bytes. *)
Definition interfaces : list net.Interface :=
  [net.mkInterface 5 (inr [net.IPNet (net.bytes [127; 0; 0; 1]) ""]);
   net.mkInterface 2 (inr [net.IPNet (net.bytes [10; 0; 0; 9]) ""]);
   net.mkInterface 3 (inr [net.IPNet net.IPv6loopback "";
                           net.IPAddr (net.bytes [254; 128; 0; 0; 0; 0; 0; 0;
                                                  0; 0; 0; 0; 0; 0; 0; 1]) "eth1"]);
   net.mkInterface 19 (inr [net.OtherAddr;
                            net.IPNet (net.v4InV6Prefix ++ net.bytes [192; 168; 1; 5]) "";
                            net.IPNet (net.bytes [10; 0; 0; 7]) ""])].

(** A token whose payload is [{"csrfToken":"0123456789abcdef"}], and a
    UniFi OS gateway that answers the probe, accepts the login with that
    token and answers the archive request. *)
Definition token_long : string := "h.eyJjc3JmVG9rZW4iOiIwMTIzNDU2Nzg5YWJjZGVmIn0.s".

Definition unifi_gateway : list round_trip :=
  [answer 200 [] "<html>"; answer 200 [mkCookie "TOKEN" token_long] "{}"; archive_ok].

End Ex.

(** * Properties of the client *)

(** ** Running the monad *)

Lemma Now_reading (s : State) :
  Now s = (Ok (reading (world s)), mkState (client s) (after_reading (world s))).
Proof.
  unfold Now, reading, after_reading. destruct s as [c [n tk wr sn ue]]; simpl.
  destruct tk; reflexivity.
Qed.

Lemma reading_after (w : World) : reading w <= reading (after_reading w).
Proof.
  destruct w as [n tk wr sn ue]. unfold after_reading, reading; simpl.
  destruct tk as [|dt [|dt' r]]; simpl; lia.
Qed.

(** ** What the operations leave unchanged *)

Section Keeps.

Variable R : State -> State -> Prop.
Hypothesis R_refl : forall s, R s s.
Hypothesis R_trans : forall a b c, R a b -> R b c -> R a c.

Lemma keeps_ret {A : Type} (a : A) : keeps R (ret a).
Proof. intros s. apply R_refl. Qed.

Lemma keeps_fail {A : Type} (e : error) : keeps R (@fail A e).
Proof. intros s. apply R_refl. Qed.

Lemma keeps_panic {A : Type} (p : string) : keeps R (@panic A p).
Proof. intros s. apply R_refl. Qed.

Lemma keeps_get_client : keeps R get_client.
Proof. intros s. apply R_refl. Qed.

Lemma keeps_bind {A B : Type} (m : M A) (k : A -> M B) :
  keeps R m -> (forall a, keeps R (k a)) -> keeps R (bind m k).
Proof.
  intros Hm Hk s. unfold bind. specialize (Hm s).
  destruct (m s) as [[a | e | p |] s1]; simpl in *; try exact Hm.
  apply (R_trans _ s1); [exact Hm | apply Hk].
Qed.

Lemma keeps_wrap {A : Type} (w : error -> error) (m : M A) : keeps R m -> keeps R (wrap w m).
Proof.
  intros Hm s. unfold wrap. specialize (Hm s).
  destruct (m s) as [[a | e | p |] s1]; simpl in *; exact Hm.
Qed.

Lemma keeps_lift {A : Type} (r : error + A) : keeps R (lift r).
Proof. destruct r; [apply keeps_fail | apply keeps_ret]. Qed.

Lemma keeps_ReadAll (resp : Response) : keeps R (ReadAll resp).
Proof. unfold ReadAll. destruct (Body resp); [apply keeps_ret | apply keeps_fail]. Qed.

Lemma keeps_NewRequest (m u : string) (p : option json.value) (w : string -> error) :
  keeps R (NewRequest m u p w).
Proof. intros s. unfold NewRequest. destruct (url_error (world s) u); apply R_refl. Qed.

End Keeps.

(** A step of the proofs that an operation keeps a relation. *)
Create HintDb keeps.

(** The relations are preorders. *)

Lemma wire_le_refl (s : State) : wire_le s s.
Proof. unfold wire_le. lia. Qed.

Lemma wire_le_trans (a b c : State) : wire_le a b -> wire_le b c -> wire_le a c.
Proof. unfold wire_le. lia. Qed.

Lemma same_cache_refl (s : State) : same_cache s s.
Proof. reflexivity. Qed.

Lemma same_cache_trans (a b c : State) : same_cache a b -> same_cache b c -> same_cache a c.
Proof. unfold same_cache. congruence. Qed.

Lemma same_session_refl (s : State) : same_session s s.
Proof. reflexivity. Qed.

Lemma same_session_trans (a b c : State) :
  same_session a b -> same_session b c -> same_session a c.
Proof. unfold same_session. congruence. Qed.

Lemma same_traffic_refl (s : State) : same_traffic s s.
Proof. split; reflexivity. Qed.

Lemma same_traffic_trans (a b c : State) :
  same_traffic a b -> same_traffic b c -> same_traffic a c.
Proof. unfold same_traffic. intros [? ?] [? ?]. split; congruence. Qed.

Lemma same_static_refl (s : State) : same_static s s.
Proof. repeat split. Qed.

Lemma same_static_trans (a b c : State) :
  same_static a b -> same_static b c -> same_static a c.
Proof.
  unfold same_static. intros (? & ? & ? & ? & ? & ?) (? & ? & ? & ? & ? & ?).
  repeat split; congruence.
Qed.

Lemma sent_grows_refl (s : State) : sent_grows s s.
Proof. exists []. rewrite app_nil_r. reflexivity. Qed.

Lemma sent_grows_trans (a b c : State) : sent_grows a b -> sent_grows b c -> sent_grows a c.
Proof.
  intros [l1 H1] [l2 H2]. exists (l1 ++ l2)%list. rewrite H2, H1, app_assoc. reflexivity.
Qed.

Ltac keeps_rel :=
  first [ exact wire_le_refl | exact wire_le_trans
        | exact sent_grows_refl | exact sent_grows_trans
        | exact same_cache_refl | exact same_cache_trans
        | exact same_session_refl | exact same_session_trans
        | exact same_traffic_refl | exact same_traffic_trans
        | exact same_static_refl | exact same_static_trans ].

Ltac keeps_step :=
  first
    [ assumption
    | keeps_rel
    | match goal with
      | |- forall _, _ => intros ?
      | |- keeps _ (bind _ _) => apply keeps_bind
      | |- keeps _ (wrap _ _) => apply keeps_wrap
      | |- keeps _ (ret _) => apply keeps_ret
      | |- keeps _ (fail _) => apply keeps_fail
      | |- keeps _ (panic _) => apply keeps_panic
      | |- keeps _ get_client => apply keeps_get_client
      | |- keeps _ (lift _) => apply keeps_lift
      | |- keeps _ (ReadAll _) => apply keeps_ReadAll
      | |- keeps _ (NewRequest _ _ _ _) => apply keeps_NewRequest
      | |- keeps _ (if ?b then _ else _) => destruct b
      | |- keeps _ (match ?x with _ => _ end) => destruct x
      | |- keeps _ (let _ := _ in _) => cbv zeta
      | H : forall _ _, keeps ?R (?f _ _) |- keeps ?R (?f _ _) => apply H
      end
    | solve [auto with keeps] ].

Ltac keeps_auto := repeat keeps_step.

(** *** The script only gets shorter *)

Lemma wire_le_Now : keeps wire_le Now.
Proof. intros s. rewrite Now_reading. unfold wire_le; simpl. lia. Qed.

Lemma wire_le_update (f : UDMProClient -> UDMProClient) : keeps wire_le (update f).
Proof. intros s. unfold wire_le; simpl. lia. Qed.

Lemma wire_le_Do (req : Request) (w : string -> error) : keeps wire_le (Do req w).
Proof.
  intros s. unfold wire_le, Do. destruct (wire (world s)) as [|[c|r] t]; simpl; lia.
Qed.

#[local] Hint Resolve wire_le_Now wire_le_update wire_le_Do : keeps.

(** *** The result cache is left alone *)

Lemma same_cache_Now : keeps same_cache Now.
Proof. intros s. rewrite Now_reading. reflexivity. Qed.

Lemma same_cache_update (f : UDMProClient -> UDMProClient) :
  (forall c, cache (f c) = cache c) -> keeps same_cache (update f).
Proof. intros H s. unfold same_cache; simpl. apply H. Qed.

Lemma same_cache_Do (req : Request) (w : string -> error) : keeps same_cache (Do req w).
Proof.
  intros s. unfold same_cache, Do. destruct (wire (world s)) as [|[c|r] t]; reflexivity.
Qed.

#[local] Hint Resolve same_cache_Now same_cache_Do : keeps.
#[local] Hint Extern 1 (keeps same_cache (update _)) =>
  apply same_cache_update; intros ?; reflexivity : keeps.

(** *** The cached session is left alone *)

Lemma same_session_Now : keeps same_session Now.
Proof. intros s. rewrite Now_reading. reflexivity. Qed.

Lemma same_session_update (f : UDMProClient -> UDMProClient) :
  (forall c, session (f c) = session c) -> keeps same_session (update f).
Proof. intros H s. unfold same_session; simpl. apply H. Qed.

Lemma same_session_Do (req : Request) (w : string -> error) : keeps same_session (Do req w).
Proof.
  intros s. unfold same_session, Do. destruct (wire (world s)) as [|[c|r] t]; reflexivity.
Qed.

#[local] Hint Resolve same_session_Now
  same_session_Do : keeps.
#[local] Hint Extern 1 (keeps same_session (update _)) =>
  apply same_session_update; intros ?; reflexivity : keeps.

(** *** The transport is left alone *)

Lemma same_traffic_Now : keeps same_traffic Now.
Proof. intros s. rewrite Now_reading. split; reflexivity. Qed.

Lemma same_traffic_update (f : UDMProClient -> UDMProClient) : keeps same_traffic (update f).
Proof. intros s. split; reflexivity. Qed.

#[local] Hint Resolve same_traffic_Now
  same_traffic_update : keeps.

(** *** What is fixed at construction stays *)

Lemma same_static_Now : keeps same_static Now.
Proof. intros s. rewrite Now_reading. repeat split. Qed.

Lemma same_static_update (f : UDMProClient -> UDMProClient) :
  (forall c, IsUniFiOS (f c) = IsUniFiOS c /\ BaseURL (f c) = BaseURL c
             /\ Site (f c) = Site c /\ Username (f c) = Username c
             /\ Password (f c) = Password c) ->
  keeps same_static (update f).
Proof.
  intros H s. destruct (H (client s)) as (? & ? & ? & ? & ?). repeat split; assumption.
Qed.

Lemma same_static_Do (req : Request) (w : string -> error) : keeps same_static (Do req w).
Proof.
  intros s. unfold Do. destruct (wire (world s)) as [|[c|r] t]; repeat split.
Qed.

#[local] Hint Resolve same_static_Now same_static_Do : keeps.
#[local] Hint Extern 1 (keeps same_static (update _)) =>
  apply same_static_update; intros ?; repeat split : keeps.

(** *** Requests are only added *)

Lemma sent_grows_Now : keeps sent_grows Now.
Proof. intros s. rewrite Now_reading. exists []. simpl. rewrite app_nil_r. reflexivity. Qed.

Lemma sent_grows_update (f : UDMProClient -> UDMProClient) : keeps sent_grows (update f).
Proof. intros s. exists []. simpl. rewrite app_nil_r. reflexivity. Qed.

Lemma sent_grows_Do (req : Request) (w : string -> error) : keeps sent_grows (Do req w).
Proof.
  intros s. exists [req]. unfold Do. destruct (wire (world s)) as [|[c|r] t]; reflexivity.
Qed.

#[local] Hint Resolve sent_grows_Now sent_grows_update sent_grows_Do : keeps.

(** *** The functions of the client *)

Lemma extractCSRFToken_traffic : keeps same_traffic extractCSRFToken.
Proof. unfold extractCSRFToken. keeps_auto. Qed.

Lemma extractCSRFToken_session : keeps same_session extractCSRFToken.
Proof. unfold extractCSRFToken. keeps_auto. Qed.

Lemma extractCSRFToken_cache : keeps same_cache extractCSRFToken.
Proof. unfold extractCSRFToken. keeps_auto. Qed.

Lemma extractCSRFToken_wire : keeps wire_le extractCSRFToken.
Proof. unfold extractCSRFToken. keeps_auto. Qed.

#[local] Hint Resolve extractCSRFToken_traffic extractCSRFToken_session
  extractCSRFToken_cache extractCSRFToken_wire : keeps.

Lemma loginCookies_traffic (cookies : list Cookie) : keeps same_traffic (loginCookies cookies).
Proof. induction cookies as [|k r IH]; simpl; keeps_auto. Qed.

Lemma loginCookies_session (cookies : list Cookie) : keeps same_session (loginCookies cookies).
Proof. induction cookies as [|k r IH]; simpl; keeps_auto. Qed.

Lemma loginCookies_cache (cookies : list Cookie) : keeps same_cache (loginCookies cookies).
Proof. induction cookies as [|k r IH]; simpl; keeps_auto. Qed.

Lemma loginCookies_wire (cookies : list Cookie) : keeps wire_le (loginCookies cookies).
Proof. induction cookies as [|k r IH]; simpl; keeps_auto. Qed.

#[local] Hint Resolve loginCookies_traffic loginCookies_session loginCookies_cache
  loginCookies_wire : keeps.

Lemma extractCSRFToken_static : keeps same_static extractCSRFToken.
Proof. unfold extractCSRFToken. keeps_auto. Qed.
#[local] Hint Resolve extractCSRFToken_static : keeps.

Lemma loginCookies_static (cookies : list Cookie) : keeps same_static (loginCookies cookies).
Proof. induction cookies as [|k r IH]; simpl; keeps_auto. Qed.
#[local] Hint Resolve loginCookies_static : keeps.

Lemma isSessionValid_traffic : keeps same_traffic isSessionValid.
Proof. unfold isSessionValid. keeps_auto. Qed.

Lemma isSessionValid_static : keeps same_static isSessionValid.
Proof. unfold isSessionValid. keeps_auto. Qed.

Lemma isSessionValid_session : keeps same_session isSessionValid.
Proof. unfold isSessionValid. keeps_auto. Qed.

Lemma Login_static : keeps same_static Login.
Proof. unfold Login, isSessionValid, useCachedSession, freshLogin, cacheSession. keeps_auto. Qed.

Lemma clearSession_static : keeps same_static clearSession.
Proof. unfold clearSession. keeps_auto. Qed.

Lemma extractCSRFToken_sent : keeps sent_grows extractCSRFToken.
Proof. unfold extractCSRFToken. keeps_auto. Qed.
#[local] Hint Resolve extractCSRFToken_sent : keeps.

Lemma loginCookies_sent (cookies : list Cookie) : keeps sent_grows (loginCookies cookies).
Proof. induction cookies as [|k r IH]; simpl; keeps_auto. Qed.
#[local] Hint Resolve loginCookies_sent : keeps.

Lemma Login_sent : keeps sent_grows Login.
Proof. unfold Login, isSessionValid, useCachedSession, freshLogin, cacheSession. keeps_auto. Qed.

Lemma clearSession_sent : keeps sent_grows clearSession.
Proof. unfold clearSession. keeps_auto. Qed.
#[local] Hint Resolve Login_sent clearSession_sent Login_static clearSession_static : keeps.

Lemma Login_cache : keeps same_cache Login.
Proof. unfold Login, isSessionValid, useCachedSession, freshLogin, cacheSession. keeps_auto. Qed.

Lemma Login_wire : keeps wire_le Login.
Proof. unfold Login, isSessionValid, useCachedSession, freshLogin, cacheSession. keeps_auto. Qed.

Lemma archiveRequest_same (start end_ : Z) (s : State) :
  snd (archiveRequest start end_ s) = s.
Proof.
  unfold archiveRequest, bind, get_client, NewRequest, ret, panic.
  destruct (url_error (world s) (archiveURL (client s))); simpl; [reflexivity|].
  repeat match goal with |- context [if ?b then _ else _] => destruct b end; reflexivity.
Qed.

Lemma clearSession_cache : keeps same_cache clearSession.
Proof. unfold clearSession. keeps_auto. Qed.

Lemma clearSession_wire : keeps wire_le clearSession.
Proof. unfold clearSession. keeps_auto. Qed.

#[local] Hint Resolve Login_cache Login_wire clearSession_cache clearSession_wire : keeps.

Lemma fetchBody_cache (self : Z -> Z -> M SpeedtestResult) (start end_ : Z) :
  (forall a b, keeps same_cache (self a b)) -> keeps same_cache (fetchBody self start end_).
Proof. intros H. unfold fetchBody, archiveRequest. keeps_auto. Qed.

Lemma fetchInRange_cache (fuel : nat) (start end_ : Z) :
  keeps same_cache (fetchInRange fuel start end_).
Proof.
  revert start end_. induction fuel as [|f IH]; intros start end_; simpl.
  - intros s. reflexivity.
  - apply fetchBody_cache. exact IH.
Qed.

Lemma GetSpeedtestResultsInRange_cache (start end_ : Z) :
  keeps same_cache (GetSpeedtestResultsInRange start end_).
Proof. intros s. unfold GetSpeedtestResultsInRange. apply fetchInRange_cache. Qed.

Lemma fetchBody_sent (self : Z -> Z -> M SpeedtestResult) (start end_ : Z) :
  (forall a b, keeps sent_grows (self a b)) -> keeps sent_grows (fetchBody self start end_).
Proof. intros H. unfold fetchBody, archiveRequest. keeps_auto. Qed.

Lemma fetchInRange_sent (fuel : nat) (start end_ : Z) :
  keeps sent_grows (fetchInRange fuel start end_).
Proof.
  revert start end_. induction fuel as [|f IH]; intros start end_; simpl.
  - intros s. apply sent_grows_refl.
  - apply fetchBody_sent. exact IH.
Qed.

Lemma GetSpeedtestResultsInRange_sent (start end_ : Z) :
  keeps sent_grows (GetSpeedtestResultsInRange start end_).
Proof. intros s. unfold GetSpeedtestResultsInRange. apply fetchInRange_sent. Qed.

Lemma fetchBody_static (self : Z -> Z -> M SpeedtestResult) (start end_ : Z) :
  (forall a b, keeps same_static (self a b)) -> keeps same_static (fetchBody self start end_).
Proof. intros H. unfold fetchBody, archiveRequest. keeps_auto. Qed.

Lemma fetchInRange_static (fuel : nat) (start end_ : Z) :
  keeps same_static (fetchInRange fuel start end_).
Proof.
  revert start end_. induction fuel as [|f IH]; intros start end_; simpl.
  - intros s. apply same_static_refl.
  - apply fetchBody_static. exact IH.
Qed.

Lemma GetSpeedtestResultsInRange_static (start end_ : Z) :
  keeps same_static (GetSpeedtestResultsInRange start end_).
Proof. intros s. unfold GetSpeedtestResultsInRange. apply fetchInRange_static. Qed.

(** ** The recursion of [GetSpeedtestResultsInRange] *)

Lemma Do_answered (req : Request) (w : string -> error) (s : State)
      (resp : Response) (rest : list round_trip) :
  wire (world s) = Answered resp :: rest ->
  Do req w s = (Ok resp, after_round_trip s req rest).
Proof. intros H. unfold Do, after_round_trip. rewrite H. reflexivity. Qed.

Lemma Do_ok_shorter (req : Request) (w : string -> error) (s s' : State) (resp : Response) :
  Do req w s = (Ok resp, s') ->
  (List.length (wire (world s')) < List.length (wire (world s)))%nat.
Proof.
  unfold Do. destruct (wire (world s)) as [|[cause|r] rest]; intros H; inversion H; subst.
  simpl. lia.
Qed.

Lemma bind_congr {A B : Type} (m : M A) (k1 k2 : A -> M B) (s : State) :
  (forall a s', m s = (Ok a, s') -> k1 a s' = k2 a s') ->
  bind m k1 s = bind m k2 s.
Proof.
  intros H. unfold bind. destruct (m s) as [[a | e | p |] s']; try reflexivity.
  apply H. reflexivity.
Qed.

(** Two continuations that agree on the states with a shorter script give
    the same body. *)
Lemma fetchBody_agree (f g : Z -> Z -> M SpeedtestResult) (start end_ : Z) (s : State) :
  (forall a b s', (List.length (wire (world s')) < List.length (wire (world s)))%nat ->
                  f a b s' = g a b s') ->
  fetchBody f start end_ s = fetchBody g start end_ s.
Proof.
  intros Hfg. unfold fetchBody.
  apply bind_congr. intros req s1 H1.
  pose proof (archiveRequest_same start end_ s) as Hsame. rewrite H1 in Hsame.
  simpl in Hsame. subst s1.
  apply bind_congr. intros resp s2 H2. apply Do_ok_shorter in H2.
  destruct (StatusCode resp =? StatusUnauthorized); [|reflexivity].
  apply bind_congr. intros u s3 H3.
  pose proof (clearSession_wire s2) as L3. rewrite H3 in L3.
  apply bind_congr. intros u' s4 H4.
  pose proof (keeps_wrap wire_le ErrReauth Login Login_wire s3) as L4. rewrite H4 in L4.
  apply Hfg. unfold wire_le in L3, L4. simpl in L3, L4. lia.
Qed.

Lemma fetchInRange_fuel (n m : nat) (start end_ : Z) (s : State) :
  (List.length (wire (world s)) < n)%nat ->
  (List.length (wire (world s)) < m)%nat ->
  fetchInRange n start end_ s = fetchInRange m start end_ s.
Proof.
  revert m start end_ s. induction n as [|n IH]; intros m start end_ s Hn Hm; [lia|].
  destruct m as [|m]; [lia|]. simpl. apply fetchBody_agree.
  intros a b s' Hs'. apply IH; lia.
Qed.

(** The function satisfies the equation of the source: its body, with
    itself for the call after a 401. *)
Lemma GetSpeedtestResultsInRange_unfold (start end_ : Z) (s : State) :
  GetSpeedtestResultsInRange start end_ s
  = fetchBody GetSpeedtestResultsInRange start end_ s.
Proof.
  unfold GetSpeedtestResultsInRange at 1. simpl. apply fetchBody_agree.
  intros a b s' Hs'. unfold GetSpeedtestResultsInRange. apply fetchInRange_fuel; lia.
Qed.

(** The cases of the body on the answer of the gateway. *)
Lemma fetch_unauthorized (start end_ : Z) (s : State) (req : Request)
      (resp : Response) (rest : list round_trip) :
  fst (archiveRequest start end_ s) = Ok req ->
  wire (world s) = Answered resp :: rest ->
  StatusCode resp = StatusUnauthorized ->
  GetSpeedtestResultsInRange start end_ s
  = (clearSession ;;; wrap ErrReauth Login ;;; GetSpeedtestResultsInRange start end_)
      (after_round_trip s req rest).
Proof.
  intros Hreq Hw Hst. rewrite GetSpeedtestResultsInRange_unfold. unfold fetchBody.
  pose proof (archiveRequest_same start end_ s) as Hsame.
  unfold bind at 1. destruct (archiveRequest start end_ s) as [r s1]. simpl in *. subst.
  unfold bind at 1. rewrite (Do_answered _ _ _ _ _ Hw). rewrite Hst. reflexivity.
Qed.

Lemma fetch_ok (start end_ : Z) (s : State) (req : Request)
      (resp : Response) (rest : list round_trip) (body : string) :
  fst (archiveRequest start end_ s) = Ok req ->
  wire (world s) = Answered resp :: rest ->
  StatusCode resp = StatusOK ->
  Body resp = Readable body ->
  GetSpeedtestResultsInRange start end_ s
  = lift (parseSpeedtest body) (after_round_trip s req rest).
Proof.
  intros Hreq Hw Hst Hb. rewrite GetSpeedtestResultsInRange_unfold. unfold fetchBody.
  pose proof (archiveRequest_same start end_ s) as Hsame.
  unfold bind at 1. destruct (archiveRequest start end_ s) as [r s1]. simpl in *. subst.
  unfold bind at 1. rewrite (Do_answered _ _ _ _ _ Hw). rewrite Hst. simpl.
  unfold ReadAll. rewrite Hb. reflexivity.
Qed.

(** ** Termination *)

Lemma bind_total_at {A B : Type} (m : M A) (k : A -> M B) (s : State) :
  fst (m s) <> OutOfFuel ->
  (forall a s', m s = (Ok a, s') -> fst (k a s') <> OutOfFuel) ->
  fst (bind m k s) <> OutOfFuel.
Proof.
  intros Hm Hk. unfold bind. destruct (m s) as [[a | e | p |] s'] eqn:E; simpl in *;
    try discriminate; try congruence.
  apply Hk. reflexivity.
Qed.

Lemma total_bind {A B : Type} (m : M A) (k : A -> M B) :
  total m -> (forall a, total (k a)) -> total (bind m k).
Proof. intros Hm Hk s. apply bind_total_at; [apply Hm | intros a s' _; apply Hk]. Qed.

Lemma total_wrap {A : Type} (w : error -> error) (m : M A) : total m -> total (wrap w m).
Proof.
  intros Hm s. specialize (Hm s). unfold wrap.
  destruct (m s) as [[a | e | p |] s']; simpl in *; congruence.
Qed.

Lemma total_ret {A : Type} (a : A) : total (ret a).
Proof. intros s. discriminate. Qed.

Lemma total_fail {A : Type} (e : error) : total (@fail A e).
Proof. intros s. discriminate. Qed.

Lemma total_panic {A : Type} (p : string) : total (@panic A p).
Proof. intros s. discriminate. Qed.

Lemma total_get_client : total get_client.
Proof. intros s. discriminate. Qed.

Lemma total_update (f : UDMProClient -> UDMProClient) : total (update f).
Proof. intros s. discriminate. Qed.

Lemma total_Now : total Now.
Proof. intros s. rewrite Now_reading. discriminate. Qed.

Lemma total_NewRequest (m u : string) (p : option json.value) (w : string -> error) :
  total (NewRequest m u p w).
Proof. intros s. unfold NewRequest. destruct (url_error (world s) u); discriminate. Qed.

Lemma total_Do (req : Request) (w : string -> error) : total (Do req w).
Proof. intros s. unfold Do. destruct (wire (world s)) as [|[c|r] t]; discriminate. Qed.

Lemma total_ReadAll (resp : Response) : total (ReadAll resp).
Proof. unfold ReadAll. destruct (Body resp); [apply total_ret | apply total_fail]. Qed.

Lemma total_lift {A : Type} (r : error + A) : total (lift r).
Proof. destruct r; [apply total_fail | apply total_ret]. Qed.

Create HintDb total.
#[local] Hint Resolve total_ret total_fail total_panic total_get_client total_update
  total_Now total_NewRequest total_Do total_ReadAll total_lift : total.

Ltac total_step :=
  first
    [ assumption
    | match goal with
      | |- forall _, _ => intros ?
      | |- total (bind _ _) => apply total_bind
      | |- total (wrap _ _) => apply total_wrap
      | |- total (if ?b then _ else _) => destruct b
      | |- total (match ?x with _ => _ end) => destruct x
      | |- total (let _ := _ in _) => cbv zeta
      end
    | solve [auto with total] ].

Lemma total_extractCSRFToken : total extractCSRFToken.
Proof. unfold extractCSRFToken. repeat total_step. Qed.
#[local] Hint Resolve total_extractCSRFToken : total.

Lemma total_loginCookies (cookies : list Cookie) : total (loginCookies cookies).
Proof. induction cookies as [|k r IH]; simpl; repeat total_step. Qed.
#[local] Hint Resolve total_loginCookies : total.

Lemma total_Login : total Login.
Proof.
  unfold Login, isSessionValid, useCachedSession, freshLogin, cacheSession.
  repeat total_step.
Qed.

Lemma total_clearSession : total clearSession.
Proof. unfold clearSession. repeat total_step. Qed.

Lemma total_archiveRequest (start end_ : Z) : total (archiveRequest start end_).
Proof. unfold archiveRequest. repeat total_step. Qed.
#[local] Hint Resolve total_Login total_clearSession total_archiveRequest : total.

Lemma fetchBody_total_at (f : Z -> Z -> M SpeedtestResult) (start end_ : Z) (s : State) :
  (forall a b s', (List.length (wire (world s')) < List.length (wire (world s)))%nat ->
                  fst (f a b s') <> OutOfFuel) ->
  fst (fetchBody f start end_ s) <> OutOfFuel.
Proof.
  intros Hf. unfold fetchBody.
  apply bind_total_at; [apply total_archiveRequest|]. intros req s1 H1.
  pose proof (archiveRequest_same start end_ s) as Hsame. rewrite H1 in Hsame.
  simpl in Hsame. subst s1.
  apply bind_total_at; [apply total_Do|]. intros resp s2 H2. apply Do_ok_shorter in H2.
  destruct (StatusCode resp =? StatusUnauthorized).
  - apply bind_total_at; [apply total_clearSession|]. intros u s3 H3.
    pose proof (clearSession_wire s2) as L3. rewrite H3 in L3.
    apply bind_total_at; [apply total_wrap, total_Login|]. intros u' s4 H4.
    pose proof (keeps_wrap wire_le ErrReauth Login Login_wire s3) as L4. rewrite H4 in L4.
    apply Hf. unfold wire_le in L3, L4. simpl in L3, L4. lia.
  - destruct (negb (StatusCode resp =? StatusOK)); [discriminate|].
    apply total_bind; [apply total_ReadAll | intros b; apply total_lift].
Qed.

(** With a finite script the call always ends: the fuel it is given is
    never used up. *)
Lemma GetSpeedtestResultsInRange_total (start end_ : Z) :
  total (GetSpeedtestResultsInRange start end_).
Proof.
  intros s. remember (List.length (wire (world s))) as n eqn:Hn.
  revert start end_ s Hn. induction n as [n IH] using lt_wf_ind. intros start end_ s Hn.
  rewrite GetSpeedtestResultsInRange_unfold. apply fetchBody_total_at.
  intros a b s' Hs'. apply (IH (List.length (wire (world s')))); [lia | reflexivity].
Qed.

Lemma total_GetSpeedtestResults : total GetSpeedtestResults.
Proof.
  unfold GetSpeedtestResults, getCachedSpeedtest, setCachedSpeedtest.
  repeat total_step. apply GetSpeedtestResultsInRange_total.
Qed.

(** ** The selection of the sample *)

Lemma nth_error_snoc {A : Type} (l : list A) (a : A) (j : nat) (e : A) :
  nth_error (l ++ [a]) j = Some e ->
  (j < List.length l)%nat /\ nth_error l j = Some e \/ j = List.length l /\ e = a.
Proof.
  intros H. destruct (Nat.lt_ge_cases j (List.length l)) as [Hlt | Hge].
  - left. split; [exact Hlt|]. rewrite nth_error_app1 in H by exact Hlt. exact H.
  - right. rewrite nth_error_app2 in H by exact Hge.
    destruct (j - List.length l)%nat as [|k] eqn:Hk; simpl in H.
    + split; [lia | congruence].
    + destruct k; discriminate.
Qed.

Lemma best_new (seen : list Sample) (a : Sample) :
  nonzero a = true ->
  (forall j e, nth_error seen j = Some e -> nonzero e = true -> Time e < Time a) ->
  best (seen ++ [a]) (Some (List.length seen, a)).
Proof.
  intros Ha Hprev. simpl. split; [|split].
  - rewrite nth_error_app2 by lia. rewrite Nat.sub_diag. reflexivity.
  - exact Ha.
  - intros j e Hj He. destruct (nth_error_snoc _ _ _ _ Hj) as [[Hlt Hn] | [Heq Hn]].
    + pose proof (Hprev j e Hn He). lia.
    + subst. lia.
Qed.

Lemma best_keep (seen : list Sample) (i : nat) (m a : Sample) :
  best seen (Some (i, m)) ->
  (nonzero a = true -> Time a <= Time m) ->
  best (seen ++ [a]) (Some (i, m)).
Proof.
  simpl. intros (Hi & Hm & Hall) Ha.
  assert (Hlt : (i < List.length seen)%nat) by (apply nth_error_Some; congruence).
  split; [|split].
  - rewrite nth_error_app1 by exact Hlt. exact Hi.
  - exact Hm.
  - intros j e Hj He. destruct (nth_error_snoc _ _ _ _ Hj) as [[Hjl Hn] | [Heq Hn]].
    + apply Hall; assumption.
    + subst. split; [apply Ha; exact He | lia].
Qed.

Lemma best_step (seen : list Sample) (r : option (nat * Sample)) (a : Sample) :
  best seen r ->
  best (seen ++ [a])
       (if nonzero a then
          match r with
          | None => Some (List.length seen, a)
          | Some (_, m) => if Time m <? Time a then Some (List.length seen, a) else r
          end
        else r).
Proof.
  intros Hb. destruct (nonzero a) eqn:Ha.
  - destruct r as [[i m]|].
    + destruct (Time m <? Time a) eqn:Hcmp.
      * apply Z.ltb_lt in Hcmp. apply best_new; [exact Ha|].
        intros j e Hj He. destruct Hb as (_ & _ & Hall).
        destruct (Hall j e Hj He). lia.
      * apply Z.ltb_ge in Hcmp. apply best_keep; [exact Hb | intros _; exact Hcmp].
    + apply best_new; [exact Ha|]. intros j e Hj He.
      apply nth_error_In in Hj. simpl in Hb. rewrite (Hb e Hj) in He. discriminate.
  - destruct r as [[i m]|].
    + apply best_keep; [exact Hb | congruence].
    + simpl in *. intros e He. apply in_app_or in He. destruct He as [He | [He | []]].
      * apply Hb; exact He.
      * subst; exact Ha.
Qed.

Lemma scan_best (data seen : list Sample) (r : option (nat * Sample)) :
  best seen r -> best (seen ++ data) (scan (List.length seen) data r).
Proof.
  revert seen r. induction data as [|a data IH]; intros seen r Hb; simpl.
  - rewrite app_nil_r. exact Hb.
  - replace (seen ++ a :: data)%list with ((seen ++ [a]) ++ data)%list
      by (rewrite <- app_assoc; reflexivity).
    replace (S (List.length seen)) with (List.length (seen ++ [a]))
      by (rewrite length_app; simpl; lia).
    apply IH. apply best_step. exact Hb.
Qed.

Lemma findMostRecent_best (data : list Sample) : best data (findMostRecent data).
Proof.
  unfold findMostRecent. apply (scan_best data [] None). intros e [].
Qed.

Lemma parseSpeedtest_parsed (body : string) (data : list Sample) :
  parsed_data body data -> parseSpeedtest body = selectMostRecent data.
Proof.
  intros [r Hr Hrc Hd Hne | Hmeta Harr Hne | r Hmeta Harr Hr Hcode Hd Hne].
  - unfold parseSpeedtest. rewrite Hr, Hrc, Hd. simpl.
    destruct data; [congruence | reflexivity].
  - unfold parseSpeedtest.
    assert (Hgo : parseArray body = selectMostRecent data).
    { unfold parseArray. rewrite Harr. destruct data; [congruence | reflexivity]. }
    destruct (json.Unmarshal into_SpeedtestResponse body) as [r|] eqn:Hr; [|exact Hgo].
    rewrite (Hmeta r eq_refl). simpl. exact Hgo.
  - unfold parseSpeedtest.
    assert (Hgo : parseArray body = selectMostRecent data).
    { unfold parseArray.
      assert (Hv2 : parseV2 body = selectMostRecent data).
      { unfold parseV2. rewrite Hr, Hcode, Hd. simpl.
        destruct data; [congruence | reflexivity]. }
      destruct (json.Unmarshal into_Samples body) as [[|x l]|] eqn:Ha; try exact Hv2.
      specialize (Harr _ eq_refl). discriminate. }
    destruct (json.Unmarshal into_SpeedtestResponse body) as [r'|] eqn:Hr'; [|exact Hgo].
    rewrite (Hmeta r' eq_refl). simpl. exact Hgo.
Qed.

(** A sample whose download and upload are both zero is not valid. *)
Lemma zero_not_positive (x : float) :
  PrimFloat.eqb x PrimFloat.zero = true -> PrimFloat.ltb PrimFloat.zero x = false.
Proof.
  rewrite eqb_spec, ltb_spec.
  change (Prim2SF PrimFloat.zero) with (S754_zero false).
  destruct (Prim2SF x) as [s | s | | s m e]; try destruct s;
    unfold SFeqb, SFltb; simpl; congruence.
Qed.

Lemma zero_valued_not_nonzero (e : Sample) : zero_valued e = true -> nonzero e = false.
Proof.
  unfold zero_valued, nonzero. intros H. apply andb_true_iff in H. destruct H as [Hd Hu].
  rewrite (zero_not_positive _ Hd), (zero_not_positive _ Hu). reflexivity.
Qed.


(** C3. For every parsed data array with a sample whose download or upload
    is positive, the normalizer returns the valid sample of greatest
    timestamp, and among valid samples of that timestamp the first in the
    order of the array: every valid sample has a timestamp that is not
    greater, and a strictly smaller one when it comes earlier. *)
Theorem C3_most_recent_valid_sample (body : string) (data : list Sample) :
  parsed_data body data ->
  (exists e, In e data /\ nonzero e = true) ->
  exists i m,
    findMostRecent data = Some (i, m)
    /\ nth_error data i = Some m
    /\ nonzero m = true
    /\ parseSpeedtest body = inr (convertSpeedtestResult m)
    /\ forall j e, nth_error data j = Some e -> nonzero e = true ->
                   Time e <= Time m /\ ((j < i)%nat -> Time e < Time m).
Proof.
  intros Hp [e [Hin He]].
  pose proof (findMostRecent_best data) as Hb.
  pose proof (parseSpeedtest_parsed body data Hp) as Hsel. unfold selectMostRecent in Hsel.
  destruct (findMostRecent data) as [[i m]|] eqn:Hf; simpl in Hb.
  - destruct Hb as (Hi & Hm & Hall). exists i, m. repeat split; try assumption.
    + apply (Hall j e0); assumption.
    + apply (Hall j e0); assumption.
  - rewrite (Hb e Hin) in He. discriminate.
Qed.

Lemma parsed_meta_body : parsed_data Ex.meta_body Ex.samples.
Proof.
  apply (parsed_meta _ _ (mkSpeedtestResponse (mkMeta "ok" "") Ex.samples)).
  - vm_compute. reflexivity.
  - reflexivity.
  - reflexivity.
  - discriminate.
Defined.

Lemma C3_witness :
  exists i m,
    findMostRecent Ex.samples = Some (i, m)
    /\ nth_error Ex.samples i = Some m
    /\ nonzero m = true
    /\ parseSpeedtest Ex.meta_body = inr (convertSpeedtestResult m)
    /\ forall j e, nth_error Ex.samples j = Some e -> nonzero e = true ->
                   Time e <= Time m /\ ((j < i)%nat -> Time e < Time m).
Proof.
  apply (C3_most_recent_valid_sample Ex.meta_body Ex.samples parsed_meta_body).
  exists (Ex.sample 80 0 200). split.
  - simpl. right. left. reflexivity.
  - vm_compute. reflexivity.
Defined.

(** An array that is not empty is one the source goes on to select from. *)
Lemma decoded_parsed (body : string) (sh : Shape) (data : list Sample) :
  decoded_data body sh data -> data <> [] -> parsed_data body data.
Proof.
  intros [r Hr Hrc | d Hmeta Harr | r Hmeta Harr Hr Hcode] Hne.
  - exact (parsed_meta body _ r Hr Hrc eq_refl Hne).
  - exact (parsed_array body _ Hmeta Harr Hne).
  - exact (parsed_v2 body _ r Hmeta Harr Hr Hcode eq_refl Hne).
Qed.

(** A body that decodes to the empty array ([[]] or [null]) fails the
    third attempt as well, or gives it an empty [data]. *)
Lemma empty_array_unparsed (body : string) :
  json.Unmarshal into_Samples body = Some [] -> parseV2 body = inl (ErrUnparsed body).
Proof.
  unfold parseV2, json.Unmarshal.
  destruct (json.parse body) as [v|]; [|discriminate].
  destruct v; simpl; try discriminate; intros _; reflexivity.
Qed.

(** The guards on the length: an empty array never reaches the selection. *)
Lemma decoded_empty (body : string) (sh : Shape) (data : list Sample) :
  decoded_data body sh data ->
  data = [] ->
  parseSpeedtest body
  = inl (match sh with MetaWrapped => ErrNoResults | _ => ErrUnparsed body end).
Proof.
  intros [r Hr Hrc | d Hmeta Harr | r Hmeta Harr Hr Hcode] He.
  - unfold parseSpeedtest. rewrite Hr, Hrc, He. reflexivity.
  - subst d.
    assert (Hgo : parseArray body = inl (ErrUnparsed body)).
    { unfold parseArray. rewrite Harr. apply empty_array_unparsed. exact Harr. }
    unfold parseSpeedtest.
    destruct (json.Unmarshal into_SpeedtestResponse body) as [r|] eqn:Hr; [|exact Hgo].
    rewrite (Hmeta r eq_refl). simpl. exact Hgo.
  - assert (Hv2 : parseV2 body = inl (ErrUnparsed body)).
    { unfold parseV2. rewrite Hr, Hcode, He. reflexivity. }
    assert (Hgo : parseArray body = inl (ErrUnparsed body)).
    { unfold parseArray.
      destruct (json.Unmarshal into_Samples body) as [[|x l]|] eqn:Ha; try exact Hv2.
      specialize (Harr _ eq_refl). discriminate. }
    unfold parseSpeedtest.
    destruct (json.Unmarshal into_SpeedtestResponse body) as [r'|] eqn:Hr'; [|exact Hgo].
    rewrite (Hmeta r' eq_refl). simpl. exact Hgo.
Qed.

(** C4, as stated, fails on an empty array: no sample of it has a positive
    download or upload, yet the error is not the one of "no valid
    results".  The meta-wrapped response with an empty [data] is rejected
    with "no speedtest results found"; the empty bare array and the v2
    response with an empty [data] are rejected as of no known format, with
    the body in the error. *)
Lemma C4_empty_array_is_another_error :
  let call b :=
    fst (GetSpeedtestResultsInRange 0 1
           (mkState Ex.legacy (Ex.world [Ex.answer 200 [] b]))) in
  (forall e : Sample, In e [] -> nonzero e = false)
  /\ (decoded_data Ex.empty_body MetaWrapped []
      /\ parseSpeedtest Ex.empty_body = inl ErrNoResults
      /\ call Ex.empty_body = Err ErrNoResults
      /\ call Ex.empty_body <> Err ErrNoValidResults)
  /\ (decoded_data Ex.empty_array_body BareArray []
      /\ parseSpeedtest Ex.empty_array_body = inl (ErrUnparsed Ex.empty_array_body)
      /\ call Ex.empty_array_body = Err (ErrUnparsed Ex.empty_array_body)
      /\ call Ex.empty_array_body <> Err ErrNoValidResults)
  /\ (decoded_data Ex.empty_v2_body V2Wrapped []
      /\ parseSpeedtest Ex.empty_v2_body = inl (ErrUnparsed Ex.empty_v2_body)
      /\ call Ex.empty_v2_body = Err (ErrUnparsed Ex.empty_v2_body)
      /\ call Ex.empty_v2_body <> Err ErrNoValidResults).
Proof.
  cbv zeta. split; [intros e []|]. split; [|split].
  - split; [|split; [|split]]; try (vm_compute; reflexivity).
    + apply (decoded_meta Ex.empty_body (mkSpeedtestResponse (mkMeta "ok" "") []));
        vm_compute; reflexivity.
    + vm_compute. discriminate.
  - split; [|split; [|split]]; try (vm_compute; reflexivity).
    + apply (decoded_array Ex.empty_array_body []).
      * intros r Hr. vm_compute in Hr. discriminate.
      * vm_compute. reflexivity.
    + vm_compute. discriminate.
  - split; [|split; [|split]]; try (vm_compute; reflexivity).
    + apply (decoded_v2 Ex.empty_v2_body (mkV2Response 0 "" [])).
      * intros r Hr. vm_compute in Hr. injection Hr as <-. reflexivity.
      * intros l Hl. vm_compute in Hl. discriminate.
      * vm_compute. reflexivity.
      * reflexivity.
    + vm_compute. discriminate.
Qed.

(** C4, amended. For every array the normalizer decodes, in whichever of
    the three shapes: a sample whose download and upload are both zero is
    never the one selected, whatever its timestamp; and when no sample has
    a positive download or upload the body is rejected, and so is the call
    that received it.  The error is the one of "no valid results" when the
    array is not empty; for an empty array it is "no speedtest results
    found" in the meta-wrapped shape and the error of no known format,
    which carries the body, in the two other shapes. *)
Theorem C4_zero_samples_are_never_selected
        (body : string) (sh : Shape) (data : list Sample) :
  decoded_data body sh data ->
  (forall i e, nth_error data i = Some e -> zero_valued e = true ->
               forall m, findMostRecent data <> Some (i, m))
  /\ (forall r, parseSpeedtest body = inr r ->
                exists i m, nth_error data i = Some m /\ zero_valued m = false
                            /\ r = convertSpeedtestResult m)
  /\ ((forall e, In e data -> nonzero e = false) ->
      let err := match data with
                 | _ :: _ => ErrNoValidResults
                 | [] => match sh with
                         | MetaWrapped => ErrNoResults
                         | _ => ErrUnparsed body
                         end
                 end in
      parseSpeedtest body = inl err
      /\ forall start end_ s req resp rest,
           fst (archiveRequest start end_ s) = Ok req ->
           wire (world s) = Answered resp :: rest ->
           StatusCode resp = StatusOK ->
           Body resp = Readable body ->
           fst (GetSpeedtestResultsInRange start end_ s) = Err err).
Proof.
  intros Hd.
  pose proof (findMostRecent_best data) as Hb.
  assert (Hsel : data <> [] -> parseSpeedtest body = selectMostRecent data).
  { intros Hne. apply parseSpeedtest_parsed. exact (decoded_parsed body sh data Hd Hne). }
  unfold selectMostRecent in Hsel.
  split; [|split].
  - intros i e Hi Hz m Hf. rewrite Hf in Hb. simpl in Hb. destruct Hb as (Hm & Hnz & _).
    assert (e = m) by congruence. subst.
    rewrite (zero_valued_not_nonzero _ Hz) in Hnz. discriminate.
  - intros r Hr. destruct data as [|x l] eqn:Hdata.
    + rewrite (decoded_empty body sh [] Hd eq_refl) in Hr. discriminate.
    + rewrite (Hsel ltac:(discriminate)) in Hr.
      destruct (findMostRecent (x :: l)) as [[i m]|]; [|discriminate].
      simpl in Hb. destruct Hb as (Hm & Hnz & _). exists i, m. repeat split.
      * exact Hm.
      * destruct (zero_valued m) eqn:Hz; [|reflexivity].
        rewrite (zero_valued_not_nonzero _ Hz) in Hnz. discriminate.
      * congruence.
  - intros Hall. cbv zeta.
    match goal with |- parseSpeedtest body = inl ?e /\ _ => set (err := e) end.
    assert (Herr : parseSpeedtest body = inl err).
    { subst err. destruct data as [|x l] eqn:Hdata.
      - exact (decoded_empty body sh [] Hd eq_refl).
      - rewrite (Hsel ltac:(discriminate)).
        destruct (findMostRecent (x :: l)) as [[i m]|]; [|reflexivity].
        simpl in Hb. destruct Hb as (Hm & Hnz & _). apply nth_error_In in Hm.
        rewrite (Hall m Hm) in Hnz. discriminate. }
    split; [exact Herr|].
    intros start end_ s req resp rest Hreq Hw Hst Hbody.
    rewrite (fetch_ok _ _ _ _ _ _ _ Hreq Hw Hst Hbody), Herr. reflexivity.
Qed.

Lemma decoded_zeros_body : decoded_data Ex.zeros_body MetaWrapped Ex.zeros.
Proof.
  apply (decoded_meta Ex.zeros_body (mkSpeedtestResponse (mkMeta "ok" "") Ex.zeros)).
  - vm_compute. reflexivity.
  - reflexivity.
Defined.

Lemma decoded_empty_body : decoded_data Ex.empty_body MetaWrapped [].
Proof.
  apply (decoded_meta Ex.empty_body (mkSpeedtestResponse (mkMeta "ok" "") [])).
  - vm_compute. reflexivity.
  - reflexivity.
Defined.

Lemma C4_witness :
  (parseSpeedtest Ex.zeros_body = inl ErrNoValidResults
   /\ fst (GetSpeedtestResultsInRange 0 1
             (mkState Ex.legacy (Ex.world [Ex.answer 200 [] Ex.zeros_body])))
      = Err ErrNoValidResults)
  /\ (parseSpeedtest Ex.empty_body = inl ErrNoResults
      /\ fst (GetSpeedtestResultsInRange 0 1
                (mkState Ex.legacy (Ex.world [Ex.answer 200 [] Ex.empty_body])))
         = Err ErrNoResults).
Proof.
  split.
  - destruct (C4_zero_samples_are_never_selected Ex.zeros_body MetaWrapped Ex.zeros
                decoded_zeros_body) as (_ & _ & H).
    assert (Hz : forall e, In e Ex.zeros -> nonzero e = false).
    { intros e [He | [He | []]]; subst; vm_compute; reflexivity. }
    destruct (H Hz) as (Herr & Hcall). split; [exact Herr|].
    eapply Hcall; reflexivity.
  - destruct (C4_zero_samples_are_never_selected Ex.empty_body MetaWrapped []
                decoded_empty_body) as (_ & _ & H).
    destruct (H (fun e (He : In e []) => match He with end)) as (Herr & Hcall).
    split; [exact Herr|].
    eapply Hcall; reflexivity.
Defined.

(** ** [FormatSpeed] *)

Lemma SFcompare_antisym (a b : spec_float) :
  SFcompare b a = option_map CompOpp (SFcompare a b).
Proof.
  destruct a as [sa | sa | | sa ma ea], b as [sb | sb | | sb mb eb]; simpl;
    try reflexivity; try (destruct sa; reflexivity); try (destruct sb; reflexivity);
    try (destruct sa, sb; reflexivity).
  destruct sa, sb; simpl; try reflexivity.
  - rewrite (Z.compare_antisym ea eb). destruct (ea ?= eb); simpl; try reflexivity.
    change (Pos.compare_cont Eq mb ma) with (Pos.compare mb ma).
    change (Pos.compare_cont Eq ma mb) with (Pos.compare ma mb).
    rewrite (Pos.compare_antisym ma mb). reflexivity.
  - rewrite (Z.compare_antisym ea eb). destruct (ea ?= eb); simpl; try reflexivity.
    change (Pos.compare_cont Eq mb ma) with (Pos.compare mb ma).
    change (Pos.compare_cont Eq ma mb) with (Pos.compare ma mb).
    rewrite (Pos.compare_antisym ma mb). reflexivity.
Qed.

(** Below 1000 is not "at least 1000". *)
Lemma below_not_above (x y : float) :
  PrimFloat.ltb x y = true -> PrimFloat.leb y x = false.
Proof.
  rewrite ltb_spec, leb_spec. unfold SFltb, SFleb. rewrite (SFcompare_antisym (Prim2SF x) (Prim2SF y)).
  destruct (SFcompare (Prim2SF x) (Prim2SF y)) as [[| |]|]; simpl; congruence.
Qed.

Lemma string_of_uint_digits (u : Decimal.uint) :
  strconv.all_digits (NilEmpty.string_of_uint u) = true.
Proof. induction u; simpl; try reflexivity; exact IHu. Qed.

Lemma Itoa_digits (n : Z) :
  0 <= n -> strconv.all_digits (strconv.Itoa n) = true /\ strconv.Itoa n <> "".
Proof.
  intros Hn. unfold strconv.Itoa. destruct n as [|p|p]; [| |lia].
  - split; [reflexivity | discriminate].
  - simpl. split; [apply string_of_uint_digits|].
    pose proof (DecimalPos.Unsigned.to_uint_nonnil p) as Hnil.
    destruct (Pos.to_uint p); [congruence | discriminate ..].
Qed.

Lemma Itoa_digit (d : Z) :
  0 <= d < 10 -> exists c, strconv.Itoa d = String c EmptyString /\ is_digit c = true.
Proof.
  intros Hd.
  assert (H : d = 0 \/ d = 1 \/ d = 2 \/ d = 3 \/ d = 4 \/ d = 5 \/ d = 6 \/ d = 7
              \/ d = 8 \/ d = 9) by lia.
  repeat (destruct H as [H | H]; [subst; eexists; split; reflexivity|]).
  subst; eexists; split; reflexivity.
Qed.

Lemma tenths_nonneg (m : positive) (e : Z) : 0 <= strconv.tenths m e.
Proof.
  unfold strconv.tenths. destruct (0 <=? e) eqn:He.
  - apply Z.leb_le in He. apply Z.mul_nonneg_nonneg; [lia | apply Z.pow_nonneg; lia].
  - assert (Hd : 0 < 2 ^ (- e)) by (apply Z.pow_pos_nonneg; lia).
    assert (Hq : 0 <= (10 * Z.pos m) / 2 ^ (- e)) by (apply Z.div_pos; lia).
    cbv zeta. match goal with |- context [if ?c then _ else _] => destruct c end; lia.
Qed.

Lemma fixed1_one_decimal (neg : bool) (t : Z) : 0 <= t -> one_decimal (strconv.fixed1 neg t).
Proof.
  intros Ht. unfold strconv.fixed1, one_decimal.
  assert (Hq : 0 <= t / 10) by (apply Z.div_pos; lia).
  assert (Hr : 0 <= t mod 10 < 10) by (apply Z.mod_pos_bound; lia).
  destruct (Itoa_digits _ Hq) as [Hd Hne]. destruct (Itoa_digit _ Hr) as [c [Hc Hdc]].
  exists (if neg then "-" else ""), (strconv.Itoa (t / 10)), c. rewrite Hc.
  repeat split; try assumption. destruct neg; [right | left]; reflexivity.
Qed.

Lemma FormatFloat1_one_decimal (x : float) :
  is_number x = true -> one_decimal (strconv.FormatFloat1 x).
Proof.
  unfold is_number, strconv.FormatFloat1. destruct (Prim2SF x) as [s | s | | s m e];
    try discriminate; intros _.
  - apply fixed1_one_decimal. lia.
  - apply fixed1_one_decimal, tenths_nonneg.
Qed.

(** C8. [FormatSpeed] writes a value below 1000 in Mb/s and a value of 1000
    or more, divided by 1000, in Gb/s; what is written of a finite number
    has one decimal; and 999, 1000 and 2500 give "999.0 Mb/s", "1.0 Gb/s"
    and "2.5 Gb/s". *)
Theorem C8_FormatSpeed :
  (forall mbps, PrimFloat.ltb mbps 1000 = true ->
                FormatSpeed mbps = strconv.FormatFloat1 mbps ++ " Mb/s")
  /\ (forall mbps, PrimFloat.leb 1000 mbps = true ->
                   FormatSpeed mbps = strconv.FormatFloat1 (mbps / 1000) ++ " Gb/s")
  /\ (forall x, is_number x = true -> one_decimal (strconv.FormatFloat1 x))
  /\ FormatSpeed 999 = "999.0 Mb/s"
  /\ FormatSpeed 1000 = "1.0 Gb/s"
  /\ FormatSpeed 2500 = "2.5 Gb/s".
Proof.
  split; [|split; [|split; [|split; [|split]]]].
  - intros mbps H. unfold FormatSpeed. rewrite (below_not_above _ _ H). reflexivity.
  - intros mbps H. unfold FormatSpeed. rewrite H. reflexivity.
  - exact FormatFloat1_one_decimal.
  - vm_compute. reflexivity.
  - vm_compute. reflexivity.
  - vm_compute. reflexivity.
Qed.

Lemma C8_witness :
  FormatSpeed 750.25 = strconv.FormatFloat1 750.25 ++ " Mb/s"
  /\ FormatSpeed 2500 = strconv.FormatFloat1 (2500 / 1000) ++ " Gb/s"
  /\ one_decimal (strconv.FormatFloat1 750.25).
Proof.
  destruct C8_FormatSpeed as (Hlow & Hhigh & Hdec & _).
  split; [|split].
  - apply Hlow. vm_compute. reflexivity.
  - apply Hhigh. vm_compute. reflexivity.
  - apply Hdec. vm_compute. reflexivity.
Defined.

(** ** The result cache *)

Lemma Sub_lt (t u ttl : Z) :
  minInt64 < ttl <= maxInt64 -> (time.Sub t u <? ttl) = (t - u <? ttl).
Proof.
  intros H. unfold time.Sub.
  destruct (t - u <? ttl) eqn:E; [apply Z.ltb_lt in E; apply Z.ltb_lt | apply Z.ltb_ge in E; apply Z.ltb_ge]; lia.
Qed.

Lemma setCachedSpeedtest_run (result : option SpeedtestResult) (s : State) :
  setCachedSpeedtest result s
  = (Ok tt,
     mkState (set_cache (mkSpeedtestCache result (reading (world s)) (TTL (cache (client s))))
                        (client s))
             (after_reading (world s))).
Proof. unfold setCachedSpeedtest, bind. rewrite Now_reading. reflexivity. Qed.

Lemma getCachedSpeedtest_run (s : State) :
  getCachedSpeedtest s
  = match Result (cache (client s)) with
    | None => (Ok None, s)
    | Some r =>
        (Ok (if time.Sub (reading (world s)) (CachedAt (cache (client s)))
                <? TTL (cache (client s))
             then Some r else None),
         mkState (client s) (after_reading (world s)))
    end.
Proof.
  unfold getCachedSpeedtest, bind, get_client.
  destruct (Result (cache (client s))) as [r|]; [|reflexivity].
  rewrite Now_reading.
  destruct (time.Sub (reading (world s)) (CachedAt (cache (client s)))
            <? TTL (cache (client s))); reflexivity.
Qed.

(** C6. [set] stores the result whatever the cache held and stamps it with
    the time of the call; from then on [get] returns it exactly when the
    time elapsed since then is strictly less than the TTL: it is returned
    one millisecond before the TTL has elapsed and not one millisecond
    after. *)
Theorem C6_result_cache (s : State) (r : SpeedtestResult) :
  minInt64 < TTL (cache (client s)) <= maxInt64 ->
  let ttl := TTL (cache (client s)) in
  let t0 := reading (world s) in
  let s1 := snd (setCachedSpeedtest (Some r) s) in
  fst (setCachedSpeedtest (Some r) s) = Ok tt
  /\ cache (client s1) = mkSpeedtestCache (Some r) t0 ttl
  /\ forall s2,
       cache (client s2) = cache (client s1) ->
       let elapsed := reading (world s2) - t0 in
       (fst (getCachedSpeedtest s2) = Ok (Some r) <-> elapsed < ttl)
       /\ (ttl <= elapsed -> fst (getCachedSpeedtest s2) = Ok None)
       /\ (elapsed = ttl - time.Millisecond -> fst (getCachedSpeedtest s2) = Ok (Some r))
       /\ (elapsed = ttl + time.Millisecond -> fst (getCachedSpeedtest s2) = Ok None).
Proof.
  intros Httl ttl t0 s1. subst s1. rewrite setCachedSpeedtest_run. simpl.
  split; [reflexivity|]. split; [reflexivity|].
  intros s2 Hc. cbv zeta. rewrite getCachedSpeedtest_run, Hc. simpl.
  rewrite (Sub_lt _ _ _ Httl). fold t0 ttl.
  assert (Hms : time.Millisecond = 1000000) by reflexivity.
  destruct (reading (world s2) - t0 <? ttl) eqn:E;
    [apply Z.ltb_lt in E | apply Z.ltb_ge in E]; simpl.
  - repeat split; intros; try reflexivity; try assumption; lia.
  - repeat split; intros; try reflexivity; try discriminate; lia.
Qed.

Lemma C6_witness :
  let s := mkState Ex.legacy (Ex.world []) in
  let r := mkSpeedtestResult 80 0 0 200 in
  let s1 := snd (setCachedSpeedtest (Some r) s) in
  cache (client s1) = mkSpeedtestCache (Some r) Ex.t0 (24 * time.Hour)
  /\ fst (getCachedSpeedtest
            (mkState (client s1)
                     (mkWorld (Ex.t0 + 24 * time.Hour - time.Millisecond) [] [] []
                              (fun _ => None))))
     = Ok (Some r)
  /\ fst (getCachedSpeedtest
            (mkState (client s1)
                     (mkWorld (Ex.t0 + 24 * time.Hour + time.Millisecond) [] [] []
                              (fun _ => None))))
     = Ok None.
Proof.
  intros s r s1.
  assert (Httl : minInt64 < TTL (cache (client s)) <= maxInt64) by (vm_compute; split; congruence).
  destruct (C6_result_cache s r Httl) as (_ & Hset & Hget).
  split; [exact Hset|]. split.
  - match goal with |- fst (getCachedSpeedtest ?s2) = _ =>
      destruct (Hget s2 eq_refl) as (_ & _ & Hbefore & _) end.
    apply Hbefore. vm_compute. reflexivity.
  - match goal with |- fst (getCachedSpeedtest ?s2) = _ =>
      destruct (Hget s2 eq_refl) as (_ & _ & _ & Hafter) end.
    apply Hafter. vm_compute. reflexivity.
Defined.

(** ** The session and [Login] *)

Lemma isSessionValid_run (s : State) :
  isSessionValid s
  = if String.eqb (SessionAuthToken (session (client s))) "" then (Ok false, s)
    else (Ok (reading (world s) <? Expires (session (client s))),
          mkState (client s) (after_reading (world s))).
Proof.
  unfold isSessionValid, bind, get_client.
  destruct (String.eqb (SessionAuthToken (session (client s))) ""); [reflexivity|].
  rewrite Now_reading. reflexivity.
Qed.

Lemma freshLogin_run (s : State) :
  url_error (world s) (loginURL (client s)) = None ->
  freshLogin s = (resp <- Do (loginRequest (client s)) ErrLoginRequest ;; afterLogin resp) s.
Proof.
  intros Hu. unfold freshLogin, bind at 1, get_client.
  unfold bind at 1, NewRequest. rewrite Hu. reflexivity.
Qed.

Lemma afterLogin_traffic (resp : Response) : keeps same_traffic (afterLogin resp).
Proof. unfold afterLogin, cacheSession. keeps_auto. Qed.

Lemma Do_sent (req : Request) (w : string -> error) (s : State) :
  sent (world (snd (Do req w s))) = (sent (world s) ++ [req])%list.
Proof. unfold Do. destruct (wire (world s)) as [|[c|r] t]; reflexivity. Qed.

Lemma freshLogin_sent (s : State) :
  url_error (world s) (loginURL (client s)) = None ->
  sent (world (snd (freshLogin s))) = (sent (world s) ++ [loginRequest (client s)])%list.
Proof.
  intros Hu. rewrite (freshLogin_run s Hu). unfold bind.
  pose proof (Do_sent (loginRequest (client s)) ErrLoginRequest s) as Hs.
  destruct (Do (loginRequest (client s)) ErrLoginRequest s) as [[resp | e | p |] s1];
    simpl in *; try exact Hs.
  destruct (afterLogin_traffic resp s1) as [_ Hk]. rewrite Hk. exact Hs.
Qed.

(** C5. The session counts as valid exactly when its token is not empty
    and the clock reads a time strictly before its expiry.  With a valid
    session [Login] takes the tokens from it and leaves the transport alone:
    nothing is sent.  With a session whose expiry is in the past [Login] is
    the fresh login, which posts the credentials to the login endpoint. *)
Theorem C5_session_validity (s : State) :
  let c := client s in
  let t := reading (world s) in
  (fst (isSessionValid s) = Ok true
   <-> SessionAuthToken (session c) <> "" /\ t < Expires (session c))
  /\ (fst (isSessionValid s) = Ok true \/ fst (isSessionValid s) = Ok false)
  /\ (SessionAuthToken (session c) <> "" -> t < Expires (session c) ->
      fst (Login s) = Ok tt
      /\ AuthToken (client (snd (Login s))) = SessionAuthToken (session c)
      /\ CSRFToken (client (snd (Login s))) = SessionCSRFToken (session c)
      /\ session (client (snd (Login s))) = session c
      /\ wire (world (snd (Login s))) = wire (world s)
      /\ sent (world (snd (Login s))) = sent (world s))
  /\ (Expires (session c) < t ->
      Login s = freshLogin (snd (isSessionValid s))
      /\ (url_error (world s) (loginURL c) = None ->
          sent (world (snd (Login s))) = (sent (world s) ++ [loginRequest c])%list
          /\ Method (loginRequest c) = "POST"
          /\ URL (loginRequest c) = loginURL c)).
Proof.
  intros c t. subst c t. unfold Login, bind. rewrite isSessionValid_run.
  destruct (String.eqb_spec (SessionAuthToken (session (client s))) "") as [He | Hne].
  - simpl. split; [|split; [|split]].
    + split; [discriminate | intros [H _]; congruence].
    + right; reflexivity.
    + intros H; congruence.
    + intros Hexp. split; [reflexivity|]. intros Hu. split; [|split; reflexivity].
      apply freshLogin_sent. exact Hu.
  - destruct (reading (world s) <? Expires (session (client s))) eqn:E;
      [apply Z.ltb_lt in E | apply Z.ltb_ge in E]; simpl.
    + split; [|split; [|split]].
      * split; [intros _; split; assumption | reflexivity].
      * left; reflexivity.
      * intros _ _. repeat split; reflexivity.
      * intros Hexp. lia.
    + split; [|split; [|split]].
      * split; [discriminate | intros [_ H]; lia].
      * right; reflexivity.
      * intros _ H. lia.
      * intros Hexp. split; [reflexivity|]. intros Hu. split; [|split; reflexivity].
        rewrite freshLogin_sent by exact Hu. reflexivity.
Qed.

Lemma C5_witness :
  let valid := mkState Ex.logged_in (Ex.world [Ex.login_ok]) in
  let stale := mkState Ex.expired (Ex.world [Ex.login_ok]) in
  (fst (Login valid) = Ok tt
   /\ wire (world (snd (Login valid))) = [Ex.login_ok]
   /\ sent (world (snd (Login valid))) = [])
  /\ sent (world (snd (Login stale))) = [loginRequest Ex.expired].
Proof.
  intros valid stale. split.
  - destruct (C5_session_validity valid) as (_ & _ & H & _).
    assert (H1 : SessionAuthToken (session (client valid)) <> "") by discriminate.
    assert (H2 : reading (world valid) < Expires (session (client valid)))
      by (vm_compute; reflexivity).
    destruct (H H1 H2) as (Hok & _ & _ & _ & Hw & Hs).
    split; [exact Hok|]. split; [exact Hw | exact Hs].
  - destruct (C5_session_validity stale) as (_ & _ & _ & H).
    assert (H1 : Expires (session (client stale)) < reading (world stale))
      by (vm_compute; reflexivity).
    destruct (H H1) as (_ & Hsent). destruct (Hsent eq_refl) as (Hs & _). exact Hs.
Defined.

(** ** The CSRF token *)

(** [extractCSRFToken] on a UniFi OS client that holds a token. *)
Lemma extractCSRFToken_run (s : State) :
  IsUniFiOS (client s) = true ->
  AuthToken (client s) <> "" ->
  extractCSRFToken s
  = match strings.Split (AuthToken (client s)) "." with
    | [_; p; _] =>
        match base64.DecodeString (fixPayload p) with
        | None => (Err ErrJWTDecode, s)
        | Some d =>
            match json.Unmarshal (fun v => json.into_map v []) d with
            | None => (Err ErrJWTParse, s)
            | Some jwtData =>
                match findCSRF possibleFields jwtData with
                | Some tokenStr =>
                    (Ok tt, mkState (set_CSRFToken tokenStr (client s)) (world s))
                | None => (Ok tt, s)
                end
            end
        end
    | parts => (Err (ErrJWTFormat (Z.of_nat (List.length parts))), s)
    end.
Proof.
  intros Hos Htok. unfold extractCSRFToken, bind, get_client. rewrite Hos.
  destruct (String.eqb_spec (AuthToken (client s)) "") as [He | _]; [congruence|].
  cbv beta iota zeta delta [negb orb].
  destruct (strings.Split (AuthToken (client s)) ".") as [|h [|p [|sg [|x l]]]];
    try reflexivity.
  - change (Z.of_nat (List.length [h; p; sg]) =? 3) with true.
    change (nth 1 [h; p; sg] "") with p. cbv beta iota.
    destruct (base64.DecodeString (fixPayload p)) as [d|]; [|reflexivity].
    destruct (json.Unmarshal (fun v => json.into_map v []) d) as [jwt|]; [|reflexivity].
    destruct (findCSRF possibleFields jwt); reflexivity.
  - assert (Hlen : (Z.of_nat (List.length (h :: p :: sg :: x :: l)) =? 3) = false)
      by (apply Z.eqb_neq; simpl List.length; lia).
    rewrite Hlen. reflexivity.
Qed.

(** C7, as amended. On a UniFi OS client whose token has three parts, the
    middle one decoding to a JSON object: when the object is the single
    field [csrfToken], [csrf_token] or [xsrfToken] with the value [abc], the
    CSRF token of the client becomes [abc]; when the object has none of the
    candidate fields no error is returned and the CSRF token of the client
    is left as it was, hence empty if it was empty. *)
Theorem C7_csrf_extraction (s : State) (h p sg d : string) (jwtData : json.Map) :
  IsUniFiOS (client s) = true ->
  strings.Split (AuthToken (client s)) "." = [h; p; sg] ->
  base64.DecodeString (fixPayload p) = Some d ->
  json.Unmarshal (fun v => json.into_map v []) d = Some jwtData ->
  (forall f, In f ["csrfToken"; "csrf_token"; "xsrfToken"] ->
             jwtData = [(f, json.JString "abc")] ->
             fst (extractCSRFToken s) = Ok tt
             /\ CSRFToken (client (snd (extractCSRFToken s))) = "abc")
  /\ ((forall f, In f possibleFields -> json.lookup jwtData f = None) ->
      fst (extractCSRFToken s) = Ok tt
      /\ snd (extractCSRFToken s) = s
      /\ (CSRFToken (client s) = "" -> CSRFToken (client (snd (extractCSRFToken s))) = "")).
Proof.
  intros Hos Hsplit Hdec Hjson.
  assert (Htok : AuthToken (client s) <> "").
  { intros He. rewrite He in Hsplit. discriminate. }
  rewrite (extractCSRFToken_run s Hos Htok), Hsplit, Hdec, Hjson. split.
  - intros f Hf Hj. subst jwtData.
    destruct Hf as [Hf | [Hf | [Hf | []]]]; subst f; split; reflexivity.
  - intros Hnone.
    assert (Hfind : findCSRF possibleFields jwtData = None).
    { unfold possibleFields in *. simpl.
      rewrite (Hnone "csrfToken"), (Hnone "csrf_token"), (Hnone "xsrfToken"), (Hnone "token");
        simpl; auto 6. }
    rewrite Hfind. repeat split. intros H; exact H.
Qed.

Lemma C7_witness :
  let holding token := mkState (set_AuthToken token Ex.unifi) (Ex.world []) in
  let extracted token := CSRFToken (client (snd (extractCSRFToken (holding token)))) in
  (fst (extractCSRFToken (holding Ex.token_csrfToken)) = Ok tt
   /\ extracted Ex.token_csrfToken = "abc")
  /\ (fst (extractCSRFToken (holding Ex.token_csrf_token)) = Ok tt
      /\ extracted Ex.token_csrf_token = "abc")
  /\ (fst (extractCSRFToken (holding Ex.token_xsrfToken)) = Ok tt
      /\ extracted Ex.token_xsrfToken = "abc")
  /\ (fst (extractCSRFToken (holding Ex.token_empty)) = Ok tt
      /\ extracted Ex.token_empty = "").
Proof.
  intros holding extracted. subst extracted. cbv beta.
  assert (Hone : forall f p,
             In f ["csrfToken"; "csrf_token"; "xsrfToken"] ->
             base64.DecodeString (fixPayload p)
             = Some (json.render (json.JObject [(f, json.JString "abc")])) ->
             json.Unmarshal (fun v => json.into_map v [])
                            (json.render (json.JObject [(f, json.JString "abc")]))
             = Some [(f, json.JString "abc")] ->
             strings.Split ("h." ++ p ++ ".s") "." = ["h"; p; "s"] ->
             fst (extractCSRFToken (holding ("h." ++ p ++ ".s"))) = Ok tt
             /\ CSRFToken (client (snd (extractCSRFToken (holding ("h." ++ p ++ ".s"))))) = "abc").
  { intros f p Hf Hd Hj Hs.
    destruct (C7_csrf_extraction (holding ("h." ++ p ++ ".s")) "h" p "s" _ _
                eq_refl Hs Hd Hj) as [H _].
    apply (H f Hf eq_refl). }
  split; [|split; [|split]].
  - apply (Hone "csrfToken" "eyJjc3JmVG9rZW4iOiJhYmMifQ"); try (vm_compute; reflexivity).
    simpl; auto.
  - apply (Hone "csrf_token" "eyJjc3JmX3Rva2VuIjoiYWJjIn0"); try (vm_compute; reflexivity).
    simpl; auto.
  - apply (Hone "xsrfToken" "eyJ4c3JmVG9rZW4iOiJhYmMifQ"); try (vm_compute; reflexivity).
    simpl; auto.
  - assert (Hd : base64.DecodeString (fixPayload "e30") = Some "{}")
      by (vm_compute; reflexivity).
    assert (Hj : json.Unmarshal (fun v => json.into_map v []) "{}" = Some [])
      by (vm_compute; reflexivity).
    destruct (C7_csrf_extraction (holding Ex.token_empty) "h" "e30" "s" _ _
                eq_refl eq_refl Hd Hj) as [_ H].
    destruct H as (Hok & _ & Hempty); [intros f _; reflexivity|].
    split; [exact Hok | apply Hempty; reflexivity].
Defined.

(** C7, as stated, fails: a client that holds a CSRF token from an earlier
    login keeps it when the payload of its new token, here [{}], has none
    of the candidate fields; the token extracted is not empty. *)
Lemma C7_stale_token_survives :
  let s := mkState Ex.stale (Ex.world []) in
  strings.Split (AuthToken (client s)) "." = ["h"; "e30"; "s"]
  /\ base64.DecodeString (fixPayload "e30") = Some "{}"
  /\ json.parse "{}" = Some (json.JObject [])
  /\ fst (extractCSRFToken s) = Ok tt
  /\ CSRFToken (client (snd (extractCSRFToken s))) = "0123456789abcdef"
  /\ CSRFToken (client (snd (extractCSRFToken s))) <> "".
Proof.
  intros s. repeat split; try (vm_compute; reflexivity). vm_compute. discriminate.
Qed.

(** The same through [Login]: the session has run out, the gateway answers
    the login with a token whose payload is [{}], and the old CSRF token is
    cached with the new session. *)
Lemma Login_keeps_stale_token :
  let s := mkState Ex.stale_before
                   (Ex.world [Ex.answer 200 [mkCookie "TOKEN" Ex.token_empty] "{}"]) in
  fst (Login s) = Ok tt
  /\ AuthToken (client (snd (Login s))) = Ex.token_empty
  /\ CSRFToken (client (snd (Login s))) = "0123456789abcdef"
  /\ SessionCSRFToken (session (client (snd (Login s)))) = "0123456789abcdef".
Proof. intros s. repeat split; vm_compute; reflexivity. Qed.

(** ** A login answered with a malformed token *)

Lemma safe_ret {A : Type} (a : A) : safe (ret a).
Proof. intros s. left. exists a. reflexivity. Qed.

Lemma safe_fail {A : Type} (e : error) : safe (@fail A e).
Proof. intros s. right. exists e. reflexivity. Qed.

Lemma safe_get_client : safe get_client.
Proof. intros s. left. eexists. reflexivity. Qed.

Lemma safe_update (f : UDMProClient -> UDMProClient) : safe (update f).
Proof. intros s. left. exists tt. reflexivity. Qed.

Lemma safe_bind {A B : Type} (m : M A) (k : A -> M B) :
  safe m -> (forall a, safe (k a)) -> safe (bind m k).
Proof.
  intros Hm Hk s. unfold bind. destruct (Hm s) as [[a Ha] | [e He]];
    destruct (m s) as [r s']; simpl in *; subst.
  - apply Hk.
  - right. exists e. reflexivity.
Qed.

Lemma safe_wrap {A : Type} (w : error -> error) (m : M A) : safe m -> safe (wrap w m).
Proof.
  intros Hm s. unfold wrap. destruct (Hm s) as [[a Ha] | [e He]];
    destruct (m s) as [r s']; simpl in *; subst.
  - left. exists a. reflexivity.
  - right. exists (w e). reflexivity.
Qed.

Create HintDb safe.
#[local] Hint Resolve safe_ret safe_fail safe_get_client safe_update : safe.

Ltac safe_step :=
  first
    [ assumption
    | match goal with
      | |- forall _, _ => intros ?
      | |- safe (bind _ _) => apply safe_bind
      | |- safe (wrap _ _) => apply safe_wrap
      | |- safe (if ?b then _ else _) => destruct b
      | |- safe (match ?x with _ => _ end) => destruct x
      | |- safe (let _ := _ in _) => cbv zeta
      end
    | solve [auto with safe] ].

Lemma safe_extractCSRFToken : safe extractCSRFToken.
Proof. unfold extractCSRFToken. repeat safe_step. Qed.
#[local] Hint Resolve safe_extractCSRFToken : safe.

(** A malformed token that is not empty makes the extraction fail. *)
Lemma extractCSRFToken_malformed (s : State) :
  IsUniFiOS (client s) = true ->
  AuthToken (client s) <> "" ->
  well_formed_token (AuthToken (client s)) = false ->
  exists e, extractCSRFToken s = (Err e, s).
Proof.
  intros Hos Htok Hbad. rewrite (extractCSRFToken_run s Hos Htok).
  unfold well_formed_token in Hbad.
  destruct (strings.Split (AuthToken (client s)) ".") as [|h [|p [|sg [|x l]]]];
    try (eexists; reflexivity).
  destruct (base64.DecodeString (fixPayload p)) as [d|]; [|eexists; reflexivity].
  destruct (json.Unmarshal (fun v => json.into_map v []) d) as [jwt|];
    [discriminate | eexists; reflexivity].
Qed.

Lemma extractCSRFToken_empty (s : State) :
  AuthToken (client s) = "" -> extractCSRFToken s = (Ok tt, s).
Proof.
  intros H. unfold extractCSRFToken, bind, get_client. rewrite H.
  rewrite orb_true_r. reflexivity.
Qed.

(** On a UniFi OS client the cookies other than [TOKEN] are passed over. *)
Lemma loginCookies_no_TOKEN (cookies : list Cookie) (s : State) :
  IsUniFiOS (client s) = true ->
  forallb (fun k => negb (is_TOKEN k)) cookies = true ->
  loginCookies cookies s = (Ok tt, s).
Proof.
  intros Hos. induction cookies as [|k r IH]; intros Hno; [reflexivity|].
  simpl in Hno. apply andb_true_iff in Hno. destruct Hno as [Hk Hr].
  simpl. unfold bind at 1, get_client. rewrite Hos. unfold is_TOKEN in Hk.
  destruct (String.eqb (Name k) "TOKEN"); [discriminate|]. simpl.
  unfold bind, ret. apply IH. exact Hr.
Qed.

(** The cookie [TOKEN] with the value [v], on a UniFi OS client. *)
Lemma loginCookies_TOKEN (v : string) (post : list Cookie) (s : State) :
  IsUniFiOS (client s) = true ->
  loginCookies (mkCookie "TOKEN" v :: post) s
  = (wrap ErrExtractCSRF extractCSRFToken ;;; loginCookies post)
      (mkState (set_AuthToken v (client s)) (world s)).
Proof.
  intros Hos. simpl. unfold bind at 1, get_client. rewrite Hos. reflexivity.
Qed.

(** With a malformed token in a [TOKEN] cookie (the last of that name if
    the value is empty) the loop either fails or leaves the client without
    a token. *)
Lemma loginCookies_malformed (pre post : list Cookie) (v : string) (s : State) :
  IsUniFiOS (client s) = true ->
  (v = "" -> forallb (fun k => negb (is_TOKEN k)) post = true) ->
  well_formed_token v = false ->
  (exists e, fst (loginCookies (pre ++ mkCookie "TOKEN" v :: post) s) = Err e)
  \/ (fst (loginCookies (pre ++ mkCookie "TOKEN" v :: post) s) = Ok tt
      /\ AuthToken (client (snd (loginCookies (pre ++ mkCookie "TOKEN" v :: post) s))) = "").
Proof.
  intros Hos Hpost Hbad. revert s Hos. induction pre as [|k pre IH]; intros s Hos.
  - simpl app. rewrite (loginCookies_TOKEN v post s Hos).
    set (s1 := mkState (set_AuthToken v (client s)) (world s)).
    destruct (String.eqb_spec v "") as [Hv | Hv].
    + right. subst v. unfold bind, wrap.
      rewrite (extractCSRFToken_empty s1 eq_refl).
      rewrite (loginCookies_no_TOKEN post s1 Hos (Hpost eq_refl)). split; reflexivity.
    + left. destruct (extractCSRFToken_malformed s1 Hos Hv Hbad) as [e He].
      exists (ErrExtractCSRF e). unfold bind, wrap. rewrite He. reflexivity.
  - change ((k :: pre) ++ mkCookie "TOKEN" v :: post)%list
      with (k :: (pre ++ mkCookie "TOKEN" v :: post))%list.
    set (rest := (pre ++ mkCookie "TOKEN" v :: post)%list) in *.
    assert (Hstep : exists m : M unit,
               safe m /\ keeps same_static m
               /\ loginCookies (k :: rest) s = (m ;;; loginCookies rest) s).
    { simpl loginCookies. unfold bind at 1, get_client.
      eexists. split; [|split; [|reflexivity]].
      - repeat safe_step.
      - keeps_auto. }
    destruct Hstep as (m & Hsafe & Hkeep & Heq). rewrite Heq. unfold bind.
    specialize (Hkeep s). destruct (Hsafe s) as [[a Ha] | [e He]];
      destruct (m s) as [r s1]; simpl in *; subst.
    + apply IH. destruct Hkeep as (Hk & _). congruence.
    + left. exists e. reflexivity.
Qed.

(** Unless it succeeds, what follows the response of the login leaves the
    cached session as it was. *)
Lemma afterLogin_session (resp : Response) (s : State) :
  fst (afterLogin resp s) <> Ok tt -> same_session s (snd (afterLogin resp s)).
Proof.
  unfold afterLogin, bind, get_client, fail.
  pose proof (keeps_ReadAll same_session same_session_refl resp s) as H1.
  destruct (ReadAll resp s) as [[b | e | p |] s1]; simpl in H1; try (intros _; exact H1).
  destruct (StatusCode resp =? StatusTooManyRequests); [intros _; exact H1|].
  destruct (negb (StatusCode resp =? StatusOK)); [intros _; exact H1|].
  pose proof (loginCookies_session (Cookies resp) s1) as H2.
  destruct (loginCookies (Cookies resp) s1) as [[u | e | p |] s2]; simpl in H2;
    try (intros _; apply (same_session_trans _ s1); assumption).
  destruct (String.eqb (AuthToken (client s2)) "").
  - intros _. apply (same_session_trans _ s1); assumption.
  - intros Hnot. exfalso. apply Hnot. unfold cacheSession, bind. rewrite Now_reading.
    reflexivity.
Qed.

Lemma loginCookies_skip (pre l : list Cookie) (s : State) :
  IsUniFiOS (client s) = true ->
  forallb (fun k => negb (is_TOKEN k)) pre = true ->
  loginCookies (pre ++ l) s = loginCookies l s.
Proof.
  intros Hos. induction pre as [|k r IH]; intros Hno; [reflexivity|].
  simpl in Hno. apply andb_true_iff in Hno. destruct Hno as [Hk Hr].
  simpl. unfold bind at 1, get_client. rewrite Hos. unfold is_TOKEN in Hk.
  destruct (String.eqb (Name k) "TOKEN"); [discriminate|]. simpl.
  unfold bind, ret. apply IH. exact Hr.
Qed.

(** A login that is not served from the cached session is a fresh login,
    made by the same client on the same transport. *)
Lemma Login_fresh (s : State) :
  fst (isSessionValid s) = Ok false ->
  Login s = freshLogin (snd (isSessionValid s))
  /\ client (snd (isSessionValid s)) = client s
  /\ wire (world (snd (isSessionValid s))) = wire (world s)
  /\ url_error (world (snd (isSessionValid s))) = url_error (world s).
Proof.
  intros H. unfold Login, bind. rewrite isSessionValid_run in *.
  destruct (String.eqb (SessionAuthToken (session (client s))) ""); simpl in *.
  - repeat split.
  - injection H as H. rewrite H. repeat split.
Qed.

Lemma afterLogin_ok (resp : Response) (b : string) (s : State) :
  StatusCode resp = StatusOK ->
  Body resp = Readable b ->
  afterLogin resp s
  = (loginCookies (Cookies resp) ;;;
     c' <- get_client ;;
     if String.eqb (AuthToken c') "" then fail ErrNoAuthToken else cacheSession) s.
Proof.
  intros Hst Hb. unfold afterLogin, ReadAll. rewrite Hb, Hst. reflexivity.
Qed.

(** C9. A UniFi OS client logs in afresh and the gateway answers 200 with a
    [TOKEN] cookie whose value does not have three parts, or whose middle
    part does not decode, or does not unmarshal (if the value is empty, the
    cookie is the last of that name): [Login] returns an error and the
    cached session is what it was.  When the value is not empty and no
    [TOKEN] cookie comes before, the error is that of the extraction and
    the client holds the token it was given. *)
Theorem C9_malformed_token_rejected
        (s : State) (resp : Response) (rest : list round_trip)
        (pre post : list Cookie) (v b : string) :
  IsUniFiOS (client s) = true ->
  fst (isSessionValid s) = Ok false ->
  url_error (world s) (loginURL (client s)) = None ->
  wire (world s) = Answered resp :: rest ->
  StatusCode resp = StatusOK ->
  Body resp = Readable b ->
  Cookies resp = (pre ++ mkCookie "TOKEN" v :: post)%list ->
  (v = "" -> forallb (fun k => negb (is_TOKEN k)) post = true) ->
  well_formed_token v = false ->
  (exists e, fst (Login s) = Err e)
  /\ session (client (snd (Login s))) = session (client s)
  /\ (v <> "" -> forallb (fun k => negb (is_TOKEN k)) pre = true ->
      (exists e, fst (Login s) = Err (ErrExtractCSRF e))
      /\ AuthToken (client (snd (Login s))) = v).
Proof.
  intros Hos Hinvalid Hurl Hwire Hst Hbody Hcookies Hpost Hbad.
  destruct (Login_fresh s Hinvalid) as (HL & Hc & Hw & Hu). rewrite HL.
  set (s1 := snd (isSessionValid s)) in *.
  assert (Hurl1 : url_error (world s1) (loginURL (client s1)) = None)
    by (rewrite Hu, Hc; exact Hurl).
  set (s2 := after_round_trip s1 (loginRequest (client s1)) rest).
  assert (Hrun : freshLogin s1 = afterLogin resp s2).
  { rewrite (freshLogin_run s1 Hurl1). unfold bind.
    rewrite (Do_answered _ _ s1 resp rest) by (rewrite Hw; exact Hwire). reflexivity. }
  rewrite Hrun.
  assert (Hc2 : client s2 = client s) by exact Hc.
  assert (Hos2 : IsUniFiOS (client s2) = true) by (rewrite Hc2; exact Hos).
  assert (Herr : exists e, fst (afterLogin resp s2) = Err e).
  { rewrite (afterLogin_ok resp b s2 Hst Hbody), Hcookies. unfold bind at 1.
    destruct (loginCookies_malformed pre post v s2 Hos2 Hpost Hbad) as [[e He] | [Hok Hempty]];
      destruct (loginCookies (pre ++ mkCookie "TOKEN" v :: post) s2) as [r s3];
      simpl in *; subst r.
    - exists e. reflexivity.
    - exists ErrNoAuthToken. unfold bind, get_client. rewrite Hempty. reflexivity. }
  split; [exact Herr|]. split.
  - destruct Herr as [e He].
    assert (Hnot : fst (afterLogin resp s2) <> Ok tt) by (rewrite He; discriminate).
    pose proof (afterLogin_session resp s2 Hnot) as Hss. unfold same_session in Hss.
    rewrite Hss, Hc2. reflexivity.
  - intros Hv Hpre.
    set (s3 := mkState (set_AuthToken v (client s2)) (world s2)).
    destruct (extractCSRFToken_malformed s3 Hos2 Hv Hbad) as [e He].
    assert (Hfin : afterLogin resp s2 = (Err (ErrExtractCSRF e), s3)).
    { rewrite (afterLogin_ok resp b s2 Hst Hbody), Hcookies. unfold bind at 1.
      rewrite (loginCookies_skip pre _ s2 Hos2 Hpre), (loginCookies_TOKEN v post s2 Hos2).
      fold s3. unfold bind, wrap. rewrite He. reflexivity. }
    rewrite Hfin. split; [exists e; reflexivity | reflexivity].
Qed.

Lemma C9_witness :
  let s := mkState Ex.unifi
                   (Ex.world [Ex.answer 200 [mkCookie "TOKEN" "not-a-jwt"] "{}"]) in
  (exists e, fst (Login s) = Err (ErrExtractCSRF e))
  /\ AuthToken (client (snd (Login s))) = "not-a-jwt"
  /\ session (client (snd (Login s))) = session Ex.unifi.
Proof.
  intros s.
  destruct (C9_malformed_token_rejected s
              (mkResponse 200 [mkCookie "TOKEN" "not-a-jwt"] (Readable "{}")) []
              [] [] "not-a-jwt" "{}")
    as (_ & Hsession & Hspecific); try reflexivity.
  destruct Hspecific as (Herr & Htoken); [discriminate | reflexivity |].
  split; [exact Herr|]. split; [exact Htoken | exact Hsession].
Defined.

(** ** [GetSpeedtestResults] *)

Lemma wrap64_small (z : Z) : minInt64 <= z <= maxInt64 -> wrap64 z = z.
Proof.
  unfold wrap64, minInt64, maxInt64. intros H.
  rewrite Z.mod_small by lia. lia.
Qed.

Lemma archiveRequest_payload (start end_ : Z) (s : State) (req : Request) :
  fst (archiveRequest start end_ s) = Ok req ->
  Payload req = Some (marshal_SpeedtestRequest start end_)
  /\ Method req = "POST" /\ URL req = archiveURL (client s).
Proof.
  unfold archiveRequest, bind, get_client, NewRequest, ret, panic.
  destruct (url_error (world s) (archiveURL (client s))); simpl; [discriminate|].
  repeat match goal with |- context [if ?b then _ else _] => destruct b end;
    simpl; intros H; inversion H; repeat split.
Qed.

(** The call hands its request to the transport before anything else. *)
Lemma fetch_sends (start end_ : Z) (s : State) (req : Request) :
  fst (archiveRequest start end_ s) = Ok req ->
  exists later,
    sent (world (snd (GetSpeedtestResultsInRange start end_ s)))
    = (sent (world s) ++ req :: later)%list.
Proof.
  intros Hreq. rewrite GetSpeedtestResultsInRange_unfold. unfold fetchBody.
  pose proof (archiveRequest_same start end_ s) as Hsame.
  unfold bind at 1. destruct (archiveRequest start end_ s) as [r s1]. simpl in *. subst.
  unfold bind at 1. pose proof (Do_sent req ErrSpeedtestRequest s) as Hs.
  destruct (Do req ErrSpeedtestRequest s) as [[resp | e | p |] s3]; simpl in Hs;
    try (exists []; exact Hs).
  match goal with |- context [snd (?k s3)] =>
    assert (Hk : keeps sent_grows k) end.
  { pose proof GetSpeedtestResultsInRange_sent. keeps_auto. }
  destruct (Hk s3) as [later Hl]. exists later. rewrite Hl, Hs, <- app_assoc. reflexivity.
Qed.

(** C10. When the cache has nothing fresh, the fetch is the ranged fetch
    over the window that ends at the reading of the clock in milliseconds
    since the epoch and starts 86,400,000 ms before; its result is stored
    in the cache with the time of the storing when it succeeds, and the
    cache is what it was when it does not. *)
Theorem C10_window_and_cache (s : State) :
  let s1 := snd (getCachedSpeedtest s) in
  let t := reading (world s1) in
  let s2 := mkState (client s1) (after_reading (world s1)) in
  let end_ := t / 1000000 in
  let start := end_ - 86400000 in
  fst (getCachedSpeedtest s) = Ok None ->
  0 <= t ->
  t / 1000000 <= maxInt64 ->
  GetSpeedtestResults s
  = (result <- GetSpeedtestResultsInRange start end_ ;;
     setCachedSpeedtest (Some result) ;;;
     ret result) s2
  /\ cache (client s2) = cache (client s)
  /\ (forall req,
        fst (archiveRequest start end_ s2) = Ok req ->
        Payload req = Some (marshal_SpeedtestRequest start end_)
        /\ exists later,
             sent (world (snd (GetSpeedtestResults s))) = (sent (world s) ++ req :: later)%list)
  /\ (forall r,
        fst (GetSpeedtestResults s) = Ok r ->
        fst (GetSpeedtestResultsInRange start end_ s2) = Ok r
        /\ Result (cache (client (snd (GetSpeedtestResults s)))) = Some r
        /\ CachedAt (cache (client (snd (GetSpeedtestResults s))))
           = reading (world (snd (GetSpeedtestResultsInRange start end_ s2)))
        /\ TTL (cache (client (snd (GetSpeedtestResults s)))) = TTL (cache (client s)))
  /\ ((forall r, fst (GetSpeedtestResultsInRange start end_ s2) <> Ok r) ->
      fst (GetSpeedtestResults s) = fst (GetSpeedtestResultsInRange start end_ s2)
      /\ cache (client (snd (GetSpeedtestResults s))) = cache (client s)).
Proof.
  intros s1 t s2 end_ start Hmiss Ht Hmax.
  assert (Hget : getCachedSpeedtest s = (Ok None, s1)).
  { subst s1. destruct (getCachedSpeedtest s) as [r s']. simpl in *. subst. reflexivity. }
  assert (Hs1 : client s1 = client s /\ sent (world s1) = sent (world s)).
  { subst s1. rewrite getCachedSpeedtest_run.
    destruct (Result (cache (client s))); split; reflexivity. }
  destruct Hs1 as [Hc1 Hsent1].
  assert (Hend : time.UnixMilli t = end_).
  { unfold time.UnixMilli, time.Millisecond. apply wrap64_small.
    assert (0 <= t / 1000000) by (apply Z.div_pos; lia).
    unfold minInt64. subst end_. lia. }
  assert (Hstart : wrap64 (time.UnixMilli t - 24 * 60 * 60 * 1000) = start).
  { rewrite Hend. apply wrap64_small.
    assert (0 <= t / 1000000) by (apply Z.div_pos; lia).
    unfold minInt64, maxInt64 in *. subst start end_. lia. }
  assert (Hrun : GetSpeedtestResults s
                 = (result <- GetSpeedtestResultsInRange start end_ ;;
                    setCachedSpeedtest (Some result) ;;;
                    ret result) s2).
  { unfold GetSpeedtestResults. unfold bind at 1. rewrite Hget.
    unfold bind at 1. rewrite Now_reading. fold t s2. cbv zeta.
    rewrite Hstart, Hend. reflexivity. }
  assert (Hc2 : cache (client s2) = cache (client s)) by (simpl; rewrite Hc1; reflexivity).
  pose proof (GetSpeedtestResultsInRange_cache start end_ s2) as Hcache.
  unfold same_cache in Hcache.
  split; [exact Hrun|]. split; [exact Hc2|]. rewrite Hrun. unfold bind.
  split; [|split].
  - intros req Hreq. split; [apply (archiveRequest_payload _ _ _ _ Hreq)|].
    destruct (fetch_sends start end_ s2 req Hreq) as [later Hl].
    exists later. simpl in Hl. rewrite Hsent1 in Hl.
    destruct (GetSpeedtestResultsInRange start end_ s2) as [[r | e | p |] s3];
      simpl in *; try exact Hl.
    rewrite setCachedSpeedtest_run. simpl. exact Hl.
  - intros r.
    destruct (GetSpeedtestResultsInRange start end_ s2) as [[r' | e | p |] s3] eqn:Hg;
      simpl in Hcache |- *; try discriminate.
    rewrite setCachedSpeedtest_run. simpl. intros H. inversion H; subst r'.
    repeat split. rewrite Hcache, Hc1. reflexivity.
  - intros Hfail.
    destruct (GetSpeedtestResultsInRange start end_ s2) as [[r' | e | p |] s3] eqn:Hg;
      simpl in Hcache |- *; try (split; [reflexivity | congruence]).
    exfalso. apply (Hfail r'). reflexivity.
Qed.

Lemma C10_witness :
  let s := mkState Ex.logged_in (Ex.world [Ex.archive_ok]) in
  let down := mkState Ex.logged_in (Ex.world [Ex.answer 500 [] ""]) in
  GetSpeedtestResults s
  = (result <- GetSpeedtestResultsInRange 1699913600000 1700000000000 ;;
     setCachedSpeedtest (Some result) ;;;
     ret result) s
  /\ Result (cache (client (snd (GetSpeedtestResults s))))
     = Some (mkSpeedtestResult 80 0 0 200)
  /\ cache (client (snd (GetSpeedtestResults down))) = cache Ex.logged_in.
Proof.
  intros s down.
  assert (Ht : 0 <= reading (world (snd (getCachedSpeedtest s)))) by (vm_compute; congruence).
  assert (Hmax : reading (world (snd (getCachedSpeedtest s))) / 1000000 <= maxInt64)
    by (vm_compute; congruence).
  destruct (C10_window_and_cache s eq_refl Ht Hmax) as (Hrun & _ & _ & Hok & _).
  split; [exact Hrun|]. split.
  - apply (Hok (mkSpeedtestResult 80 0 0 200)). vm_compute. reflexivity.
  - assert (Ht' : 0 <= reading (world (snd (getCachedSpeedtest down))))
      by (vm_compute; congruence).
    assert (Hmax' : reading (world (snd (getCachedSpeedtest down))) / 1000000 <= maxInt64)
      by (vm_compute; congruence).
    destruct (C10_window_and_cache down eq_refl Ht' Hmax') as (_ & _ & _ & _ & Hfail).
    apply Hfail. intros r. vm_compute. discriminate.
Defined.

(** ** The answer 401 *)

Lemma clearSession_run (s : State) :
  clearSession s
  = (Ok tt,
     mkState (set_session
                (mkSessionCache (SessionAuthToken (session (client s)))
                                (SessionCSRFToken (session (client s)))
                                (reading (world s)))
                (set_CSRFToken "" (set_AuthToken "" (client s))))
             (after_reading (world s))).
Proof. unfold clearSession, bind, update. simpl. rewrite Now_reading. reflexivity. Qed.

(** From the expiry on, the session is not valid. *)
Lemma isSessionValid_expired (s : State) :
  Expires (session (client s)) <= reading (world s) -> fst (isSessionValid s) = Ok false.
Proof.
  intros H. rewrite isSessionValid_run.
  destruct (String.eqb (SessionAuthToken (session (client s))) ""); [reflexivity|].
  simpl. apply Z.ltb_ge in H. rewrite H. reflexivity.
Qed.

(** C2, as amended. When the archive request is answered 401 the client
    empties its own [AuthToken] and [CSRFToken], sets the expiry of the
    cached session to the reading of the clock and leaves the two tokens of
    the cached session as they were; the check of validity is false right
    after, and at any later reading of the clock as long as the session is
    the same. *)
Theorem C2_unauthorized_invalidates
        (start end_ : Z) (s : State) (req : Request) (resp : Response)
        (rest : list round_trip) :
  fst (archiveRequest start end_ s) = Ok req ->
  wire (world s) = Answered resp :: rest ->
  StatusCode resp = StatusUnauthorized ->
  let s1 := after_round_trip s req rest in
  let s2 := snd (clearSession s1) in
  GetSpeedtestResultsInRange start end_ s
  = (wrap ErrReauth Login ;;; GetSpeedtestResultsInRange start end_) s2
  /\ AuthToken (client s2) = ""
  /\ CSRFToken (client s2) = ""
  /\ Expires (session (client s2)) = reading (world s1)
  /\ SessionAuthToken (session (client s2)) = SessionAuthToken (session (client s))
  /\ SessionCSRFToken (session (client s2)) = SessionCSRFToken (session (client s))
  /\ fst (isSessionValid s2) = Ok false
  /\ (forall s3, session (client s3) = session (client s2) ->
                 reading (world s1) <= reading (world s3) ->
                 fst (isSessionValid s3) = Ok false).
Proof.
  intros Hreq Hw Hst s1 s2.
  rewrite (fetch_unauthorized _ _ _ _ _ _ Hreq Hw Hst). fold s1.
  subst s2. rewrite clearSession_run. simpl.
  split; [unfold bind at 1; rewrite clearSession_run; reflexivity|].
  repeat split.
  - apply isSessionValid_expired. simpl. apply reading_after.
  - intros s3 Hs Ht. apply isSessionValid_expired. rewrite Hs. simpl. exact Ht.
Qed.

Lemma C2_witness :
  let s := mkState Ex.unifi_logged_in (Ex.world [Ex.unauthorized; Ex.login_ok]) in
  exists s2,
    GetSpeedtestResultsInRange 0 1 s
    = (wrap ErrReauth Login ;;; GetSpeedtestResultsInRange 0 1) s2
    /\ AuthToken (client s2) = ""
    /\ CSRFToken (client s2) = ""
    /\ Expires (session (client s2)) = Ex.t0
    /\ fst (isSessionValid s2) = Ok false.
Proof.
  intros s.
  assert (Hreq : exists req, fst (archiveRequest 0 1 s) = Ok req)
    by (eexists; vm_compute; reflexivity).
  destruct Hreq as [req Hreq].
  destruct (C2_unauthorized_invalidates 0 1 s req
              (mkResponse 401 [] (Readable "")) [Ex.login_ok] Hreq eq_refl eq_refl)
    as (Hrun & Ha & Hc & He & _ & _ & Hv & _).
  eexists. split; [exact Hrun|]. split; [exact Ha|]. split; [exact Hc|].
  split; [exact He | exact Hv].
Defined.

(** C2, as stated, fails: after a 401 the cached session still holds the
    two tokens it held.  Here the gateway cannot be reached for the new
    login, and the call ends with the session expired but not emptied. *)
Lemma C2_session_tokens_survive :
  let s := mkState Ex.unifi_logged_in (Ex.world [Ex.unauthorized]) in
  let s' := snd (GetSpeedtestResultsInRange 0 1 s) in
  fst (GetSpeedtestResultsInRange 0 1 s) = Err (ErrReauth (ErrLoginRequest unreachable))
  /\ AuthToken (client s') = ""
  /\ CSRFToken (client s') = ""
  /\ Expires (session (client s')) = Ex.t0
  /\ SessionAuthToken (session (client s')) = "h.e30.s"
  /\ SessionCSRFToken (session (client s')) = "0123456789abcdef"
  /\ ~ (SessionAuthToken (session (client s')) = ""
        /\ SessionCSRFToken (session (client s')) = "").
Proof.
  intros s s'. repeat split; try (vm_compute; reflexivity).
  intros [H _]. vm_compute in H. discriminate.
Qed.

(** ** The retry after a 401 *)

(** The archive request of a legacy client. *)
Lemma archiveRequest_legacy (start end_ : Z) (s : State) :
  IsUniFiOS (client s) = false ->
  url_error (world s) (archiveURL (client s)) = None ->
  exists req, archiveRequest start end_ s = (Ok req, s).
Proof.
  intros Hos Hu. unfold archiveRequest, bind, get_client, NewRequest. rewrite Hu, Hos.
  simpl. eexists. reflexivity.
Qed.

(** The login of a legacy client answered with its session cookie. *)
Lemma Login_legacy (s : State) (rest : list round_trip) :
  IsUniFiOS (client s) = false ->
  (forall u, url_error (world s) u = None) ->
  wire (world s) = Ex.login_ok :: rest ->
  Expires (session (client s)) <= reading (world s) ->
  exists s',
    Login s = (Ok tt, s')
    /\ same_static s s'
    /\ wire (world s') = rest
    /\ sent (world s') = (sent (world s) ++ [loginRequest (client s)])%list.
Proof.
  intros Hos Hu Hw Hexp.
  destruct (Login_fresh s (isSessionValid_expired s Hexp)) as (HL & Hc & Hw1 & Hu1).
  pose proof (isSessionValid_traffic s) as [_ Hsent1].
  set (s1 := snd (isSessionValid s)) in *.
  assert (Hrun : freshLogin s1
                 = afterLogin (mkResponse 200 [mkCookie "unifises" "s3ss10n"] (Readable "{}"))
                              (after_round_trip s1 (loginRequest (client s1)) rest)).
  { rewrite (freshLogin_run s1) by (rewrite Hu1; apply Hu). unfold bind.
    rewrite (Do_answered _ _ s1 _ rest) by (rewrite Hw1; exact Hw). reflexivity. }
  set (s2 := after_round_trip s1 (loginRequest (client s1)) rest) in *.
  assert (Hos2 : IsUniFiOS (client s2) = false) by (simpl; rewrite Hc; exact Hos).
  set (resp := mkResponse 200 [mkCookie "unifises" "s3ss10n"] (Readable "{}")) in *.
  assert (Hfin : afterLogin resp s2
                 = (Ok tt,
                    mkState (set_session
                               (mkSessionCache "s3ss10n" (CSRFToken (client s2))
                                               (time.Add (reading (world s2)) (8 * time.Hour)))
                               (set_AuthToken "s3ss10n" (client s2)))
                            (after_reading (world s2)))).
  { rewrite (afterLogin_ok resp "{}" s2 eq_refl eq_refl).
    change (Cookies resp) with [mkCookie "unifises" "s3ss10n"].
    simpl loginCookies. unfold bind, get_client, update, ret. rewrite Hos2. simpl.
    unfold cacheSession, bind. rewrite Now_reading. reflexivity. }
  eexists. rewrite HL, Hrun. split; [exact Hfin|]. simpl. rewrite Hc, Hsent1.
  repeat split. exact Hu1.
Qed.

(** One round: the request is answered 401, the new login is accepted, and
    the function calls itself again. *)
Lemma fetch_round (start end_ : Z) (s : State) (rest : list round_trip) :
  IsUniFiOS (client s) = false ->
  (forall u, url_error (world s) u = None) ->
  wire (world s) = Ex.unauthorized :: Ex.login_ok :: rest ->
  exists s',
    GetSpeedtestResultsInRange start end_ s = GetSpeedtestResultsInRange start end_ s'
    /\ IsUniFiOS (client s') = false
    /\ (forall u, url_error (world s') u = None)
    /\ wire (world s') = rest
    /\ List.length (sent (world s')) = (List.length (sent (world s)) + 2)%nat.
Proof.
  intros Hos Hu Hw.
  destruct (archiveRequest_legacy start end_ s Hos (Hu _)) as [req Hreq].
  assert (Hreq' : fst (archiveRequest start end_ s) = Ok req) by (rewrite Hreq; reflexivity).
  rewrite (fetch_unauthorized start end_ s req _ _ Hreq' Hw eq_refl).
  unfold bind at 1. rewrite clearSession_run.
  match goal with |- context [bind _ _ ?st] => set (s2 := st) end.
  destruct (Login_legacy s2 rest) as (s' & HL & Hstat & Hw' & Hsent').
  - exact Hos.
  - exact Hu.
  - reflexivity.
  - simpl. apply reading_after.
  - exists s'. unfold bind, wrap. rewrite HL.
    destruct Hstat as (H1 & _ & _ & _ & _ & H6).
    split; [reflexivity|]. split; [rewrite H1; exact Hos|].
    split; [intros u; rewrite H6; apply Hu|]. split; [exact Hw'|].
    rewrite Hsent'. simpl. rewrite !length_app. simpl. lia.
Qed.

(** As many rounds as the gateway answers 401: there is no bound on the
    number of logins and of requests made by one call. *)
Lemma fetch_rounds (n : nat) (start end_ : Z) (then_ : list round_trip) (s : State) :
  IsUniFiOS (client s) = false ->
  (forall u, url_error (world s) u = None) ->
  wire (world s) = Ex.rounds n then_ ->
  exists s',
    GetSpeedtestResultsInRange start end_ s = GetSpeedtestResultsInRange start end_ s'
    /\ IsUniFiOS (client s') = false
    /\ (forall u, url_error (world s') u = None)
    /\ wire (world s') = then_
    /\ List.length (sent (world s')) = (List.length (sent (world s)) + 2 * n)%nat.
Proof.
  revert s. induction n as [|n IH]; intros s Hos Hu Hw.
  - exists s. repeat split; try assumption. lia.
  - simpl in Hw. destruct (fetch_round start end_ s _ Hos Hu Hw)
      as (s1 & Heq & Hos1 & Hu1 & Hw1 & Hlen1).
    destruct (IH s1 Hos1 Hu1 Hw1) as (s' & Heq' & Hos' & Hu' & Hw' & Hlen').
    exists s'. split; [congruence|]. repeat split; try assumption. lia.
Qed.

Lemma retry_unbounded (n : nat) (start end_ : Z) (s : State) :
  IsUniFiOS (client s) = false ->
  (forall u, url_error (world s) u = None) ->
  wire (world s) = Ex.rounds n [Ex.archive_ok] ->
  fst (GetSpeedtestResultsInRange start end_ s) = Ok (mkSpeedtestResult 80 0 0 200)
  /\ List.length (sent (world (snd (GetSpeedtestResultsInRange start end_ s))))
     = (List.length (sent (world s)) + 2 * n + 1)%nat.
Proof.
  intros Hos Hu Hw.
  destruct (fetch_rounds n start end_ _ s Hos Hu Hw) as (s' & Heq & Hos' & Hu' & Hw' & Hlen).
  rewrite Heq.
  destruct (archiveRequest_legacy start end_ s' Hos' (Hu' _)) as [req Hreq].
  assert (Hreq' : fst (archiveRequest start end_ s') = Ok req) by (rewrite Hreq; reflexivity).
  rewrite (fetch_ok start end_ s' req _ _ Ex.meta_body Hreq' Hw' eq_refl eq_refl).
  assert (Hp : parseSpeedtest Ex.meta_body = inr (mkSpeedtestResult 80 0 0 200))
    by (vm_compute; reflexivity).
  rewrite Hp. simpl. split; [reflexivity|]. rewrite length_app. simpl. lia.
Qed.

(** C1. The code does not stop at the second 401.  The gateway answers 401
    to the archive request twice, accepting the login each time, and then
    answers 200: one call makes three archive requests and two logins, and
    returns the sample instead of an authorization error. *)
Theorem C1_second_401_is_retried :
  let s := mkState Ex.legacy (Ex.world (Ex.rounds 2 [Ex.archive_ok])) in
  let archive := "https://gw/api/s/default/stat/report/archive.speedtest" in
  let login := "https://gw/api/login" in
  fst (GetSpeedtestResultsInRange 0 1 s) = Ok (mkSpeedtestResult 80 0 0 200)
  /\ List.map URL (sent (world (snd (GetSpeedtestResultsInRange 0 1 s))))
     = [archive; login; archive; login; archive].
Proof. intros s archive login. split; vm_compute; reflexivity. Qed.

(** With a single 401 there is one login and one more request. *)
Lemma single_401_is_retried_once :
  let s := mkState Ex.legacy (Ex.world (Ex.rounds 1 [Ex.archive_ok])) in
  fst (GetSpeedtestResultsInRange 0 1 s) = Ok (mkSpeedtestResult 80 0 0 200)
  /\ List.map URL (sent (world (snd (GetSpeedtestResultsInRange 0 1 s))))
     = ["https://gw/api/s/default/stat/report/archive.speedtest";
        "https://gw/api/login";
        "https://gw/api/s/default/stat/report/archive.speedtest"].
Proof. intros s. split; vm_compute; reflexivity. Qed.

(** ** One step of a sequence *)

Lemma bind_at {A B : Type} (m : M A) (k : A -> M B) (s : State) :
  bind m k s
  = match m s with
    | (Ok a, s') => k a s'
    | (Err e, s') => (Err e, s')
    | (Panic p, s') => (Panic p, s')
    | (OutOfFuel, s') => (OutOfFuel, s')
    end.
Proof. reflexivity. Qed.

(** ** The construction of a client *)

Lemma TrimRight_replicate (s : string) (cut : ascii) :
  exists n, s = strings.TrimRight s cut ++ replicate n cut.
Proof.
  induction s as [|c r [n IH]]; [exists O; reflexivity|].
  simpl. destruct (strings.TrimRight r cut) as [|c' r'] eqn:Hr.
  - destruct (Ascii.eqb_spec c cut) as [->|_].
    + exists (S n). simpl. simpl in IH. rewrite <- IH. reflexivity.
    + exists n. simpl. simpl in IH. rewrite <- IH. reflexivity.
  - exists n. simpl. rewrite IH at 1. reflexivity.
Qed.

Lemma TrimRight_last (s : string) (cut : ascii) :
  last_byte (strings.TrimRight s cut) <> Some cut.
Proof.
  induction s as [|c r IH]; [discriminate|].
  simpl. destruct (strings.TrimRight r cut) as [|c' r'] eqn:Hr.
  - destruct (Ascii.eqb_spec c cut) as [->|Hne]; [discriminate|].
    simpl. congruence.
  - exact IH.
Qed.

Lemma NewUDMProClient_run (baseURL username password site version : string) (w : World) :
  let base := strings.TrimRight baseURL "/" in
  let c0 := mkClient base username password site version false "" ""
                     (mkSpeedtestCache None time.zero (24 * time.Hour))
                     (mkSessionCache "" "" (reading w)) in
  let w1 := after_reading w in
  let logged r := mkWorld (now w1) (ticks w1) r (sent w ++ [probeRequest base])%list
                          (url_error w) in
  NewUDMProClient baseURL username password site version w
  = match url_error w (base ++ "/") with
    | Some cause =>
        (Err (ErrDetectFailed (detect_error "parse" (base ++ "/") base cause)), w1)
    | None =>
        match wire w with
        | [] => (Err (ErrDetectFailed (detect_error "Get" (base ++ "/") base unreachable)),
                 logged [])
        | Failed cause :: r =>
            (Err (ErrDetectFailed (detect_error "Get" (base ++ "/") base cause)), logged r)
        | Answered resp :: r => (Ok (set_IsUniFiOS (StatusCode resp =? 200) c0), logged r)
        end
    end.
Proof.
  cbv zeta. unfold NewUDMProClient. unfold bind at 1. rewrite Now_reading.
  unfold bind at 1, update at 1. simpl.
  unfold wrap, detectControllerType. unfold bind at 1, get_client. simpl.
  unfold bind at 1, NewRequest. simpl.
  destruct (url_error w (strings.TrimRight baseURL "/" ++ "/")); [reflexivity|].
  unfold bind, Do, update. simpl.
  destruct (wire w) as [|[cause|resp] r]; reflexivity.
Qed.

Lemma NewUDMProClient_made (baseURL username password site version : string)
        (w : World) (c : UDMProClient) :
  fst (NewUDMProClient baseURL username password site version w) = Ok c ->
  let w' := snd (NewUDMProClient baseURL username password site version w) in
  (exists n, baseURL = BaseURL c ++ replicate n "/")
  /\ last_byte (BaseURL c) <> Some "/"%char
  /\ Username c = username /\ Password c = password /\ Site c = site /\ Version c = version
  /\ AuthToken c = "" /\ CSRFToken c = ""
  /\ cache c = mkSpeedtestCache None time.zero (24 * time.Hour)
  /\ session c = mkSessionCache "" "" (reading w)
  /\ (exists resp rest,
        wire w = Answered resp :: rest
        /\ IsUniFiOS c = (StatusCode resp =? 200)
        /\ wire w' = rest)
  /\ sent w' = (sent w ++ [probeRequest (BaseURL c)])%list
  /\ (forall s, client s = c -> fst (isSessionValid s) = Ok false).
Proof.
  cbv zeta. rewrite NewUDMProClient_run. cbv zeta.
  destruct (url_error w (strings.TrimRight baseURL "/" ++ "/")); [discriminate|].
  destruct (wire w) as [|[cause|resp] rest]; try discriminate.
  simpl. intros [= <-]. simpl.
  split; [apply TrimRight_replicate|]. split; [apply TrimRight_last|].
  repeat split.
  - exists resp, rest. repeat split.
  - intros s Hs. rewrite isSessionValid_run, Hs. reflexivity.
Qed.

(** X1.  When the probe [GET base/] of [NewUDMProClient] is answered,
    whatever the status of the answer, a client is returned.  Its base URL
    is the given one without its trailing slashes, it has the given
    credentials, site and version, it holds no token and no result, its
    cache lives 24 hours, its session is not valid whatever the clock
    reads, and its family is UniFi OS exactly when the status of the
    answer is 200.  The probe is the one request that has been sent, and
    its answer the one that has been consumed. *)
Theorem NewUDMProClient_ok (baseURL username password site version : string)
        (w : World) (resp : Response) (rest : list round_trip) :
  let base := strings.TrimRight baseURL "/" in
  let made := NewUDMProClient baseURL username password site version w in
  url_error w (base ++ "/") = None ->
  wire w = Answered resp :: rest ->
  exists c,
    fst made = Ok c
    /\ BaseURL c = base
    /\ (exists n, baseURL = BaseURL c ++ replicate n "/")
    /\ last_byte (BaseURL c) <> Some "/"%char
    /\ Username c = username /\ Password c = password /\ Site c = site /\ Version c = version
    /\ AuthToken c = "" /\ CSRFToken c = ""
    /\ cache c = mkSpeedtestCache None time.zero (24 * time.Hour)
    /\ session c = mkSessionCache "" "" (reading w)
    /\ IsUniFiOS c = (StatusCode resp =? 200)
    /\ wire (snd made) = rest
    /\ sent (snd made) = (sent w ++ [probeRequest (BaseURL c)])%list
    /\ (forall s, client s = c -> fst (isSessionValid s) = Ok false).
Proof.
  cbv zeta. intros Hu Hw. rewrite NewUDMProClient_run. cbv zeta. rewrite Hu, Hw.
  eexists. split; [reflexivity|]. simpl.
  split; [reflexivity|].
  split; [apply TrimRight_replicate|]. split; [apply TrimRight_last|].
  repeat split.
  intros s Hs. rewrite isSessionValid_run, Hs. reflexivity.
Qed.

Lemma NewUDMProClient_ok_witness :
  let made status :=
    NewUDMProClient "https://gw//" "admin" "secret" "default" "8.0.28"
                    (Ex.world [Ex.answer status [] "<html>"]) in
  (fst (made 200) = Ok Ex.unifi'
   /\ wire (snd (made 200)) = []
   /\ sent (snd (made 200)) = [probeRequest (BaseURL Ex.unifi')])
  /\ (exists c, fst (made 404) = Ok c /\ BaseURL c = "https://gw" /\ IsUniFiOS c = false
                /\ wire (snd (made 404)) = []
                /\ sent (snd (made 404)) = [probeRequest (BaseURL c)]).
Proof.
  cbv zeta. split.
  - destruct (NewUDMProClient_ok "https://gw//" "admin" "secret" "default" "8.0.28"
                (Ex.world [Ex.answer 200 [] "<html>"])
                (mkResponse 200 [] (Readable "<html>")) [] eq_refl eq_refl)
      as (c & Hc & _ & _ & _ & _ & _ & _ & _ & _ & _ & _ & _ & _ & Hw & Hs & _).
    assert (Hu : Ex.unifi' = c).
    { apply (f_equal (fun r => match r with Ok x => x | _ => c end)) in Hc. exact Hc. }
    subst c. split; [exact Hc|]. split; [exact Hw | exact Hs].
  - destruct (NewUDMProClient_ok "https://gw//" "admin" "secret" "default" "8.0.28"
                (Ex.world [Ex.answer 404 [] "<html>"])
                (mkResponse 404 [] (Readable "<html>")) [] eq_refl eq_refl)
      as (c & Hc & Hb & _ & _ & _ & _ & _ & _ & _ & _ & _ & _ & Hos & Hw & Hs & _).
    exists c. split; [exact Hc|]. split; [exact Hb|]. split; [exact Hos|].
    split; [exact Hw | exact Hs].
Defined.

Lemma Contains_app_r (p s sub : string) :
  strings.Contains s sub = true -> strings.Contains (p ++ s) sub = true.
Proof.
  intros H. induction p as [|c p IH]; [exact H|].
  simpl. rewrite IH. apply orb_true_r.
Qed.

(** X2.  When the probe of [NewUDMProClient] fails in the transport, no
    client is returned and the error is one of the detection; the probe
    has been sent once.  A failure whose text mentions a timeout or an
    exceeded deadline is reported as the timeout error, which names the
    base URL without its trailing slashes. *)
Theorem NewUDMProClient_unreachable (baseURL username password site version : string)
        (w : World) (cause : string) (rest : list round_trip) :
  let base := strings.TrimRight baseURL "/" in
  let made := NewUDMProClient baseURL username password site version w in
  url_error w (base ++ "/") = None ->
  wire w = Failed cause :: rest ->
  (exists e, fst made = Err (ErrDetectFailed e))
  /\ sent (snd made) = (sent w ++ [probeRequest base])%list
  /\ wire (snd made) = rest
  /\ (strings.Contains cause "timeout" = true
      \/ strings.Contains cause "deadline exceeded" = true ->
      fst made = Err (ErrDetectFailed (ErrTimeout base))).
Proof.
  cbv zeta. intros Hu Hw. rewrite NewUDMProClient_run. cbv zeta. rewrite Hu, Hw.
  cbv beta iota. unfold fst, snd, wire, sent.
  repeat split.
  - eexists. reflexivity.
  - intros H. unfold detect_error. cbv zeta.
    match goal with
    | |- context [strings.Contains ?m "timeout" || strings.Contains ?m "deadline exceeded"] =>
        assert (Hm : strings.Contains m "timeout" || strings.Contains m "deadline exceeded"
                     = true)
    end.
    { apply orb_true_iff.
      destruct H as [H|H]; [left|right]; repeat apply Contains_app_r; exact H. }
    rewrite Hm. reflexivity.
Qed.

Lemma NewUDMProClient_unreachable_witness :
  let w := Ex.world [Failed "context deadline exceeded (Client.Timeout exceeded)"] in
  let made := NewUDMProClient "https://gw/" "admin" "secret" "default" "8.0.28" w in
  fst made = Err (ErrDetectFailed (ErrTimeout "https://gw"))
  /\ sent (snd made) = [probeRequest "https://gw"].
Proof.
  cbv zeta.
  pose proof (NewUDMProClient_unreachable "https://gw/" "admin" "secret" "default" "8.0.28"
                (Ex.world [Failed "context deadline exceeded (Client.Timeout exceeded)"])
                "context deadline exceeded (Client.Timeout exceeded)" []
                eq_refl eq_refl) as (_ & Hs & _ & Ht).
  split; [apply Ht; right; reflexivity | exact Hs].
Defined.

(** ** The session after a login *)

Lemma cacheSession_run (s : State) :
  cacheSession s
  = (Ok tt,
     mkState (set_session
                (mkSessionCache (AuthToken (client s)) (CSRFToken (client s))
                                (time.Add (reading (world s)) (8 * time.Hour)))
                (client s))
             (after_reading (world s))).
Proof. unfold cacheSession, bind, update. rewrite Now_reading. reflexivity. Qed.

(** A fresh login that succeeds ends with [cacheSession], on a client
    that holds a token. *)
Lemma freshLogin_ok (s s' : State) :
  freshLogin s = (Ok tt, s') ->
  exists s5, AuthToken (client s5) <> "" /\ s' = snd (cacheSession s5).
Proof.
  unfold freshLogin. unfold bind at 1, get_client at 1.
  unfold bind at 1.
  destruct (NewRequest "POST" (loginURL (client s))
              (Some (marshal_LoginRequest (Username (client s)) (Password (client s))))
              ErrCreateLoginRequest s) as [[req|e|p|] s1]; try discriminate.
  cbv zeta. unfold bind at 1.
  match goal with
  | |- context [Do ?r ?w s1] => destruct (Do r w s1) as [[resp|e|p|] s2]; try discriminate
  end.
  unfold bind at 1.
  destruct (ReadAll resp s2) as [[b|e|p|] s3]; try discriminate.
  destruct (StatusCode resp =? StatusTooManyRequests); [discriminate|].
  destruct (negb (StatusCode resp =? StatusOK)); [discriminate|].
  unfold bind at 1.
  destruct (loginCookies (Cookies resp) s3) as [[u|e|p|] s4]; try discriminate.
  unfold bind at 1, get_client at 1.
  destruct (String.eqb_spec (AuthToken (client s4)) ""); [discriminate|].
  intros H. exists s4. split; [assumption|]. rewrite H. reflexivity.
Qed.

Lemma Login_ok_inv (s : State) :
  fst (Login s) = Ok tt ->
  let s' := snd (Login s) in
  AuthToken (client s') <> ""
  /\ SessionAuthToken (session (client s')) = AuthToken (client s')
  /\ SessionCSRFToken (session (client s')) = CSRFToken (client s')
  /\ now (world s') < Expires (session (client s'))
  /\ (fst (isSessionValid s) = Ok false ->
      Expires (session (client s')) = now (world s') + 8 * time.Hour).
Proof.
  unfold Login, bind. rewrite isSessionValid_run.
  destruct (String.eqb_spec (SessionAuthToken (session (client s))) "") as [He|Hne].
  - destruct (freshLogin s) as [r s'] eqn:Hf. simpl. intros ->.
    destruct (freshLogin_ok s s' Hf) as (s5 & Htok & ->).
    rewrite cacheSession_run. simpl. unfold time.Add, time.Hour, time.Second, time.Millisecond.
    repeat split; try assumption; try reflexivity; lia.
  - destruct (reading (world s) <? Expires (session (client s))) eqn:Hv.
    + unfold useCachedSession, update. simpl. intros _.
      apply Z.ltb_lt in Hv. repeat split; try assumption; try reflexivity.
      discriminate.
    + destruct (freshLogin (mkState (client s) (after_reading (world s)))) as [r s'] eqn:Hf.
      simpl. intros ->.
      destruct (freshLogin_ok _ s' Hf) as (s5 & Htok & ->).
      rewrite cacheSession_run. simpl.
      unfold time.Add, time.Hour, time.Second, time.Millisecond.
      repeat split; try assumption; try reflexivity; lia.
Qed.

(** X3.  When [Login] returns [nil] the client holds a token that is not
    empty, the cached session holds the same two tokens as the client, and
    the session runs out after the time the clock shows; when the login
    was a fresh one, exactly eight hours after it. *)
Theorem Login_ok_session (s : State) :
  fst (Login s) = Ok tt ->
  let s' := snd (Login s) in
  AuthToken (client s') <> ""
  /\ SessionAuthToken (session (client s')) = AuthToken (client s')
  /\ SessionCSRFToken (session (client s')) = CSRFToken (client s')
  /\ now (world s') < Expires (session (client s'))
  /\ (fst (isSessionValid s) = Ok false ->
      Expires (session (client s')) = now (world s') + 8 * time.Hour).
Proof. exact (Login_ok_inv s). Qed.

Lemma Login_ok_session_witness :
  let s := mkState Ex.unifi (Ex.world [Ex.login_abc]) in
  let s' := snd (Login s) in
  AuthToken (client s') <> ""
  /\ SessionAuthToken (session (client s')) = AuthToken (client s')
  /\ SessionCSRFToken (session (client s')) = CSRFToken (client s')
  /\ now (world s') < Expires (session (client s'))
  /\ (fst (isSessionValid s) = Ok false ->
      Expires (session (client s')) = now (world s') + 8 * time.Hour).
Proof.
  apply (Login_ok_session (mkState Ex.unifi (Ex.world [Ex.login_abc]))).
  vm_compute. reflexivity.
Defined.

Lemma useCachedSession_same (c : UDMProClient) :
  SessionAuthToken (session c) = AuthToken c ->
  SessionCSRFToken (session c) = CSRFToken c ->
  set_CSRFToken (SessionCSRFToken (session c)) (set_AuthToken (SessionAuthToken (session c)) c)
  = c.
Proof. destruct c. simpl. intros -> ->. reflexivity. Qed.

(** X4.  Once [Login] has returned [nil], a further [Login] on the same
    client, made while the clock reads less than the expiry of the session,
    returns [nil] at once: nothing is sent and the client is left as it
    is. *)
Theorem Login_again_is_free (s s2 : State) :
  fst (Login s) = Ok tt ->
  client s2 = client (snd (Login s)) ->
  reading (world s2) < Expires (session (client s2)) ->
  Login s2 = (Ok tt, mkState (client s2) (after_reading (world s2))).
Proof.
  intros Hok Hc Hlt. destruct (Login_ok_inv s Hok) as (Htok & Ha & Hx & _).
  rewrite <- Hc in Htok, Ha, Hx.
  unfold Login, bind. rewrite isSessionValid_run.
  destruct (String.eqb_spec (SessionAuthToken (session (client s2))) "") as [He|_];
    [congruence|].
  apply Z.ltb_lt in Hlt. rewrite Hlt.
  unfold useCachedSession, update. simpl.
  rewrite (useCachedSession_same (client s2) Ha Hx). reflexivity.
Qed.

Lemma Login_again_is_free_witness :
  let s := mkState Ex.unifi (Ex.world [Ex.login_abc]) in
  let s2 := mkState (client (snd (Login s)))
                    (mkWorld (Ex.t0 + 7 * time.Hour) [] [Ex.archive_ok] [] (fun _ => None)) in
  Login s2 = (Ok tt, mkState (client s2) (after_reading (world s2))).
Proof.
  apply (Login_again_is_free (mkState Ex.unifi (Ex.world [Ex.login_abc]))).
  - vm_compute. reflexivity.
  - reflexivity.
  - vm_compute. reflexivity.
Defined.

(** ** What a fresh login makes of the answer *)

(** A fresh login whose request is answered goes on with the response,
    the request having been recorded. *)
Lemma Login_answered (s : State) (resp : Response) (rest : list round_trip) :
  fst (isSessionValid s) = Ok false ->
  url_error (world s) (loginURL (client s)) = None ->
  wire (world s) = Answered resp :: rest ->
  exists s2,
    Login s = afterLogin resp s2
    /\ client s2 = client s
    /\ wire (world s2) = rest
    /\ sent (world s2) = (sent (world s) ++ [loginRequest (client s)])%list
    /\ reading (world s2) = reading (world (snd (isSessionValid s))).
Proof.
  intros Hv Hu Hw. destruct (Login_fresh s Hv) as (HL & Hc & Hw1 & Hu1).
  pose proof (isSessionValid_traffic s) as [_ Hs1].
  set (s1 := snd (isSessionValid s)) in *.
  exists (after_round_trip s1 (loginRequest (client s)) rest).
  rewrite HL, freshLogin_run by (rewrite Hu1, Hc; exact Hu).
  unfold bind at 1. rewrite Hc.
  rewrite (Do_answered _ _ s1 resp rest) by (rewrite Hw1; exact Hw).
  simpl. rewrite Hs1. repeat split. exact Hc.
Qed.

(** X5.  A fresh login answered with a status other than 200 fails with
    that status in the error, 429 having an error of its own.  The cookies
    of the answer are not looked at: the client is left as it was, and one
    request has been sent. *)
Theorem Login_rejected (s : State) (resp : Response) (rest : list round_trip) (b : string) :
  fst (isSessionValid s) = Ok false ->
  url_error (world s) (loginURL (client s)) = None ->
  wire (world s) = Answered resp :: rest ->
  Body resp = Readable b ->
  StatusCode resp <> StatusOK ->
  let s' := snd (Login s) in
  fst (Login s) = Err (if StatusCode resp =? 429 then ErrRateLimited (StatusCode resp)
                       else ErrLoginStatus (StatusCode resp))
  /\ client s' = client s
  /\ wire (world s') = rest
  /\ sent (world s') = (sent (world s) ++ [loginRequest (client s)])%list.
Proof.
  intros Hv Hu Hw Hb Hst.
  destruct (Login_answered s resp rest Hv Hu Hw) as (s2 & HL & Hc & Hw2 & Hs2 & _).
  cbv zeta. rewrite HL. unfold afterLogin, ReadAll, bind. rewrite Hb. simpl.
  unfold StatusTooManyRequests.
  destruct (StatusCode resp =? 429); [simpl; repeat split; assumption|].
  destruct (Z.eqb_spec (StatusCode resp) StatusOK); [contradiction|].
  simpl. repeat split; assumption.
Qed.

Lemma Login_rejected_witness :
  let s := mkState Ex.unifi
             (Ex.world [Ex.answer 429 [mkCookie "TOKEN" Ex.token_csrfToken] "slow down"]) in
  fst (Login s) = Err (ErrRateLimited 429)
  /\ client (snd (Login s)) = Ex.unifi
  /\ wire (world (snd (Login s))) = []
  /\ sent (world (snd (Login s))) = [loginRequest Ex.unifi].
Proof.
  apply (Login_rejected
           (mkState Ex.unifi
              (Ex.world [Ex.answer 429 [mkCookie "TOKEN" Ex.token_csrfToken] "slow down"]))
           (mkResponse 429 [mkCookie "TOKEN" Ex.token_csrfToken] (Readable "slow down"))
           [] "slow down").
  - reflexivity.
  - reflexivity.
  - reflexivity.
  - reflexivity.
  - discriminate.
Defined.

(** The name of the cookie that carries the token, by family. *)
Lemma loginCookies_no_match (cookies : list Cookie) (s : State) :
  (forall k, In k cookies ->
             Name k <> (if IsUniFiOS (client s) then "TOKEN" else "unifises")) ->
  loginCookies cookies s = (Ok tt, s).
Proof.
  induction cookies as [|k r IH]; intros Hno; [reflexivity|].
  simpl. unfold bind at 1, get_client.
  assert (Hk := Hno k (or_introl eq_refl)).
  destruct (IsUniFiOS (client s)); simpl.
  - destruct (String.eqb_spec (Name k) "TOKEN"); [contradiction|].
    unfold bind, ret. apply IH. intros k' Hin. apply Hno. right. exact Hin.
  - destruct (String.eqb_spec (Name k) "unifises"); [contradiction|].
    unfold bind, ret. apply IH. intros k' Hin. apply Hno. right. exact Hin.
Qed.

(** X6.  A fresh login answered 200 without the cookie of the family of
    the controller ([TOKEN] for UniFi OS, [unifises] for a legacy one):
    a client that holds no token fails with the error of the missing
    token and is left as it was; a client that still holds a token from
    before succeeds, and that old token is cached for eight more hours. *)
Theorem Login_without_cookie (s : State) (resp : Response) (rest : list round_trip)
        (b : string) :
  fst (isSessionValid s) = Ok false ->
  url_error (world s) (loginURL (client s)) = None ->
  wire (world s) = Answered resp :: rest ->
  Body resp = Readable b ->
  StatusCode resp = StatusOK ->
  (forall k, In k (Cookies resp) ->
             Name k <> (if IsUniFiOS (client s) then "TOKEN" else "unifises")) ->
  let s' := snd (Login s) in
  (AuthToken (client s) = "" ->
   fst (Login s) = Err ErrNoAuthToken /\ client s' = client s)
  /\ (AuthToken (client s) <> "" ->
      fst (Login s) = Ok tt
      /\ AuthToken (client s') = AuthToken (client s)
      /\ session (client s')
         = mkSessionCache (AuthToken (client s)) (CSRFToken (client s))
                          (now (world s') + 8 * time.Hour)).
Proof.
  intros Hv Hu Hw Hb Hst Hno.
  destruct (Login_answered s resp rest Hv Hu Hw) as (s2 & HL & Hc & Hw2 & Hs2 & _).
  assert (Hrun : Login s = if String.eqb (AuthToken (client s)) ""
                           then (Err ErrNoAuthToken, s2) else cacheSession s2).
  { rewrite HL, (afterLogin_ok resp b s2 Hst Hb).
    unfold bind at 1. rewrite loginCookies_no_match by (rewrite Hc; exact Hno).
    unfold bind, get_client. rewrite Hc.
    destruct (String.eqb (AuthToken (client s)) ""); reflexivity. }
  cbv zeta. rewrite Hrun. split.
  - intros He. rewrite He. simpl. split; [reflexivity | exact Hc].
  - intros Hne. destruct (String.eqb_spec (AuthToken (client s)) ""); [contradiction|].
    rewrite cacheSession_run. simpl. rewrite Hc. repeat split.
Qed.

Lemma Login_without_cookie_witness :
  let s := mkState Ex.legacy (Ex.world [Ex.answer 200 [mkCookie "TOKEN" "t"] "{}"]) in
  let old := mkState Ex.expired (Ex.world [Ex.answer 200 [] "{}"]) in
  (fst (Login s) = Err ErrNoAuthToken /\ client (snd (Login s)) = Ex.legacy)
  /\ (fst (Login old) = Ok tt
      /\ AuthToken (client (snd (Login old))) = "s3ss10n"
      /\ session (client (snd (Login old)))
         = mkSessionCache "s3ss10n" "" (Ex.t0 + 8 * time.Hour)).
Proof.
  cbv zeta. split.
  - apply (Login_without_cookie
             (mkState Ex.legacy (Ex.world [Ex.answer 200 [mkCookie "TOKEN" "t"] "{}"]))
             (mkResponse 200 [mkCookie "TOKEN" "t"] (Readable "{}")) [] "{}");
      try reflexivity.
    intros k [<- | []]. discriminate.
  - apply (Login_without_cookie
             (mkState Ex.expired (Ex.world [Ex.answer 200 [] "{}"]))
             (mkResponse 200 [] (Readable "{}")) [] "{}");
      try reflexivity.
    + intros k [].
    + discriminate.
Defined.

(** ** The candidate fields of the CSRF token *)

Lemma findCSRF_pick (pre post : list string) (f tok : string) (jwtData : json.Map) :
  json.lookup jwtData f = Some (json.JString tok) ->
  tok <> "" ->
  (forall g, In g pre -> forall v, json.lookup jwtData g = Some (json.JString v) -> v = "") ->
  findCSRF (pre ++ f :: post) jwtData = Some tok.
Proof.
  intros Hf Hne. induction pre as [|g pre IH]; intros Hpre; simpl.
  - rewrite Hf. destruct (String.eqb_spec tok ""); [contradiction | reflexivity].
  - assert (IH' := IH (fun g' Hin => Hpre g' (or_intror Hin))).
    destruct (json.lookup jwtData g) as [[| | |v| |]|] eqn:Hg; try exact IH'.
    rewrite (Hpre g (or_introl eq_refl) v Hg). exact IH'.
Qed.

(** X7.  The CSRF token is taken from the first of the fields
    [csrfToken], [csrf_token], [xsrfToken], [token] that holds a string
    that is not empty; a candidate that is missing, holds something else
    than a string or holds the empty string is passed over, wherever the
    fields stand in the payload. *)
Theorem csrf_first_candidate_wins
        (s : State) (h p sg d : string) (jwtData : json.Map)
        (pre post : list string) (f tok : string) :
  IsUniFiOS (client s) = true ->
  strings.Split (AuthToken (client s)) "." = [h; p; sg] ->
  base64.DecodeString (fixPayload p) = Some d ->
  json.Unmarshal (fun v => json.into_map v []) d = Some jwtData ->
  possibleFields = (pre ++ f :: post)%list ->
  json.lookup jwtData f = Some (json.JString tok) ->
  tok <> "" ->
  (forall g, In g pre -> forall v, json.lookup jwtData g = Some (json.JString v) -> v = "") ->
  extractCSRFToken s = (Ok tt, mkState (set_CSRFToken tok (client s)) (world s)).
Proof.
  intros HU Hsp Hd Hj Hfields Hf Hne Hpre.
  assert (Htok : AuthToken (client s) <> "").
  { intros He. rewrite He in Hsp. discriminate. }
  rewrite (extractCSRFToken_run s HU Htok), Hsp, Hd, Hj, Hfields.
  rewrite (findCSRF_pick pre post f tok jwtData Hf Hne Hpre). reflexivity.
Qed.

Lemma csrf_first_candidate_wins_witness :
  let s := mkState (set_AuthToken Ex.token_fallback Ex.unifi) (Ex.world []) in
  extractCSRFToken s = (Ok tt, mkState (set_CSRFToken "fallback-token" (client s)) (world s)).
Proof.
  cbv zeta.
  eapply (csrf_first_candidate_wins
            (mkState (set_AuthToken Ex.token_fallback Ex.unifi) (Ex.world []))
            _ _ _ _ _ ["csrfToken"; "csrf_token"; "xsrfToken"] [] "token" "fallback-token").
  - reflexivity.
  - vm_compute. reflexivity.
  - vm_compute. reflexivity.
  - vm_compute. reflexivity.
  - reflexivity.
  - vm_compute. reflexivity.
  - discriminate.
  - intros g [<- | [<- | [<- | []]]] v; vm_compute; intros H; try discriminate.
    injection H as <-. reflexivity.
Defined.

(** ** The payload of the token: base64url without padding *)

Lemma string_ind3 (P : string -> Prop) :
  P EmptyString ->
  (forall a, P (String a EmptyString)) ->
  (forall a b, P (String a (String b EmptyString))) ->
  (forall a b c r, P r -> P (String a (String b (String c r)))) ->
  forall s, P s.
Proof.
  intros H0 H1 H2 H3 s.
  assert (H : P s /\ (forall a, P (String a s)) /\ (forall a b, P (String a (String b s)))).
  { induction s as [|c r (Hr & Hr1 & Hr2)].
    - repeat split; auto.
    - repeat split; auto. }
  exact (proj1 H).
Qed.

Lemma byte_val_range (c : ascii) : 0 <= byte_val c < 256.
Proof.
  unfold byte_val. pose proof (N_ascii_bounded c) as H. lia.
Qed.

Lemma byte_of_val (c : ascii) : byte_of (byte_val c) = c.
Proof.
  unfold byte_of, byte_val. pose proof (N_ascii_bounded c) as H.
  rewrite Z.mod_small by lia. rewrite N2Z.id. apply ascii_N_embedding.
Qed.

Lemma sextets_all (P : Z -> bool) :
  forallb P sextets = true -> forall i, 0 <= i < 64 -> P i = true.
Proof.
  intros H i Hi. rewrite forallb_forall in H. apply H.
  unfold sextets. apply in_map_iff. exists (Z.to_nat i). split; [lia|].
  apply in_seq. lia.
Qed.

Lemma std_urlChar (i : Z) :
  0 <= i < 64 ->
  base64.decodeMap (std (urlChar i)) = Some i
  /\ base64.pad (std (urlChar i)) = false
  /\ negb (is_byte 10 (std (urlChar i)) || is_byte 13 (std (urlChar i))) = true.
Proof.
  intros Hi.
  pose proof (sextets_all
                (fun i => match base64.decodeMap (std (urlChar i)) with
                          | Some j => j =? i
                          | None => false
                          end
                          && negb (base64.pad (std (urlChar i)))
                          && negb (is_byte 10 (std (urlChar i))
                                   || is_byte 13 (std (urlChar i))))
                ltac:(vm_compute; reflexivity) i Hi) as H.
  cbv beta in H. apply andb_true_iff in H. destruct H as [H H3].
  apply andb_true_iff in H. destruct H as [H1 H2].
  destruct (base64.decodeMap (std (urlChar i))) as [j|]; [|discriminate].
  apply Z.eqb_eq in H1. subst j.
  apply negb_true_iff in H2. repeat split; assumption.
Qed.

Lemma sextets_all2 (P : Z -> Z -> bool) :
  forallb (fun x => forallb (P x) sextets) sextets = true ->
  forall x y, 0 <= x < 64 -> 0 <= y < 64 -> P x y = true.
Proof.
  intros H x y Hx Hy.
  pose proof (sextets_all (fun x => forallb (P x) sextets) H x Hx) as H1.
  exact (sextets_all (P x) H1 y Hy).
Qed.

Lemma lor_mod256 (a b : Z) : Z.lor a b mod 256 = Z.lor (a mod 256) (b mod 256).
Proof.
  change 256 with (2 ^ 8). rewrite <- !Z.land_ones by lia. apply Z.land_lor_distr_l.
Qed.

Lemma shiftl_mod256 (x n : Z) : 8 <= n -> Z.shiftl x n mod 256 = 0.
Proof.
  intros Hn. rewrite Z.shiftl_mul_pow2 by lia.
  replace n with ((n - 8) + 8) by lia. rewrite Z.pow_add_r by lia.
  change (2 ^ 8) with 256. rewrite Z.mul_assoc. apply Z_mod_mult.
Qed.

(** The three bytes [decodeQuanta] makes of four values of six bits. *)
Lemma decoded_b0 (x y : Z) :
  0 <= x < 64 -> 0 <= y < 64 ->
  Z.shiftr (Z.lor (Z.shiftl x 18) (Z.shiftl y 12)) 16 = 4 * x + y / 16.
Proof.
  intros Hx Hy. apply Z.eqb_eq.
  exact (sextets_all2
           (fun x y => Z.shiftr (Z.lor (Z.shiftl x 18) (Z.shiftl y 12)) 16 =? 4 * x + y / 16)
           ltac:(vm_compute; reflexivity) x y Hx Hy).
Qed.

Lemma decoded_b1 (x y z : Z) :
  0 <= x < 64 -> 0 <= y < 64 -> 0 <= z < 64 ->
  Z.shiftr (Z.lor (Z.lor (Z.shiftl x 18) (Z.shiftl y 12)) (Z.shiftl z 6)) 8 mod 256
  = y mod 16 * 16 + z / 4.
Proof.
  intros Hx Hy Hz. rewrite !Z.shiftr_lor, !lor_mod256.
  rewrite (Z.shiftr_shiftl_l x 18 8) by lia. rewrite shiftl_mod256 by lia.
  rewrite Z.lor_0_l. apply Z.eqb_eq.
  exact (sextets_all2
           (fun y z => Z.lor (Z.shiftr (Z.shiftl y 12) 8 mod 256)
                             (Z.shiftr (Z.shiftl z 6) 8 mod 256)
                       =? y mod 16 * 16 + z / 4)
           ltac:(vm_compute; reflexivity) y z Hy Hz).
Qed.

Lemma decoded_b2 (x y z w : Z) :
  0 <= x < 64 -> 0 <= y < 64 -> 0 <= z < 64 -> 0 <= w < 64 ->
  Z.lor (Z.lor (Z.lor (Z.shiftl x 18) (Z.shiftl y 12)) (Z.shiftl z 6)) w mod 256
  = z mod 4 * 64 + w.
Proof.
  intros Hx Hy Hz Hw. rewrite !lor_mod256.
  rewrite (shiftl_mod256 x 18), (shiftl_mod256 y 12) by lia.
  rewrite Z.lor_0_l. apply Z.eqb_eq.
  exact (sextets_all2
           (fun z w => Z.lor (Z.shiftl z 6 mod 256) (w mod 256) =? z mod 4 * 64 + w)
           ltac:(vm_compute; reflexivity) z w Hz Hw).
Qed.

Lemma byte_of_mod (n : Z) : byte_of n = byte_of (n mod 256).
Proof. unfold byte_of. rewrite Z.mod_mod by lia. reflexivity. Qed.

Lemma map_string_map_string (f g : ascii -> ascii) (s : string) :
  map_string g (map_string f s) = map_string (fun c => g (f c)) s.
Proof. induction s as [|c r IH]; simpl; [reflexivity | rewrite IH; reflexivity]. Qed.

Lemma map_string_ext (f g : ascii -> ascii) (s : string) :
  (forall c, f c = g c) -> map_string f s = map_string g s.
Proof. intros H. induction s as [|c r IH]; simpl; [reflexivity | rewrite H, IH; reflexivity]. Qed.

Lemma fixPayload_std (p : string) :
  fixPayload p
  = map_string std (match len p mod 4 with
                    | 2 => p ++ "=="
                    | 3 => p ++ "="
                    | _ => p
                    end).
Proof.
  unfold fixPayload, strings.ReplaceAll. rewrite map_string_map_string.
  apply map_string_ext. intros c. unfold std. reflexivity.
Qed.

Lemma fixPayload_cons4 (a b c d : ascii) (e : string) :
  fixPayload (String a (String b (String c (String d e))))
  = String (std a) (String (std b) (String (std c) (String (std d) (fixPayload e)))).
Proof.
  rewrite !fixPayload_std.
  assert (Hl : len (String a (String b (String c (String d e)))) mod 4 = len e mod 4).
  { unfold len. simpl String.length. rewrite !Nat2Z.inj_succ.
    replace (Z.succ (Z.succ (Z.succ (Z.succ (Z.of_nat (String.length e))))))
      with (Z.of_nat (String.length e) + 1 * 4) by lia.
    apply Z_mod_plus_full. }
  rewrite Hl. destruct (len e mod 4) as [|[[|[]|]|[|[]|]|]|]; reflexivity.
Qed.

Lemma decodeQuanta_4 (x y z w : Z) (rest : string) :
  0 <= x < 64 -> 0 <= y < 64 -> 0 <= z < 64 -> 0 <= w < 64 ->
  base64.decodeQuanta
    (String (std (urlChar x)) (String (std (urlChar y))
       (String (std (urlChar z)) (String (std (urlChar w)) rest))))
  = option_map (fun t => String (byte_of (4 * x + y / 16))
                           (String (byte_of (y mod 16 * 16 + z / 4))
                              (String (byte_of (z mod 4 * 64 + w)) t)))
               (base64.decodeQuanta rest).
Proof.
  intros Hx Hy Hz Hw.
  destruct (std_urlChar x Hx) as (Dx & Px & _), (std_urlChar y Hy) as (Dy & Py & _),
           (std_urlChar z Hz) as (Dz & Pz & _), (std_urlChar w Hw) as (Dw & Pw & _).
  cbn [base64.decodeQuanta]. rewrite Dx, Dy, Pz, Dz, Pw, Dw.
  rewrite (decoded_b0 x y Hx Hy).
  rewrite (byte_of_mod (Z.shiftr _ 8)), (decoded_b1 x y z Hx Hy Hz).
  rewrite (byte_of_mod (Z.lor _ w)), (decoded_b2 x y z w Hx Hy Hz Hw).
  reflexivity.
Qed.

Lemma decodeQuanta_3 (x y z : Z) :
  0 <= x < 64 -> 0 <= y < 64 -> 0 <= z < 64 ->
  base64.decodeQuanta
    (String (std (urlChar x)) (String (std (urlChar y))
       (String (std (urlChar z)) "=")))
  = Some (String (byte_of (4 * x + y / 16))
            (String (byte_of (y mod 16 * 16 + z / 4)) EmptyString)).
Proof.
  intros Hx Hy Hz.
  destruct (std_urlChar x Hx) as (Dx & Px & _), (std_urlChar y Hy) as (Dy & Py & _),
           (std_urlChar z Hz) as (Dz & Pz & _).
  cbn [base64.decodeQuanta]. rewrite Dx, Dy, Pz, Dz.
  change (base64.pad "=") with true. cbn [base64.is_empty].
  rewrite (decoded_b0 x y Hx Hy).
  rewrite (byte_of_mod (Z.shiftr _ 8)), (decoded_b1 x y z Hx Hy Hz).
  reflexivity.
Qed.

Lemma decodeQuanta_2 (x y : Z) :
  0 <= x < 64 -> 0 <= y < 64 ->
  base64.decodeQuanta (String (std (urlChar x)) (String (std (urlChar y)) "=="))
  = Some (String (byte_of (4 * x + y / 16)) EmptyString).
Proof.
  intros Hx Hy.
  destruct (std_urlChar x Hx) as (Dx & Px & _), (std_urlChar y Hy) as (Dy & Py & _).
  cbn [base64.decodeQuanta]. rewrite Dx, Dy.
  change (base64.pad "=") with true. cbn [base64.is_empty andb].
  rewrite (decoded_b0 x y Hx Hy). reflexivity.
Qed.

Lemma fixPayload_2 (a b : ascii) :
  fixPayload (String a (String b EmptyString)) = String (std a) (String (std b) "==").
Proof. reflexivity. Qed.

Lemma fixPayload_3 (a b c : ascii) :
  fixPayload (String a (String b (String c EmptyString)))
  = String (std a) (String (std b) (String (std c) "=")).
Proof. reflexivity. Qed.

Lemma sextet_ranges (a b c : ascii) :
  0 <= byte_val a / 4 < 64
  /\ 0 <= byte_val a mod 4 * 16 + byte_val b / 16 < 64
  /\ 0 <= byte_val b mod 16 * 4 + byte_val c / 64 < 64
  /\ 0 <= byte_val c mod 64 < 64
  /\ 0 <= byte_val a mod 4 * 16 < 64
  /\ 0 <= byte_val b mod 16 * 4 < 64.
Proof.
  pose proof (byte_val_range a). pose proof (byte_val_range b).
  pose proof (byte_val_range c).
  repeat split; Z.div_mod_to_equations; lia.
Qed.

(** X8.  The padding and the two replacements that [extractCSRFToken]
    applies before it calls the decoder of the standard alphabet undo
    base64url without padding: whatever the bytes of the payload of the
    token, the client gets them back. *)
Theorem payload_round_trip (payload : string) :
  base64.DecodeString (fixPayload (encodeURL payload)) = Some payload.
Proof.
  induction payload as [|a|a b|a b c r IH] using string_ind3.
  - reflexivity.
  - destruct (sextet_ranges a a a) as (Hx & _ & _ & _ & Hy & _).
    cbn [encodeURL]. rewrite fixPayload_2. unfold base64.DecodeString.
    cbn [filter_string].
    destruct (std_urlChar _ Hx) as (_ & _ & ->), (std_urlChar _ Hy) as (_ & _ & ->).
    change (negb (is_byte 10 "=" || is_byte 13 "=")) with true. cbv iota.
    rewrite (decodeQuanta_2 _ _ Hx Hy). f_equal. f_equal.
    transitivity (byte_of (byte_val a)); [|apply byte_of_val].
      f_equal. pose proof (byte_val_range a). Z.div_mod_to_equations. lia.
  - destruct (sextet_ranges a b b) as (Hx & Hy & _ & _ & _ & Hz).
    cbn [encodeURL]. rewrite fixPayload_3. unfold base64.DecodeString.
    cbn [filter_string].
    destruct (std_urlChar _ Hx) as (_ & _ & ->), (std_urlChar _ Hy) as (_ & _ & ->),
             (std_urlChar _ Hz) as (_ & _ & ->).
    change (negb (is_byte 10 "=" || is_byte 13 "=")) with true. cbv iota.
    rewrite (decodeQuanta_3 _ _ _ Hx Hy Hz).
    pose proof (byte_val_range a). pose proof (byte_val_range b).
    f_equal. f_equal; [|f_equal].
    + transitivity (byte_of (byte_val a)); [|apply byte_of_val].
      f_equal. Z.div_mod_to_equations. lia.
    + transitivity (byte_of (byte_val b)); [|apply byte_of_val].
      f_equal. Z.div_mod_to_equations. lia.
  - destruct (sextet_ranges a b c) as (Hx & Hy & Hz & Hw & _ & _).
    cbn [encodeURL]. rewrite fixPayload_cons4. unfold base64.DecodeString in *.
    cbn [filter_string].
    destruct (std_urlChar _ Hx) as (_ & _ & ->), (std_urlChar _ Hy) as (_ & _ & ->),
             (std_urlChar _ Hz) as (_ & _ & ->), (std_urlChar _ Hw) as (_ & _ & ->).
    rewrite (decodeQuanta_4 _ _ _ _ _ Hx Hy Hz Hw), IH. cbn [option_map].
    pose proof (byte_val_range a). pose proof (byte_val_range b).
    pose proof (byte_val_range c).
    f_equal. f_equal; [|f_equal; [|f_equal]].
    + transitivity (byte_of (byte_val a)); [|apply byte_of_val].
      f_equal. Z.div_mod_to_equations. lia.
    + transitivity (byte_of (byte_val b)); [|apply byte_of_val].
      f_equal. Z.div_mod_to_equations. lia.
    + transitivity (byte_of (byte_val c)); [|apply byte_of_val].
      f_equal. Z.div_mod_to_equations. lia.
Qed.

Example encodeURL_csrfToken :
  encodeURL (json.render (json.JObject [("csrfToken", json.JString "abc")]))
  = "eyJjc3JmVG9rZW4iOiJhYmMifQ".
Proof. vm_compute. reflexivity. Qed.

(** ** The slice of the CSRF token *)

Lemma archiveRequest_short_token (start end_ : Z) (s : State) :
  IsUniFiOS (client s) = true ->
  CSRFToken (client s) <> "" ->
  len (CSRFToken (client s)) < 10 ->
  url_error (world s) (archiveURL (client s)) = None ->
  archiveRequest start end_ s = (Panic "slice bounds out of range", s).
Proof.
  intros HU Hne Hlen Hurl.
  unfold archiveRequest, bind, get_client, NewRequest. rewrite Hurl. cbv zeta.
  rewrite HU. simpl.
  destruct (String.eqb_spec (CSRFToken (client s)) ""); [contradiction|]. simpl.
  apply Z.ltb_lt in Hlen. rewrite Hlen. reflexivity.
Qed.

(** X9.  On a UniFi OS client whose CSRF token is not empty and has fewer
    than ten bytes, [GetSpeedtestResultsInRange] panics on the slice
    [c.CSRFToken[:10]] of its message, before anything is sent. *)
Theorem short_csrf_token_panics (start end_ : Z) (s : State) :
  IsUniFiOS (client s) = true ->
  CSRFToken (client s) <> "" ->
  len (CSRFToken (client s)) < 10 ->
  url_error (world s) (archiveURL (client s)) = None ->
  exists msg, GetSpeedtestResultsInRange start end_ s = (Panic msg, s).
Proof.
  intros HU Hne Hlen Hurl. exists "slice bounds out of range".
  rewrite GetSpeedtestResultsInRange_unfold. unfold fetchBody, bind at 1.
  rewrite (archiveRequest_short_token start end_ s HU Hne Hlen Hurl). reflexivity.
Qed.

Lemma short_csrf_token_panics_witness :
  let s0 := mkState Ex.unifi (Ex.world [Ex.login_abc; Ex.archive_ok]) in
  let s := snd (Login s0) in
  fst (Login s0) = Ok tt
  /\ CSRFToken (client s) = "abc"
  /\ exists msg, GetSpeedtestResultsInRange 0 1 s = (Panic msg, s).
Proof.
  cbv zeta. split; [vm_compute; reflexivity|]. split; [vm_compute; reflexivity|].
  apply (short_csrf_token_panics 0 1
           (snd (Login (mkState Ex.unifi (Ex.world [Ex.login_abc; Ex.archive_ok]))))).
  - vm_compute. reflexivity.
  - vm_compute. discriminate.
  - vm_compute. reflexivity.
  - vm_compute. reflexivity.
Defined.

(** ** Calls that end without a panic *)

Lemma safe_Now : safe Now.
Proof. intros s. left. unfold Now. destruct (ticks (world s)); eexists; reflexivity. Qed.

Lemma safe_NewRequest (m u : string) (p : option json.value) (w : string -> error) :
  safe (NewRequest m u p w).
Proof.
  intros s. unfold NewRequest. destruct (url_error (world s) u).
  - right. eexists. reflexivity.
  - left. eexists. reflexivity.
Qed.

Lemma safe_Do (req : Request) (w : string -> error) : safe (Do req w).
Proof.
  intros s. unfold Do. destruct (wire (world s)) as [|[cause|resp] r].
  - right. eexists. reflexivity.
  - right. eexists. reflexivity.
  - left. eexists. reflexivity.
Qed.

Lemma safe_ReadAll (resp : Response) : safe (ReadAll resp).
Proof. unfold ReadAll. destruct (Body resp); [apply safe_ret | apply safe_fail]. Qed.

Lemma safe_lift {A : Type} (r : error + A) : safe (lift r).
Proof. destruct r; [apply safe_fail | apply safe_ret]. Qed.

#[local] Hint Resolve safe_Now safe_NewRequest safe_Do safe_ReadAll safe_lift : safe.

Lemma safe_loginCookies (cookies : list Cookie) : safe (loginCookies cookies).
Proof. induction cookies as [|k r IH]; simpl; repeat safe_step. Qed.

#[local] Hint Resolve safe_loginCookies : safe.

Lemma safe_Login : safe Login.
Proof.
  unfold Login, isSessionValid, useCachedSession, freshLogin, cacheSession.
  repeat safe_step.
Qed.

Lemma safe_clearSession : safe clearSession.
Proof. unfold clearSession. repeat safe_step. Qed.

Lemma safe_returned {A : Type} (m : M A) (s : State) :
  safe m -> returned (fst (m s)) = true.
Proof. intros H. destruct (H s) as [[a Ha] | [e Ha]]; rewrite Ha; reflexivity. Qed.

Lemma archiveRequest_legacy_returned (start end_ : Z) (s : State) :
  IsUniFiOS (client s) = false -> returned (fst (archiveRequest start end_ s)) = true.
Proof.
  intros HU. unfold archiveRequest, bind, get_client, NewRequest.
  destruct (url_error (world s) (archiveURL (client s))); [reflexivity|].
  cbv zeta. rewrite HU. reflexivity.
Qed.

Lemma legacy_fetch_returned (start end_ : Z) (s : State) :
  IsUniFiOS (client s) = false ->
  returned (fst (GetSpeedtestResultsInRange start end_ s)) = true.
Proof.
  remember (List.length (wire (world s))) as n eqn:Hn.
  revert start end_ s Hn. induction n as [n IH] using lt_wf_ind. intros start end_ s Hn HU.
  rewrite GetSpeedtestResultsInRange_unfold. unfold fetchBody.
  unfold bind at 1.
  pose proof (archiveRequest_same start end_ s) as Hsame.
  pose proof (archiveRequest_legacy_returned start end_ s HU) as Ha.
  destruct (archiveRequest start end_ s) as [[req|e|p|] s1]; simpl in Hsame; subst s1;
    try discriminate; [|reflexivity].
  unfold bind at 1.
  pose proof (same_static_Do req ErrSpeedtestRequest s) as S2.
  pose proof (safe_returned (Do req ErrSpeedtestRequest) s (safe_Do _ _)) as Hd.
  destruct (Do req ErrSpeedtestRequest s) as [[resp|e|p|] s2] eqn:H2;
    try discriminate; [|reflexivity].
  apply Do_ok_shorter in H2. simpl in S2.
  destruct (StatusCode resp =? StatusUnauthorized).
  - unfold bind at 1.
    pose proof (clearSession_wire s2) as L3.
    pose proof (clearSession_static s2) as S3.
    pose proof (safe_returned clearSession s2 safe_clearSession) as Hc.
    destruct (clearSession s2) as [[u|e|p|] s3]; try discriminate; [|reflexivity].
    unfold bind at 1.
    pose proof (keeps_wrap wire_le ErrReauth Login Login_wire s3) as L4.
    pose proof (keeps_wrap same_static ErrReauth Login Login_static s3) as S4.
    pose proof (safe_returned (wrap ErrReauth Login) s3
                  (safe_wrap ErrReauth Login safe_Login)) as Hl.
    destruct (wrap ErrReauth Login s3) as [[u'|e|p|] s4]; try discriminate; [|reflexivity].
    simpl in L3, S3, L4, S4.
    apply (IH (List.length (wire (world s4)))); [|reflexivity|].
    + unfold wire_le in L3, L4. simpl in L3, L4. lia.
    + destruct S2 as [E2 _], S3 as [E3 _], S4 as [E4 _]. congruence.
  - destruct (negb (StatusCode resp =? StatusOK)); [reflexivity|].
    apply safe_returned. apply safe_bind; [apply safe_ReadAll | intros b; apply safe_lift].
Qed.

(** X10.  For a legacy controller no call of [GetSpeedtestResultsInRange]
    panics or fails to end: it returns a result or an error. *)
Theorem legacy_client_never_panics (start end_ : Z) (s : State) :
  IsUniFiOS (client s) = false ->
  returned (fst (GetSpeedtestResultsInRange start end_ s)) = true.
Proof. exact (legacy_fetch_returned start end_ s). Qed.

Lemma legacy_client_never_panics_witness :
  returned (fst (GetSpeedtestResultsInRange 0 1
                   (mkState Ex.legacy (Ex.world [Ex.unauthorized; Ex.answer 200 [] "{}"]))))
  = true.
Proof.
  apply (legacy_client_never_panics 0 1
           (mkState Ex.legacy (Ex.world [Ex.unauthorized; Ex.answer 200 [] "{}"]))).
  reflexivity.
Defined.

(** ** Failures of the archive request that end the call *)

Lemma fetch_sent_to (start end_ : Z) (s : State) (req : Request) :
  fst (archiveRequest start end_ s) = Ok req ->
  GetSpeedtestResultsInRange start end_ s
  = (resp <- Do req ErrSpeedtestRequest ;;
     if StatusCode resp =? StatusUnauthorized then
       clearSession ;;; wrap ErrReauth Login ;;; GetSpeedtestResultsInRange start end_
     else if negb (StatusCode resp =? StatusOK) then
       fail (ErrSpeedtestStatus (StatusCode resp))
     else body <- ReadAll resp ;; lift (parseSpeedtest body)) s.
Proof.
  intros Ha. rewrite GetSpeedtestResultsInRange_unfold. unfold fetchBody, bind at 1.
  pose proof (archiveRequest_same start end_ s) as Hsame.
  destruct (archiveRequest start end_ s) as [r s1]. simpl in Ha, Hsame. subst. reflexivity.
Qed.

(** X11.  Only the status 401 makes [GetSpeedtestResultsInRange] log in
    and try again.  A transport error, a status other than 200 and 401, a
    body that cannot be read and a body the normalizer rejects each end the
    call with their error: the one request has been sent, the client is
    left as it was. *)
Theorem fetch_failure_is_terminal (start end_ : Z) (s : State) (req : Request) :
  fst (archiveRequest start end_ s) = Ok req ->
  (forall cause rest,
      wire (world s) = Failed cause :: rest ->
      GetSpeedtestResultsInRange start end_ s
      = (Err (ErrSpeedtestRequest cause), after_round_trip s req rest))
  /\ (forall resp rest,
         wire (world s) = Answered resp :: rest ->
         StatusCode resp <> StatusUnauthorized ->
         StatusCode resp <> StatusOK ->
         GetSpeedtestResultsInRange start end_ s
         = (Err (ErrSpeedtestStatus (StatusCode resp)), after_round_trip s req rest))
  /\ (forall resp rest cause,
         wire (world s) = Answered resp :: rest ->
         StatusCode resp = StatusOK ->
         Body resp = Unreadable cause ->
         GetSpeedtestResultsInRange start end_ s
         = (Err (ErrReadBody cause), after_round_trip s req rest))
  /\ (forall resp rest body e,
         wire (world s) = Answered resp :: rest ->
         StatusCode resp = StatusOK ->
         Body resp = Readable body ->
         parseSpeedtest body = inl e ->
         GetSpeedtestResultsInRange start end_ s
         = (Err e, after_round_trip s req rest)).
Proof.
  intros Ha. pose proof (fetch_sent_to start end_ s req Ha) as Hrun.
  repeat split.
  - intros cause rest Hw. rewrite Hrun. unfold bind, Do. rewrite Hw. reflexivity.
  - intros resp rest Hw H401 H200. rewrite Hrun. unfold bind at 1.
    rewrite (Do_answered _ _ s resp rest Hw).
    destruct (Z.eqb_spec (StatusCode resp) StatusUnauthorized); [contradiction|].
    destruct (Z.eqb_spec (StatusCode resp) StatusOK); [contradiction|]. reflexivity.
  - intros resp rest cause Hw H200 Hb. rewrite Hrun. unfold bind at 1.
    rewrite (Do_answered _ _ s resp rest Hw). rewrite H200. simpl.
    unfold bind, ReadAll. rewrite Hb. reflexivity.
  - intros resp rest body e Hw H200 Hb Hp.
    rewrite (fetch_ok start end_ s req resp rest body Ha Hw H200 Hb), Hp. reflexivity.
Qed.

Lemma fetch_failure_is_terminal_witness :
  let s := mkState Ex.logged_in (Ex.world [Ex.answer 503 [] "busy"; Ex.archive_ok]) in
  exists req,
    GetSpeedtestResultsInRange 0 1 s
    = (Err (ErrSpeedtestStatus 503), after_round_trip s req [Ex.archive_ok]).
Proof.
  eexists.
  refine (proj1 (proj2 (fetch_failure_is_terminal 0 1
             (mkState Ex.logged_in (Ex.world [Ex.answer 503 [] "busy"; Ex.archive_ok]))
             _ _))
            (mkResponse 503 [] (Readable "busy")) [Ex.archive_ok] _ _ _).
  - vm_compute. reflexivity.
  - reflexivity.
  - discriminate.
  - discriminate.
Defined.

(** ** What a call sends *)

Lemma archiveURL_static (s s' : State) :
  same_static s s' -> archiveURL (client s') = archiveURL (client s).
Proof.
  intros (HU & HB & HS & _). unfold archiveURL. rewrite HU, HB, HS. reflexivity.
Qed.

Lemma wrap_snd {A : Type} (f : error -> error) (m : M A) (s : State) :
  snd (wrap f m s) = snd (m s).
Proof. unfold wrap. destruct (m s) as [[a|e|p|] s']; reflexivity. Qed.

Lemma freshLogin_sent_cases (s : State) :
  sent (world (snd (freshLogin s))) = sent (world s)
  \/ sent (world (snd (freshLogin s))) = (sent (world s) ++ [loginRequest (client s)])%list.
Proof.
  destruct (url_error (world s) (loginURL (client s))) as [cause|] eqn:Hu.
  - left. unfold freshLogin. rewrite bind_at. unfold get_client. rewrite bind_at.
    unfold NewRequest. rewrite Hu. reflexivity.
  - right. exact (freshLogin_sent s Hu).
Qed.

Lemma Login_sent_cases (s : State) :
  sent (world (snd (Login s))) = sent (world s)
  \/ sent (world (snd (Login s))) = (sent (world s) ++ [loginRequest (client s)])%list.
Proof.
  unfold Login. rewrite bind_at, isSessionValid_run.
  destruct (String.eqb (SessionAuthToken (session (client s))) "").
  - apply freshLogin_sent_cases.
  - destruct (reading (world s) <? Expires (session (client s))).
    + left. reflexivity.
    + exact (freshLogin_sent_cases (mkState (client s) (after_reading (world s)))).
Qed.

Lemma loginRequest_static (s s' : State) :
  same_static s s' -> loginRequest (client s') = loginRequest (client s).
Proof.
  intros (HU & HB & _ & Hn & Hp & _). unfold loginRequest, loginURL.
  rewrite HU, HB, Hn, Hp. reflexivity.
Qed.

(** The request [archiveRequest] builds, whole. *)
Lemma archiveRequest_shape (start end_ : Z) (s : State) (req : Request) :
  fst (archiveRequest start end_ s) = Ok req ->
  let c := client s in
  let sends_token := IsUniFiOS c && negb (String.eqb (CSRFToken c) "") in
  req = mkRequest "POST" (archiveURL c)
                  (archive_header (if sends_token then Some (CSRFToken c) else None))
                  (Some (marshal_SpeedtestRequest start end_))
  /\ (sends_token = true -> 10 <= len (CSRFToken c)).
Proof.
  cbv zeta. unfold archiveRequest, bind, get_client, NewRequest, ret, panic.
  destruct (url_error (world s) (archiveURL (client s))); simpl; [discriminate|].
  destruct (IsUniFiOS (client s)); simpl.
  - destruct (String.eqb (CSRFToken (client s)) ""); simpl.
    + intros [= <-]. split; [reflexivity | discriminate].
    + destruct (Z.ltb_spec (len (CSRFToken (client s))) 10) as [Hlt|Hge]; simpl.
      * discriminate.
      * intros [= <-]. split; [reflexivity | intros _; exact Hge].
  - intros [= <-]. split; [reflexivity | discriminate].
Qed.

Lemma archive_or_login_static (s s' : State) (start end_ : Z) (r : Request) :
  same_static s s' ->
  archive_or_login (client s') start end_ r -> archive_or_login (client s) start end_ r.
Proof.
  intros Hs. unfold archive_or_login.
  rewrite (archiveURL_static s s' Hs), (loginRequest_static s s' Hs).
  destruct Hs as (HU & _). rewrite HU. exact (fun H => H).
Qed.

(** X12.  Whatever the gateway answers, the requests a call of
    [GetSpeedtestResultsInRange] sends are, in the order they are sent,
    archive requests and login requests of the client and nothing else.
    An archive request is the same at every retry but for the token: a
    POST to the archive URL of the client, with the window the call was
    given as its body and the header fields [Accept], [Content-Type]
    and [Expect], followed only for a UniFi OS client by [x-csrf-token]
    with a token of at least ten bytes.  A login request is the login
    request of the client as it was when the call began. *)
Theorem fetch_sends_only (start end_ : Z) (s : State) :
  exists later,
    sent (world (snd (GetSpeedtestResultsInRange start end_ s)))
    = (sent (world s) ++ later)%list
    /\ Forall (archive_or_login (client s) start end_) later.
Proof.
  remember (List.length (wire (world s))) as n eqn:Hn.
  revert start end_ s Hn. induction n as [n IH] using lt_wf_ind. intros start end_ s Hn.
  rewrite GetSpeedtestResultsInRange_unfold. unfold fetchBody. rewrite bind_at.
  pose proof (archiveRequest_same start end_ s) as Hsame.
  pose proof (archiveRequest_shape start end_ s) as Hreq.
  destruct (archiveRequest start end_ s) as [[req|e|p|] s1]; simpl in Hsame; subst s1;
    try (exists []; split; [simpl; rewrite app_nil_r; reflexivity | constructor]).
  destruct (Hreq req eq_refl) as (Hshape & Hlen).
  assert (Hfirst : archive_or_login (client s) start end_ req).
  { left. eexists. split; [exact Hshape|]. intros t Ht.
    destruct (IsUniFiOS (client s) && negb (String.eqb (CSRFToken (client s)) "")) eqn:Hb;
      [|discriminate].
    injection Ht as <-. split; [|exact (Hlen eq_refl)].
    apply andb_true_iff in Hb. exact (proj1 Hb). }
  clear Hshape Hlen Hreq.
  rewrite bind_at.
  pose proof (Do_sent req ErrSpeedtestRequest s) as Hsent.
  pose proof (same_static_Do req ErrSpeedtestRequest s) as S2.
  destruct (Do req ErrSpeedtestRequest s) as [[resp|e|p|] s2] eqn:H2; simpl in Hsent, S2;
    try (exists [req]; split; [exact Hsent | constructor; [exact Hfirst | constructor]]).
  apply Do_ok_shorter in H2.
  destruct (StatusCode resp =? StatusUnauthorized).
  - rewrite bind_at. rewrite clearSession_run.
    set (s3 := mkState _ (after_reading (world s2))).
    assert (S3 : same_static s s3).
    { apply (same_static_trans s s2 s3 S2).
      pose proof (clearSession_static s2) as H. rewrite clearSession_run in H. exact H. }
    assert (Hsent3 : sent (world s3) = (sent (world s) ++ [req])%list) by exact Hsent.
    assert (L3 : (List.length (wire (world s3)) < List.length (wire (world s)))%nat)
      by exact H2.
    rewrite bind_at.
    pose proof (Login_sent_cases s3) as HL.
    pose proof (Login_static s3) as S4.
    pose proof (Login_wire s3) as L4.
    rewrite <- (wrap_snd ErrReauth) in HL, S4, L4.
    rewrite (loginRequest_static s s3 S3) in HL.
    destruct (wrap ErrReauth Login s3) as [[u|e|p|] s4]; cbn [snd] in HL, S4, L4;
      try (destruct HL as [HL|HL];
           [exists [req]; split;
            [cbn [snd]; rewrite HL, Hsent3; reflexivity
            |constructor; [exact Hfirst | constructor]]
           |exists [req; loginRequest (client s)]; split;
            [cbn [snd]; rewrite HL, Hsent3, <- app_assoc; reflexivity
            |constructor; [exact Hfirst | constructor; [right; reflexivity | constructor]]]]).
    assert (S04 : same_static s s4) by exact (same_static_trans s s3 s4 S3 S4).
    destruct (IH (List.length (wire (world s4)))
                 ltac:(unfold wire_le in L4; lia) start end_ s4 eq_refl)
      as (later & Hl & Hall).
    assert (Hall' : Forall (archive_or_login (client s) start end_) later).
    { apply (Forall_impl _ (fun r => archive_or_login_static s s4 start end_ r S04) Hall). }
    destruct HL as [HL|HL]; rewrite Hl, HL, Hsent3.
    + exists (req :: later). split; [rewrite <- app_assoc; reflexivity|].
      constructor; assumption.
    + exists (req :: loginRequest (client s) :: later).
      split; [rewrite <- !app_assoc; reflexivity|].
      constructor; [exact Hfirst|]. constructor; [right; reflexivity | exact Hall'].
  - exists [req]. split; [|constructor; [exact Hfirst | constructor]].
    destruct (negb (StatusCode resp =? StatusOK)); [exact Hsent|].
    unfold bind, ReadAll. destruct (Body resp); simpl; [|exact Hsent].
    destruct (parseSpeedtest b); exact Hsent.
Qed.

(** ** Requests and answers *)

Lemma spends_bind {A B : Type} (m : M A) (k : A -> M B) :
  spends m -> (forall a, spends (k a)) -> spends (bind m k).
Proof.
  intros Hm Hk s. rewrite bind_at. specialize (Hm s).
  destruct (m s) as [[a|e|p|] s1]; simpl in Hm |- *; try exact Hm.
  specialize (Hk a s1). rewrite <- Hm. exact Hk.
Qed.

Lemma spends_wrap {A : Type} (f : error -> error) (m : M A) : spends m -> spends (wrap f m).
Proof.
  intros Hm s. unfold wrap. specialize (Hm s).
  destruct (m s) as [[a|e|p|] s1]; exact Hm.
Qed.

Lemma spends_quiet {A : Type} (m : M A) : keeps same_traffic m -> spends m.
Proof.
  intros H s. destruct (H s) as [Hw Hs]. unfold traffic. rewrite Hw, Hs.
  destruct (fst (m s)); lia.
Qed.

Lemma spends_Do (req : Request) (w : string -> error) : spends (Do req w).
Proof.
  intros s. unfold Do, traffic. destruct (wire (world s)) as [|[cause|resp] r]; simpl;
    rewrite length_app; simpl; lia.
Qed.

Lemma spends_ret {A : Type} (a : A) : spends (ret a).
Proof. intros s. reflexivity. Qed.

Lemma spends_fail {A : Type} (e : error) : spends (@fail A e).
Proof. intros s. simpl. lia. Qed.

Lemma spends_panic {A : Type} (p : string) : spends (@panic A p).
Proof. intros s. simpl. lia. Qed.

Lemma spends_get_client : spends get_client.
Proof. intros s. reflexivity. Qed.

Lemma spends_update (f : UDMProClient -> UDMProClient) : spends (update f).
Proof. intros s. reflexivity. Qed.

Lemma spends_Now : spends Now.
Proof. apply spends_quiet. exact same_traffic_Now. Qed.

Lemma spends_NewRequest (m u : string) (p : option json.value) (w : string -> error) :
  spends (NewRequest m u p w).
Proof.
  intros s. unfold NewRequest. destruct (url_error (world s) u); simpl; [lia | reflexivity].
Qed.

Lemma spends_ReadAll (resp : Response) : spends (ReadAll resp).
Proof. unfold ReadAll. destruct (Body resp); [apply spends_ret | apply spends_fail]. Qed.

Lemma spends_lift {A : Type} (r : error + A) : spends (lift r).
Proof. destruct r; [apply spends_fail | apply spends_ret]. Qed.

Lemma spends_loginCookies (cookies : list Cookie) : spends (loginCookies cookies).
Proof. apply spends_quiet. apply loginCookies_traffic. Qed.

Create HintDb spends.
#[local] Hint Resolve spends_Do spends_ret spends_fail spends_panic spends_get_client
  spends_update spends_Now spends_NewRequest spends_ReadAll spends_lift
  spends_loginCookies : spends.

Ltac spends_step :=
  first
    [ assumption
    | match goal with
      | |- forall _, _ => intros ?
      | |- spends (bind _ _) => apply spends_bind
      | |- spends (wrap _ _) => apply spends_wrap
      | |- spends (if ?b then _ else _) => destruct b
      | |- spends (match ?x with _ => _ end) => destruct x
      | |- spends (let _ := _ in _) => cbv zeta
      | H : forall _ _, spends (?f _ _) |- spends (?f _ _) => apply H
      end
    | solve [auto with spends] ].

Lemma spends_Login : spends Login.
Proof.
  unfold Login, isSessionValid, useCachedSession, freshLogin, cacheSession.
  repeat spends_step.
Qed.

Lemma spends_clearSession : spends clearSession.
Proof. unfold clearSession. repeat spends_step. Qed.

Lemma spends_archiveRequest (start end_ : Z) : spends (archiveRequest start end_).
Proof. unfold archiveRequest. repeat spends_step. Qed.

#[local] Hint Resolve spends_Login spends_clearSession spends_archiveRequest : spends.

Lemma spends_fetchInRange (fuel : nat) (start end_ : Z) :
  spends (fetchInRange fuel start end_).
Proof.
  revert start end_. induction fuel as [|fuel IH]; intros start end_.
  - intros s. simpl. lia.
  - simpl. unfold fetchBody. repeat spends_step.
Qed.

(** X13.  Every request a call of [GetSpeedtestResultsInRange] sends
    takes one answer of the gateway, except a last one that finds none.
    So a call that returns a result has sent exactly as many requests as
    it has taken answers, and no call sends more than one request more
    than the gateway gives answers: the retries after 401 are bounded by
    what the gateway answers. *)
Theorem fetch_requests_are_answered (start end_ : Z) (s : State) :
  let s' := snd (GetSpeedtestResultsInRange start end_ s) in
  (List.length (sent (world s')) + List.length (wire (world s'))
   <= List.length (sent (world s)) + List.length (wire (world s)) + 1)%nat
  /\ (forall r, fst (GetSpeedtestResultsInRange start end_ s) = Ok r ->
                (List.length (sent (world s')) + List.length (wire (world s'))
                 = List.length (sent (world s)) + List.length (wire (world s)))%nat).
Proof.
  cbv zeta.
  pose proof (spends_fetchInRange (S (List.length (wire (world s)))) start end_ s) as H.
  change (fetchInRange (S (List.length (wire (world s)))) start end_ s)
    with (GetSpeedtestResultsInRange start end_ s) in H.
  unfold traffic in H. split.
  - destruct (fst (GetSpeedtestResultsInRange start end_ s)); lia.
  - intros r Hr. rewrite Hr in H. exact H.
Qed.

(** ** Bodies the normalizer does not recognise *)

(** X14.  A body that is not a JSON text is rejected with the error of
    the unknown format, and that error always carries the body as it was
    received. *)
Theorem unrecognised_body_is_quoted (body : string) :
  (json.parse body = None -> parseSpeedtest body = inl (ErrUnparsed body))
  /\ (forall raw, parseSpeedtest body = inl (ErrUnparsed raw) -> raw = body).
Proof.
  split.
  - intros Hp. unfold parseSpeedtest, parseArray, parseV2, json.Unmarshal. rewrite Hp.
    reflexivity.
  - intros raw. unfold parseSpeedtest, parseArray, parseV2, selectMostRecent.
    repeat match goal with
           | |- context [match ?x with _ => _ end] => destruct x
           end;
      intros H; try discriminate; injection H as <-; reflexivity.
Qed.

Lemma unrecognised_body_is_quoted_witness :
  parseSpeedtest "<html>502 Bad Gateway</html>"
  = inl (ErrUnparsed "<html>502 Bad Gateway</html>").
Proof.
  apply (proj1 (unrecognised_body_is_quoted "<html>502 Bad Gateway</html>")).
  vm_compute. reflexivity.
Defined.

(** ** Results are measurements *)

Lemma selectMostRecent_measured (data : list Sample) (r : SpeedtestResult) :
  selectMostRecent data = inr r -> measured r = true.
Proof.
  unfold selectMostRecent. pose proof (findMostRecent_best data) as Hb.
  destruct (findMostRecent data) as [[i m]|]; [|discriminate].
  intros [= <-]. destruct Hb as (_ & Hnz & _). exact Hnz.
Qed.

Lemma parseSpeedtest_measured (body : string) (r : SpeedtestResult) :
  parseSpeedtest body = inr r -> measured r = true.
Proof.
  unfold parseSpeedtest, parseArray, parseV2.
  repeat match goal with
         | |- context [match ?x with _ => _ end] => destruct x
         end;
    try discriminate; apply selectMostRecent_measured.
Qed.

(** A result of [GetSpeedtestResultsInRange] is what the selection makes
    of the body of a response. *)
Lemma fetch_ok_parsed (start end_ : Z) (s : State) (r : SpeedtestResult) :
  fst (GetSpeedtestResultsInRange start end_ s) = Ok r ->
  exists body, parseSpeedtest body = inr r.
Proof.
  remember (List.length (wire (world s))) as n eqn:Hn.
  revert start end_ s Hn. induction n as [n IH] using lt_wf_ind. intros start end_ s Hn.
  rewrite GetSpeedtestResultsInRange_unfold. unfold fetchBody.
  unfold bind at 1.
  pose proof (archiveRequest_same start end_ s) as Hsame.
  destruct (archiveRequest start end_ s) as [[req|e|p|] s1]; simpl in Hsame; subst s1;
    try discriminate.
  unfold bind at 1.
  destruct (Do req ErrSpeedtestRequest s) as [[resp|e|p|] s2] eqn:H2; try discriminate.
  apply Do_ok_shorter in H2.
  destruct (StatusCode resp =? StatusUnauthorized).
  - unfold bind at 1.
    pose proof (clearSession_wire s2) as L3.
    destruct (clearSession s2) as [[u|e|p|] s3]; try discriminate.
    unfold bind at 1.
    pose proof (keeps_wrap wire_le ErrReauth Login Login_wire s3) as L4.
    destruct (wrap ErrReauth Login s3) as [[u'|e|p|] s4]; try discriminate.
    apply (IH (List.length (wire (world s4)))); [|reflexivity].
    unfold wire_le in L3, L4. simpl in L3, L4. lia.
  - destruct (negb (StatusCode resp =? StatusOK)); [discriminate|].
    unfold bind, ReadAll. destruct (Body resp) as [b|cause]; [|discriminate].
    simpl. destruct (parseSpeedtest b) as [e|r'] eqn:Hp; [discriminate|].
    simpl. intros [= <-]. exists b. exact Hp.
Qed.

(** X15.  [GetSpeedtestResultsInRange] never returns a placeholder: the
    result it gives has a positive download or a positive upload, whatever
    the gateway answers and however many times the request is retried. *)
Theorem fetched_result_is_measured (start end_ : Z) (s : State) (r : SpeedtestResult) :
  fst (GetSpeedtestResultsInRange start end_ s) = Ok r -> measured r = true.
Proof.
  intros H. destruct (fetch_ok_parsed start end_ s r H) as [body Hb].
  exact (parseSpeedtest_measured body r Hb).
Qed.

Lemma fetched_result_is_measured_witness :
  fst (GetSpeedtestResultsInRange 0 1
         (mkState Ex.legacy (Ex.world [Ex.unauthorized; Ex.login_ok; Ex.archive_ok])))
  = Ok (mkSpeedtestResult 80 0 0 200)
  /\ measured (mkSpeedtestResult 80 0 0 200) = true.
Proof.
  split; [vm_compute; reflexivity|].
  apply (fetched_result_is_measured 0 1
           (mkState Ex.legacy (Ex.world [Ex.unauthorized; Ex.login_ok; Ex.archive_ok]))).
  vm_compute. reflexivity.
Defined.

(** ** [GetSpeedtestResults] and the cache *)

Lemma GetSpeedtestResults_hit (s : State) (r : SpeedtestResult) :
  Result (cache (client s)) = Some r ->
  time.Sub (reading (world s)) (CachedAt (cache (client s))) < TTL (cache (client s)) ->
  GetSpeedtestResults s = (Ok r, mkState (client s) (after_reading (world s))).
Proof.
  intros Hr Hlt. unfold GetSpeedtestResults, bind at 1. rewrite getCachedSpeedtest_run, Hr.
  apply Z.ltb_lt in Hlt. rewrite Hlt. reflexivity.
Qed.

(** The uncached part of [GetSpeedtestResults]. *)
Lemma fetch_and_cache_ok (s : State) (r : SpeedtestResult) :
  let m := (t <- Now ;;
            let end_ := time.UnixMilli t in
            let start := wrap64 (end_ - 24 * 60 * 60 * 1000) in
            result <- GetSpeedtestResultsInRange start end_ ;;
            setCachedSpeedtest (Some result) ;;;
            ret result) in
  fst (m s) = Ok r -> Result (cache (client (snd (m s)))) = Some r.
Proof.
  cbv zeta. unfold bind. rewrite Now_reading.
  match goal with
  | |- context [GetSpeedtestResultsInRange ?a ?b ?x] =>
      destruct (GetSpeedtestResultsInRange a b x) as [[r'|e|p|] s3]; try discriminate
  end.
  rewrite setCachedSpeedtest_run. simpl. intros [= ->]. reflexivity.
Qed.

Lemma GetSpeedtestResults_ok_cached (s : State) (r : SpeedtestResult) :
  fst (GetSpeedtestResults s) = Ok r ->
  Result (cache (client (snd (GetSpeedtestResults s)))) = Some r.
Proof.
  unfold GetSpeedtestResults.
  rewrite (bind_at getCachedSpeedtest), getCachedSpeedtest_run.
  destruct (Result (cache (client s))) as [r0|] eqn:Hr.
  - destruct (time.Sub (reading (world s)) (CachedAt (cache (client s)))
              <? TTL (cache (client s))).
    + simpl. intros [= ->]. exact Hr.
    + apply fetch_and_cache_ok.
  - apply fetch_and_cache_ok.
Qed.

(** X16.  Once [GetSpeedtestResults] has returned a result, a further call
    on a client with the same cache, made while less than the time to live
    has passed since the result was cached, returns that result at once:
    the clock is read, nothing is sent, the client is left as it is. *)
Theorem cached_result_is_served (s s2 : State) (r : SpeedtestResult) :
  fst (GetSpeedtestResults s) = Ok r ->
  cache (client s2) = cache (client (snd (GetSpeedtestResults s))) ->
  time.Sub (reading (world s2)) (CachedAt (cache (client s2))) < TTL (cache (client s2)) ->
  GetSpeedtestResults s2 = (Ok r, mkState (client s2) (after_reading (world s2))).
Proof.
  intros Hok Hc Hlt. apply GetSpeedtestResults_hit; [|exact Hlt].
  rewrite Hc. apply GetSpeedtestResults_ok_cached. exact Hok.
Qed.

Lemma cached_result_is_served_witness :
  let s := mkState Ex.logged_in (Ex.world [Ex.archive_ok]) in
  let s2 := mkState (client (snd (GetSpeedtestResults s)))
                    (mkWorld (Ex.t0 + 23 * time.Hour) [] [] [] (fun _ => None)) in
  GetSpeedtestResults s2
  = (Ok (mkSpeedtestResult 80 0 0 200), mkState (client s2) (after_reading (world s2))).
Proof.
  apply (cached_result_is_served (mkState Ex.logged_in (Ex.world [Ex.archive_ok]))).
  - vm_compute. reflexivity.
  - reflexivity.
  - vm_compute. reflexivity.
Defined.

(** ** What the cache holds *)

Lemma fetch_and_cache_measured (s : State) :
  let m := (t <- Now ;;
            let end_ := time.UnixMilli t in
            let start := wrap64 (end_ - 24 * 60 * 60 * 1000) in
            result <- GetSpeedtestResultsInRange start end_ ;;
            setCachedSpeedtest (Some result) ;;;
            ret result) in
  cache_measured (client s) ->
  (forall r, fst (m s) = Ok r -> measured r = true)
  /\ cache_measured (client (snd (m s))).
Proof.
  cbv zeta. intros Hinv. unfold bind. rewrite Now_reading.
  match goal with
  | |- context [GetSpeedtestResultsInRange ?a ?b ?x] =>
      pose proof (fetch_ok_parsed a b x) as Hp;
      pose proof (GetSpeedtestResultsInRange_cache a b x) as Hc;
      destruct (GetSpeedtestResultsInRange a b x) as [[r'|e|p|] s3]
  end; unfold same_cache in Hc; simpl in Hc.
  - destruct (Hp r' eq_refl) as [body Hb].
    pose proof (parseSpeedtest_measured body r' Hb) as Hm.
    rewrite setCachedSpeedtest_run. simpl. split.
    + intros r [= <-]. exact Hm.
    + intros r [= <-]. exact Hm.
  - simpl. split; [discriminate|]. unfold cache_measured. rewrite Hc. exact Hinv.
  - simpl. split; [discriminate|]. unfold cache_measured. rewrite Hc. exact Hinv.
  - simpl. split; [discriminate|]. unfold cache_measured. rewrite Hc. exact Hinv.
Qed.

(** X17.  The result cache never comes to hold a placeholder.  If the
    cache of the client is empty or holds a result with a positive
    download or upload, then so it is after [Login] and after
    [GetSpeedtestResults], and what [GetSpeedtestResults] returns, from
    the cache or from the gateway, has a positive download or upload. *)
Theorem cache_holds_measurements (s : State) :
  cache_measured (client s) ->
  cache_measured (client (snd (Login s)))
  /\ cache_measured (client (snd (GetSpeedtestResults s)))
  /\ forall r, fst (GetSpeedtestResults s) = Ok r -> measured r = true.
Proof.
  intros Hinv. split.
  - pose proof (Login_cache s) as Hc. unfold same_cache in Hc.
    unfold cache_measured. rewrite Hc. exact Hinv.
  - unfold GetSpeedtestResults. rewrite (bind_at getCachedSpeedtest), getCachedSpeedtest_run.
    pose proof (fetch_and_cache_measured s Hinv) as H0.
    pose proof (fetch_and_cache_measured (mkState (client s) (after_reading (world s))) Hinv)
      as H1.
    cbv zeta in H0, H1.
    destruct (Result (cache (client s))) as [r0|] eqn:Hr.
    + destruct (time.Sub (reading (world s)) (CachedAt (cache (client s)))
                <? TTL (cache (client s))).
      * simpl. split; [exact Hinv|]. intros r [= <-]. apply Hinv. exact Hr.
      * destruct H1 as [Ha Hb]. split; [exact Hb | exact Ha].
    + destruct H0 as [Ha Hb]. split; [exact Hb | exact Ha].
Qed.

Lemma cache_holds_measurements_witness :
  let s := mkState Ex.logged_in (Ex.world [Ex.archive_ok]) in
  cache_measured (client (snd (GetSpeedtestResults s)))
  /\ Result (cache (client (snd (GetSpeedtestResults s)))) = Some (mkSpeedtestResult 80 0 0 200).
Proof.
  cbv zeta. split; [|vm_compute; reflexivity].
  apply (cache_holds_measurements (mkState Ex.logged_in (Ex.world [Ex.archive_ok]))).
  intros r H. discriminate H.
Defined.

(** ** [GetUDMProSpeedtest]: a new client at each call *)

Lemma wrap_ok {A : Type} (f : error -> error) (m : M A) (s s' : State) (a : A) :
  wrap f m s = (Ok a, s') -> m s = (Ok a, s').
Proof. unfold wrap. destruct (m s) as [[x|e|p|] s1]; intros H; congruence. Qed.

(** A login without a cached token that succeeds has sent its request. *)
Lemma Login_first_sends (s s' : State) :
  SessionAuthToken (session (client s)) = "" ->
  Login s = (Ok tt, s') ->
  sent (world s') = (sent (world s) ++ [loginRequest (client s)])%list.
Proof.
  intros Hs HL. unfold Login in HL. rewrite bind_at, isSessionValid_run, Hs in HL.
  simpl in HL.
  destruct (url_error (world s) (loginURL (client s))) as [cause|] eqn:Hu.
  - unfold freshLogin in HL. rewrite bind_at in HL. unfold get_client in HL.
    rewrite bind_at in HL. unfold NewRequest in HL. rewrite Hu in HL. discriminate.
  - pose proof (freshLogin_sent s Hu) as H. rewrite HL in H. exact H.
Qed.

(** A call of [GetSpeedtestResults] on an empty cache that succeeds has
    sent the archive request. *)
Lemma GetSpeedtestResults_miss_sends (s s' : State) (r : SpeedtestResult) :
  Result (cache (client s)) = None ->
  GetSpeedtestResults s = (Ok r, s') ->
  measured r = true
  /\ exists req later,
       sent (world s') = (sent (world s) ++ req :: later)%list
       /\ Method req = "POST" /\ URL req = archiveURL (client s).
Proof.
  intros Hc HG. unfold GetSpeedtestResults in HG.
  rewrite bind_at, getCachedSpeedtest_run, Hc in HG.
  rewrite bind_at, Now_reading in HG. cbv zeta in HG. rewrite bind_at in HG.
  set (s1 := mkState (client s) (after_reading (world s))) in *.
  set (end_ := time.UnixMilli (reading (world s))) in *.
  set (start := wrap64 (end_ - 24 * 60 * 60 * 1000)) in *.
  destruct (GetSpeedtestResultsInRange start end_ s1) as [[r'|e|p|] s3] eqn:HR;
    try discriminate.
  rewrite bind_at, setCachedSpeedtest_run in HG. unfold ret in HG.
  injection HG as <- <-. split.
  - assert (H : fst (GetSpeedtestResultsInRange start end_ s1) = Ok r')
      by (rewrite HR; reflexivity).
    destruct (fetch_ok_parsed start end_ s1 r' H) as [body Hb].
    exact (parseSpeedtest_measured body r' Hb).
  - destruct (archiveRequest start end_ s1) as [[req|e|p|] sx] eqn:HA.
    + assert (Ha : fst (archiveRequest start end_ s1) = Ok req) by (rewrite HA; reflexivity).
      destruct (fetch_sends start end_ s1 req Ha) as [later Hl].
      destruct (archiveRequest_payload start end_ s1 req Ha) as (_ & Hm & Hurl).
      rewrite HR in Hl. exists req, later. repeat split; assumption.
    + rewrite GetSpeedtestResultsInRange_unfold in HR. unfold fetchBody in HR.
      rewrite bind_at, HA in HR. discriminate.
    + rewrite GetSpeedtestResultsInRange_unfold in HR. unfold fetchBody in HR.
      rewrite bind_at, HA in HR. discriminate.
    + rewrite GetSpeedtestResultsInRange_unfold in HR. unfold fetchBody in HR.
      rewrite bind_at, HA in HR. discriminate.
Qed.

Lemma GetUDMProSpeedtest_ok_inv (baseURL username password site version : string)
        (w : World) (r : SpeedtestResult) :
  let run := GetUDMProSpeedtest baseURL username password site version w in
  fst run = Ok r ->
  measured r = true
  /\ exists c req later,
       fst (NewUDMProClient baseURL username password site version w) = Ok c
       /\ sent (snd run)
          = (sent w ++ probeRequest (BaseURL c) :: loginRequest c :: req :: later)%list
       /\ Method req = "POST" /\ URL req = archiveURL c.
Proof.
  cbv zeta. unfold GetUDMProSpeedtest.
  pose proof (NewUDMProClient_made baseURL username password site version w) as HN.
  destruct (NewUDMProClient baseURL username password site version w)
    as [[c|e|p|] w1] eqn:HNew; try discriminate.
  specialize (HN c eq_refl). cbv zeta in HN. simpl in HN.
  destruct HN as (_ & _ & _ & _ & _ & _ & _ & _ & Hcache & Hsess & _ & Hsent & _).
  rewrite bind_at.
  destruct (wrap ErrLoginFailed Login (mkState c w1)) as [[u1|e|p|] s1] eqn:HL;
    try discriminate.
  apply wrap_ok in HL. destruct u1.
  pose proof (Login_cache (mkState c w1)) as HLc. rewrite HL in HLc.
  pose proof (Login_static (mkState c w1)) as HLs. rewrite HL in HLs.
  unfold same_cache in HLc. simpl in HLc, HLs.
  apply Login_first_sends in HL; [|simpl; rewrite Hsess; reflexivity]. simpl in HL.
  destruct (wrap ErrFetchFailed GetSpeedtestResults s1) as [[r'|e|p|] s2] eqn:HG;
    try discriminate.
  apply wrap_ok in HG. simpl. intros [= ->].
  destruct (GetSpeedtestResults_miss_sends s1 s2 r) as (Hm & req & later & Hs2 & Hmeth & Hurl);
    [rewrite HLc, Hcache; reflexivity | exact HG |].
  split; [exact Hm|]. exists c, req, later. repeat split.
  - rewrite Hs2, HL, Hsent. rewrite <- !app_assoc. reflexivity.
  - exact Hmeth.
  - rewrite Hurl. apply (archiveURL_static (mkState c w1) s1 HLs).
Qed.

(** X18.  [GetUDMProSpeedtest] makes a new client at each call, so neither
    the cached session nor the cached result of an earlier call is ever
    used: a call that returns a result has sent, in this order, the probe
    of the family, a login and the archive request.  The result has a
    positive download or upload. *)
Theorem GetUDMProSpeedtest_ok (baseURL username password site version : string)
        (w : World) (r : SpeedtestResult) :
  let run := GetUDMProSpeedtest baseURL username password site version w in
  fst run = Ok r ->
  measured r = true
  /\ exists c req later,
       fst (NewUDMProClient baseURL username password site version w) = Ok c
       /\ sent (snd run)
          = (sent w ++ probeRequest (BaseURL c) :: loginRequest c :: req :: later)%list
       /\ Method req = "POST" /\ URL req = archiveURL c.
Proof. exact (GetUDMProSpeedtest_ok_inv baseURL username password site version w r). Qed.

Lemma GetUDMProSpeedtest_ok_witness :
  let w := Ex.world [Ex.answer 404 [] ""; Ex.login_ok; Ex.archive_ok] in
  let run := GetUDMProSpeedtest "https://gw/" "admin" "secret" "default" "8.0.28" w in
  fst run = Ok (mkSpeedtestResult 80 0 0 200)
  /\ measured (mkSpeedtestResult 80 0 0 200) = true
  /\ List.map URL (sent (snd run))
     = ["https://gw/"; "https://gw/api/login";
        "https://gw/api/s/default/stat/report/archive.speedtest"].
Proof.
  cbv zeta. split; [vm_compute; reflexivity|]. split; [|vm_compute; reflexivity].
  apply (GetUDMProSpeedtest_ok "https://gw/" "admin" "secret" "default" "8.0.28"
           (Ex.world [Ex.answer 404 [] ""; Ex.login_ok; Ex.archive_ok])).
  vm_compute. reflexivity.
Defined.

(** ** A gateway that answers as it should *)

Lemma loginCookies_legacy (cookies : list Cookie) (s : State) :
  IsUniFiOS (client s) = false ->
  loginCookies cookies s
  = (Ok tt,
     mkState (match cookie_value "unifises" cookies with
              | Some v => set_AuthToken v (client s)
              | None => client s
              end)
             (world s)).
Proof.
  revert s. induction cookies as [|k r IH]; intros s HU.
  - simpl. destruct s. reflexivity.
  - simpl loginCookies. rewrite bind_at. unfold get_client. rewrite HU.
    cbn [andb negb]. rewrite bind_at.
    destruct (String.eqb (Name k) "unifises") eqn:Hk.
    + unfold update. rewrite IH by exact HU. simpl. rewrite Hk.
      destruct (cookie_value "unifises" r); reflexivity.
    + unfold ret. rewrite IH by exact HU. simpl. rewrite Hk.
      destruct (cookie_value "unifises" r); reflexivity.
Qed.

(** X19.  A legacy gateway that answers the probe with a status other
    than 200, accepts the login with a [unifises] cookie that is not empty
    and answers the archive request with a body the normalizer accepts:
    [GetUDMProSpeedtest] returns the sample the normalizer selects, after
    exactly three requests. *)
Theorem legacy_happy_path (baseURL username password site version : string) (w : World)
        (probe login archive : Response) (rest : list round_trip)
        (lb body token : string) (r : SpeedtestResult) :
  (forall u, url_error w u = None) ->
  wire w = Answered probe :: Answered login :: Answered archive :: rest ->
  StatusCode probe <> 200 ->
  StatusCode login = StatusOK ->
  Body login = Readable lb ->
  cookie_value "unifises" (Cookies login) = Some token ->
  token <> "" ->
  StatusCode archive = StatusOK ->
  Body archive = Readable body ->
  parseSpeedtest body = inr r ->
  let run := GetUDMProSpeedtest baseURL username password site version w in
  let base := strings.TrimRight baseURL "/" in
  fst run = Ok r
  /\ wire (snd run) = rest
  /\ List.map URL (sent (snd run))
     = List.app (List.map URL (sent w))
                [base ++ "/"; base ++ "/api/login";
                 base ++ "/api/s/" ++ site ++ "/stat/report/archive.speedtest"].
Proof.
  intros Hu Hw Hprobe Hls Hlb Hck Htok Has Hab Hparse. cbv zeta.
  assert (H : exists wf,
             GetUDMProSpeedtest baseURL username password site version w = (Ok r, wf)
             /\ wire wf = rest
             /\ List.map URL (sent wf)
                = List.app (List.map URL (sent w))
                    [strings.TrimRight baseURL "/" ++ "/";
                     strings.TrimRight baseURL "/" ++ "/api/login";
                     strings.TrimRight baseURL "/" ++ "/api/s/" ++ site
                     ++ "/stat/report/archive.speedtest"]).
  { unfold GetUDMProSpeedtest. rewrite NewUDMProClient_run. cbv zeta. rewrite Hu, Hw.
    destruct (Z.eqb_spec (StatusCode probe) 200) as [|_]; [contradiction|].
    set (c := set_IsUniFiOS false _).
    set (w1 := mkWorld _ _ (Answered login :: Answered archive :: rest) _ _).
    set (s0 := mkState c w1).
    assert (HL : Login s0
                 = cacheSession
                     (mkState (set_AuthToken token c)
                              (world (after_round_trip s0 (loginRequest c)
                                        (Answered archive :: rest))))).
    { unfold Login. rewrite bind_at, isSessionValid_run.
      change (SessionAuthToken (session (client s0))) with "". cbn [String.eqb].
      rewrite (freshLogin_run s0) by apply Hu. rewrite bind_at.
      rewrite (Do_answered _ _ s0 login (Answered archive :: rest) eq_refl).
      rewrite (afterLogin_ok login lb _ Hls Hlb). rewrite bind_at.
      rewrite loginCookies_legacy by reflexivity. rewrite Hck.
      rewrite bind_at. unfold get_client. cbn [client set_AuthToken AuthToken].
      destruct (String.eqb_spec token ""); [contradiction|]. reflexivity. }
    rewrite bind_at. unfold wrap at 1. rewrite HL, cacheSession_run.
    set (s1 := mkState _ (after_reading _)).
    unfold wrap. unfold GetSpeedtestResults. rewrite bind_at, getCachedSpeedtest_run.
    change (Result (cache (client s1))) with (@None SpeedtestResult). cbv iota.
    rewrite bind_at, Now_reading. cbv zeta. rewrite bind_at.
    set (s2 := mkState (client s1) (after_reading (world s1))).
    match goal with
    | |- context [GetSpeedtestResultsInRange ?a ?b s2] => set (start := a); set (end_ := b)
    end.
    destruct (archiveRequest_legacy start end_ s2 eq_refl (Hu _)) as [req Hreq].
    assert (Ha : fst (archiveRequest start end_ s2) = Ok req) by (rewrite Hreq; reflexivity).
    destruct (archiveRequest_payload start end_ s2 req Ha) as (_ & _ & Hurl).
    rewrite (fetch_ok start end_ s2 req archive rest body Ha eq_refl Has Hab), Hparse.
    cbn [lift ret]. rewrite bind_at, setCachedSpeedtest_run. cbn [ret].
    eexists. split; [reflexivity|]. split; [reflexivity|].
    cbn [sent after_reading world].
    change (sent (world (after_round_trip s2 req rest)))
      with (((sent w ++ [probeRequest (strings.TrimRight baseURL "/")])
             ++ [loginRequest c]) ++ [req])%list.
    rewrite !map_app. cbn [List.map]. rewrite <- !app_assoc. cbn [app].
    rewrite Hurl. reflexivity. }
  destruct H as (wf & -> & Hwire & Hsent). repeat split; assumption.
Qed.

Lemma legacy_happy_path_witness :
  let run := GetUDMProSpeedtest "https://gw/" "admin" "secret" "default" "8.0.28"
               (Ex.world Ex.gateway) in
  fst run = Ok (mkSpeedtestResult 80 0 0 200)
  /\ wire (snd run) = []
  /\ List.map URL (sent (snd run))
     = ["https://gw/"; "https://gw/api/login";
        "https://gw/api/s/default/stat/report/archive.speedtest"].
Proof.
  apply (legacy_happy_path "https://gw/" "admin" "secret" "default" "8.0.28"
           (Ex.world Ex.gateway)
           (mkResponse 404 [] (Readable ""))
           (mkResponse 200 [mkCookie "unifises" "s3ss10n"] (Readable "{}"))
           (mkResponse 200 [] (Readable Ex.meta_body))
           [] "{}" Ex.meta_body "s3ss10n" (mkSpeedtestResult 80 0 0 200));
    try reflexivity; discriminate.
Defined.

(** A fresh login of a UniFi OS client that is answered 200 with one
    [TOKEN] cookie, whose token is well formed. *)
Lemma Login_unifi_token (s : State) (login : Response) (rest : list round_trip)
      (pre post : list Cookie) (lb token h p sg d : string) (jwtData : json.Map) :
  IsUniFiOS (client s) = true ->
  SessionAuthToken (session (client s)) = "" ->
  url_error (world s) (loginURL (client s)) = None ->
  wire (world s) = Answered login :: rest ->
  StatusCode login = StatusOK ->
  Body login = Readable lb ->
  Cookies login = (pre ++ mkCookie "TOKEN" token :: post)%list ->
  forallb (fun k => negb (is_TOKEN k)) pre = true ->
  forallb (fun k => negb (is_TOKEN k)) post = true ->
  strings.Split token "." = [h; p; sg] ->
  base64.DecodeString (fixPayload p) = Some d ->
  json.Unmarshal (fun v => json.into_map v []) d = Some jwtData ->
  Login s
  = cacheSession
      (mkState (match findCSRF possibleFields jwtData with
                | Some t => set_CSRFToken t (set_AuthToken token (client s))
                | None => set_AuthToken token (client s)
                end)
               (world (after_round_trip s (loginRequest (client s)) rest))).
Proof.
  intros HU Hs Hu Hw Hst Hb Hck Hpre Hpost Hsp Hd Hj.
  assert (Htok : token <> "") by (intros ->; discriminate Hsp).
  unfold Login. rewrite bind_at, isSessionValid_run, Hs. cbn [String.eqb].
  rewrite (freshLogin_run s Hu), bind_at, (Do_answered _ _ s login rest Hw).
  rewrite (afterLogin_ok login lb _ Hst Hb), bind_at, Hck.
  set (s2 := after_round_trip s (loginRequest (client s)) rest).
  rewrite (loginCookies_skip pre _ s2 HU Hpre), (loginCookies_TOKEN token post s2 HU).
  rewrite bind_at. unfold wrap.
  set (s3 := mkState (set_AuthToken token (client s2)) (world s2)).
  rewrite (extractCSRFToken_run s3 HU Htok).
  change (AuthToken (client s3)) with token. rewrite Hsp, Hd, Hj.
  destruct (findCSRF possibleFields jwtData) as [t|].
  - rewrite loginCookies_no_TOKEN by assumption.
    rewrite bind_at. unfold get_client, s3, s2.
    cbn [client world set_CSRFToken set_AuthToken AuthToken after_round_trip].
    destruct (String.eqb_spec token ""); [contradiction|]. reflexivity.
  - rewrite loginCookies_no_TOKEN by assumption.
    rewrite bind_at. unfold get_client, s3, s2.
    cbn [client world set_AuthToken AuthToken after_round_trip].
    destruct (String.eqb_spec token ""); [contradiction|]. reflexivity.
Qed.

Lemma archiveRequest_unifi (start end_ : Z) (s : State) :
  IsUniFiOS (client s) = true ->
  url_error (world s) (archiveURL (client s)) = None ->
  CSRFToken (client s) = "" \/ 10 <= len (CSRFToken (client s)) ->
  exists req,
    archiveRequest start end_ s = (Ok req, s)
    /\ (CSRFToken (client s) <> "" ->
        In ("x-csrf-token", CSRFToken (client s)) (Header req)).
Proof.
  intros HU Hu Hlen. unfold archiveRequest, bind, get_client, NewRequest.
  rewrite Hu. cbv zeta. rewrite HU. simpl.
  destruct (String.eqb_spec (CSRFToken (client s)) "") as [He|Hne]; simpl.
  - eexists. split; [reflexivity|]. intros H. contradiction.
  - destruct Hlen as [He|Hlen]; [contradiction|].
    destruct (Z.ltb_spec (len (CSRFToken (client s))) 10); [lia|].
    eexists. split; [reflexivity|]. intros _. unfold set_header. simpl.
    right. right. right. left. reflexivity.
Qed.

(** X20.  A UniFi OS gateway that answers the probe with 200, accepts the
    login with one [TOKEN] cookie whose token is well formed and carries
    no CSRF field or one of at least ten bytes, and answers the archive
    request with a body the normalizer accepts: [GetUDMProSpeedtest]
    returns the sample the normalizer selects, after exactly three
    requests, the last of which carries the CSRF token of the login in
    its [x-csrf-token] header. *)
Theorem unifi_happy_path (baseURL username password site version : string) (w : World)
        (probe login archive : Response) (rest : list round_trip)
        (pre post : list Cookie) (lb body token h p sg d : string)
        (jwtData : json.Map) (r : SpeedtestResult) :
  (forall u, url_error w u = None) ->
  wire w = Answered probe :: Answered login :: Answered archive :: rest ->
  StatusCode probe = 200 ->
  StatusCode login = StatusOK ->
  Body login = Readable lb ->
  Cookies login = (pre ++ mkCookie "TOKEN" token :: post)%list ->
  forallb (fun k => negb (is_TOKEN k)) pre = true ->
  forallb (fun k => negb (is_TOKEN k)) post = true ->
  strings.Split token "." = [h; p; sg] ->
  base64.DecodeString (fixPayload p) = Some d ->
  json.Unmarshal (fun v => json.into_map v []) d = Some jwtData ->
  (forall t, findCSRF possibleFields jwtData = Some t -> 10 <= len t) ->
  StatusCode archive = StatusOK ->
  Body archive = Readable body ->
  parseSpeedtest body = inr r ->
  let run := GetUDMProSpeedtest baseURL username password site version w in
  let base := strings.TrimRight baseURL "/" in
  fst run = Ok r
  /\ wire (snd run) = rest
  /\ exists loginReq req,
       sent (snd run) = List.app (sent w) [probeRequest base; loginReq; req]
       /\ URL loginReq = base ++ "/api/auth/login"
       /\ URL req = base ++ "/proxy/network" ++ "/api/s/" ++ site
                    ++ "/stat/report/archive.speedtest"
       /\ forall t, findCSRF possibleFields jwtData = Some t ->
                    In ("x-csrf-token", t) (Header req).
Proof.
  intros Hu Hw Hprobe Hls Hlb Hck Hpre Hpost Hsp Hd Hj Hlen Has Hab Hparse. cbv zeta.
  assert (H : exists wf loginReq req,
             GetUDMProSpeedtest baseURL username password site version w = (Ok r, wf)
             /\ wire wf = rest
             /\ sent wf = List.app (sent w)
                            [probeRequest (strings.TrimRight baseURL "/"); loginReq; req]
             /\ URL loginReq = strings.TrimRight baseURL "/" ++ "/api/auth/login"
             /\ URL req = strings.TrimRight baseURL "/" ++ "/proxy/network" ++ "/api/s/"
                          ++ site ++ "/stat/report/archive.speedtest"
             /\ forall t, findCSRF possibleFields jwtData = Some t ->
                          In ("x-csrf-token", t) (Header req)).
  { unfold GetUDMProSpeedtest. rewrite NewUDMProClient_run. cbv zeta. rewrite Hu, Hw, Hprobe.
    change (200 =? 200) with true.
    set (c := set_IsUniFiOS true _).
    set (w1 := mkWorld _ _ (Answered login :: Answered archive :: rest) _ _).
    set (s0 := mkState c w1).
    pose proof (Login_unifi_token s0 login (Answered archive :: rest) pre post lb token
                  h p sg d jwtData eq_refl eq_refl (Hu _) eq_refl Hls Hlb Hck Hpre Hpost
                  Hsp Hd Hj) as HL.
    rewrite bind_at. unfold wrap at 1. rewrite HL, cacheSession_run.
    set (s1 := mkState _ (after_reading _)).
    unfold wrap. unfold GetSpeedtestResults. rewrite bind_at, getCachedSpeedtest_run.
    assert (Hc1 : Result (cache (client s1)) = None)
      by (unfold s1; destruct (findCSRF possibleFields jwtData); reflexivity).
    rewrite Hc1. rewrite bind_at, Now_reading. cbv zeta. rewrite bind_at.
    set (s2 := mkState (client s1) (after_reading (world s1))).
    match goal with
    | |- context [GetSpeedtestResultsInRange ?a ?b s2] => set (start := a); set (end_ := b)
    end.
    assert (HU2 : IsUniFiOS (client s2) = true)
      by (unfold s2, s1; destruct (findCSRF possibleFields jwtData); reflexivity).
    assert (Hcsrf : CSRFToken (client s2)
                    = match findCSRF possibleFields jwtData with
                      | Some t => t
                      | None => ""
                      end)
      by (unfold s2, s1; destruct (findCSRF possibleFields jwtData); reflexivity).
    assert (Hurl2 : archiveURL (client s2)
                    = strings.TrimRight baseURL "/" ++ "/proxy/network" ++ "/api/s/"
                      ++ site ++ "/stat/report/archive.speedtest")
      by (unfold s2, s1; destruct (findCSRF possibleFields jwtData); reflexivity).
    assert (Hsent2 : sent (world s2)
                     = List.app (sent w)
                         [probeRequest (strings.TrimRight baseURL "/"); loginRequest c])
      by (unfold s2, s1, s0, w1; cbn [world sent after_reading after_round_trip];
          rewrite <- app_assoc; reflexivity).
    assert (Hwire2 : wire (world s2) = Answered archive :: rest) by reflexivity.
    destruct (archiveRequest_unifi start end_ s2 HU2 (Hu _)) as (req & Hreq & Hhdr).
    { rewrite Hcsrf. destruct (findCSRF possibleFields jwtData) as [t|];
        [right; apply Hlen; reflexivity | left; reflexivity]. }
    assert (Ha : fst (archiveRequest start end_ s2) = Ok req) by (rewrite Hreq; reflexivity).
    destruct (archiveRequest_payload start end_ s2 req Ha) as (_ & _ & Hurl).
    rewrite (fetch_ok start end_ s2 req archive rest body Ha Hwire2 Has Hab), Hparse.
    cbn [lift ret]. rewrite bind_at, setCachedSpeedtest_run. cbn [ret].
    exists (after_reading (world (after_round_trip s2 req rest))), (loginRequest c), req.
    split; [reflexivity|]. split; [reflexivity|]. split.
    - cbn [sent after_reading after_round_trip world]. rewrite Hsent2, <- app_assoc.
      reflexivity.
    - split; [reflexivity|]. split; [rewrite Hurl; exact Hurl2|].
      intros t Ht. rewrite Ht in Hcsrf. rewrite <- Hcsrf. apply Hhdr. rewrite Hcsrf.
      intros ->. specialize (Hlen "" Ht). unfold len in Hlen. simpl in Hlen. lia. }
  destruct H as (wf & loginReq & req & -> & Hwire & Hsent & H1 & H2 & H3).
  split; [reflexivity|]. split; [exact Hwire|].
  exists loginReq, req. repeat split; assumption.
Qed.

Lemma unifi_happy_path_witness :
  let run := GetUDMProSpeedtest "https://gw/" "admin" "secret" "default" "8.0.28"
               (Ex.world Ex.unifi_gateway) in
  fst run = Ok (mkSpeedtestResult 80 0 0 200)
  /\ wire (snd run) = []
  /\ exists loginReq req,
       sent (snd run) = [probeRequest "https://gw"; loginReq; req]
       /\ URL loginReq = "https://gw/api/auth/login"
       /\ URL req = "https://gw/proxy/network/api/s/default/stat/report/archive.speedtest"
       /\ In ("x-csrf-token", "0123456789abcdef") (Header req).
Proof.
  cbv zeta.
  destruct (unifi_happy_path "https://gw/" "admin" "secret" "default" "8.0.28"
              (Ex.world Ex.unifi_gateway)
              (mkResponse 200 [] (Readable "<html>"))
              (mkResponse 200 [mkCookie "TOKEN" Ex.token_long] (Readable "{}"))
              (mkResponse 200 [] (Readable Ex.meta_body))
              [] [] [] "{}" Ex.meta_body Ex.token_long
              "h" "eyJjc3JmVG9rZW4iOiIwMTIzNDU2Nzg5YWJjZGVmIn0" "s"
              (json.render (json.JObject [("csrfToken", json.JString "0123456789abcdef")]))
              [("csrfToken", json.JString "0123456789abcdef")]
              (mkSpeedtestResult 80 0 0 200))
    as (H1 & H2 & loginReq & req & H3 & H4 & H5 & H6);
    try reflexivity.
  - intros t H. vm_compute in H. injection H as <-. vm_compute. discriminate.
  - split; [exact H1|]. split; [exact H2|]. exists loginReq, req.
    repeat split; try assumption. apply H6. reflexivity.
Defined.

(** ** [GetRelativeTime] *)

Lemma wrap64_range (z : Z) : minInt64 <= wrap64 z <= maxInt64.
Proof.
  unfold wrap64, minInt64, maxInt64.
  pose proof (Z.mod_pos_bound (z + 2 ^ 63) (2 ^ 64) ltac:(lia)). lia.
Qed.

Lemma wrap64_above (z : Z) :
  maxInt64 < z <= maxInt64 - minInt64 -> wrap64 z = z - 2 ^ 64.
Proof.
  unfold wrap64, minInt64, maxInt64. intros H.
  replace (z + 2 ^ 63) with (z - 2 ^ 63 + 1 * 2 ^ 64) by lia.
  rewrite Z_mod_plus_full, Z.mod_small by lia. lia.
Qed.

Lemma clock_reading (w : World) : clock w = (reading w, after_reading w).
Proof.
  unfold clock, reading, after_reading. destruct w as [n tk wi se ue]. simpl.
  destruct tk; reflexivity.
Qed.

(** X21.  [GetRelativeTime] reads the clock once and names the age [d] of
    the timestamp, in milliseconds, by the largest unit that fits, the
    count rounded down: [just now] below a minute, which includes every
    timestamp that lies in the future; 1 to 59 minutes; 1 to 23 hours;
    then days.  When the timestamp is so far in the past that the
    subtraction overflows [int64], the answer is [just now] as well. *)
Theorem GetRelativeTime_text (timestamp : Z) (w : World) :
  minInt64 <= timestamp <= maxInt64 ->
  let d := time.UnixMilli (reading w) - timestamp in
  let text := fst (GetRelativeTime timestamp w) in
  snd (GetRelativeTime timestamp w) = after_reading w
  /\ (minInt64 <= d < 60000 -> text = "just now")
  /\ (maxInt64 < d -> text = "just now")
  /\ (60000 <= d < 3600000 ->
      text = strconv.Itoa (d / 60000) ++ " minutes ago" /\ 1 <= d / 60000 <= 59)
  /\ (3600000 <= d < 86400000 ->
      text = strconv.Itoa (d / 3600000) ++ " hours ago" /\ 1 <= d / 3600000 <= 23)
  /\ (86400000 <= d <= maxInt64 ->
      text = strconv.Itoa (d / 86400000) ++ " days ago" /\ 1 <= d / 86400000).
Proof.
  intros Hts. cbv zeta. unfold GetRelativeTime. rewrite clock_reading. cbv zeta.
  simpl fst. simpl snd.
  pose proof (wrap64_range (reading w / time.Millisecond)) as Hnow.
  fold (time.UnixMilli (reading w)) in Hnow.
  set (now_ := time.UnixMilli (reading w)) in *.
  unfold minInt64, maxInt64 in *.
  split; [reflexivity|]. split; [|split; [|split; [|split]]].
  - intros Hd. rewrite wrap64_small by (unfold minInt64, maxInt64; lia).
    destruct (Z.ltb_spec (now_ - timestamp) 60000); [reflexivity | lia].
  - intros Hd. rewrite wrap64_above by (unfold minInt64, maxInt64; lia).
    destruct (Z.ltb_spec (now_ - timestamp - 2 ^ 64) 60000); [reflexivity | lia].
  - intros Hd. rewrite wrap64_small by (unfold minInt64, maxInt64; lia).
    destruct (Z.ltb_spec (now_ - timestamp) 60000); [lia|].
    destruct (Z.ltb_spec (now_ - timestamp) 3600000); [|lia].
    rewrite Z.quot_div_nonneg by lia. split; [reflexivity|].
    pose proof (Z.div_le_lower_bound (now_ - timestamp) 60000 1 ltac:(lia) ltac:(lia)).
    pose proof (Z.div_lt_upper_bound (now_ - timestamp) 60000 60 ltac:(lia) ltac:(lia)).
    lia.
  - intros Hd. rewrite wrap64_small by (unfold minInt64, maxInt64; lia).
    destruct (Z.ltb_spec (now_ - timestamp) 60000); [lia|].
    destruct (Z.ltb_spec (now_ - timestamp) 3600000); [lia|].
    destruct (Z.ltb_spec (now_ - timestamp) 86400000); [|lia].
    rewrite Z.quot_div_nonneg by lia. split; [reflexivity|].
    pose proof (Z.div_le_lower_bound (now_ - timestamp) 3600000 1 ltac:(lia) ltac:(lia)).
    pose proof (Z.div_lt_upper_bound (now_ - timestamp) 3600000 24 ltac:(lia) ltac:(lia)).
    lia.
  - intros Hd. rewrite wrap64_small by (unfold minInt64, maxInt64; lia).
    destruct (Z.ltb_spec (now_ - timestamp) 60000); [lia|].
    destruct (Z.ltb_spec (now_ - timestamp) 3600000); [lia|].
    destruct (Z.ltb_spec (now_ - timestamp) 86400000); [lia|].
    rewrite Z.quot_div_nonneg by lia. split; [reflexivity|].
    pose proof (Z.div_le_lower_bound (now_ - timestamp) 86400000 1 ltac:(lia) ltac:(lia)).
    lia.
Qed.

Lemma GetRelativeTime_text_witness :
  let w := Ex.world [] in
  fst (GetRelativeTime (Ex.t0_ms - 5400000) w) = "1 hours ago"
  /\ fst (GetRelativeTime (Ex.t0_ms + 1000) w) = "just now"
  /\ fst (GetRelativeTime minInt64 w) = "just now".
Proof.
  cbv zeta.
  assert (E : time.UnixMilli (reading (Ex.world [])) = Ex.t0_ms) by (vm_compute; reflexivity).
  split; [|split].
  - destruct (GetRelativeTime_text (Ex.t0_ms - 5400000) (Ex.world []))
      as (_ & _ & _ & _ & H & _).
    + unfold Ex.t0_ms, minInt64, maxInt64. lia.
    + apply H. rewrite E. unfold Ex.t0_ms. lia.
  - destruct (GetRelativeTime_text (Ex.t0_ms + 1000) (Ex.world []))
      as (_ & H & _).
    + unfold Ex.t0_ms, minInt64, maxInt64. lia.
    + apply H. rewrite E. unfold Ex.t0_ms, minInt64. lia.
  - destruct (GetRelativeTime_text minInt64 (Ex.world []))
      as (_ & _ & H & _).
    + unfold minInt64, maxInt64. lia.
    + apply H. rewrite E. unfold Ex.t0_ms, minInt64, maxInt64. lia.
Defined.

(** ** [LANIP] *)

Lemma To4_len (ip ip4 : net.IP) : net.To4 ip = Some ip4 -> len ip4 = 4.
Proof.
  unfold net.To4, net.IPv4len, net.IPv6len.
  destruct (Z.eqb_spec (len ip) 4) as [H4|_]; [intros [= <-]; exact H4|].
  destruct (Z.eqb_spec (len ip) 16) as [H16|_]; [|discriminate]. simpl.
  destruct (net.isZeros (substring 0 10 ip) && (net.at_ ip 10 =? 255)
            && (net.at_ ip 11 =? 255)); [|discriminate].
  intros [= <-]. unfold len in *.
  do 16 (destruct ip as [|? ip]; [simpl in H16; lia|]).
  destruct ip; [reflexivity | simpl in H16; lia].
Qed.

(** One turn of the inner loop, in terms of [usable]. *)
Lemma firstIPv4_cons (a : net.Addr) (r : list net.Addr) :
  firstIPv4 (a :: r)
  = match usable a with
    | Some ip4 => Some (net.dotted ip4)
    | None => firstIPv4 r
    end.
Proof.
  simpl. fold (addr_ip a). unfold usable, net.IsLoopback.
  destruct (Z.eqb_spec (len (addr_ip a)) 0) as [H0|_]; simpl.
  - unfold net.To4, net.IPv4len, net.IPv6len. rewrite H0. reflexivity.
  - destruct (net.To4 (addr_ip a)) as [ip4|]; [|destruct (net.Equal _ _); reflexivity].
    destruct (net.at_ ip4 0 =? 127); reflexivity.
Qed.

Lemma firstIPv4_first (addrs : list net.Addr) :
  match firstIPv4 addrs with
  | Some s =>
      exists apre a apost ip4,
        addrs = (apre ++ a :: apost)%list
        /\ forallb (fun x => negb (is_usable x)) apre = true
        /\ usable a = Some ip4 /\ s = net.dotted ip4
  | None => forallb (fun x => negb (is_usable x)) addrs = true
  end.
Proof.
  induction addrs as [|a r IH]; [reflexivity|].
  rewrite firstIPv4_cons. destruct (usable a) as [ip4|] eqn:Hu.
  - exists [], a, r, ip4. repeat split. exact Hu.
  - destruct (firstIPv4 r) as [s|].
    + destruct IH as (apre & a' & apost & ip4 & -> & Hpre & Ha & ->).
      exists (a :: apre), a', apost, ip4. repeat split; try assumption.
      simpl. unfold is_usable at 1. rewrite Hu. exact Hpre.
    + simpl. unfold is_usable at 1. rewrite Hu. exact IH.
Qed.

(** X22.  [LANIP] returns the first usable address of the first
    interface that has one: an IPv4 address, never one of [127.0.0.0/8],
    in dotted notation, of an interface that is up and is not a loopback.
    It fails with the error of [Addrs()] when an interface that is up and
    is not a loopback cannot list its addresses before a usable address
    has been found, and with [network not found] when every interface is
    passed over. *)
Theorem LANIP_first (ifaces : list net.Interface) :
  match LANIP (inr ifaces) with
  | inr s =>
      exists pre iface post addrs apre a apost ip4,
        ifaces = (pre ++ iface :: post)%list
        /\ forallb passed_over pre = true
        /\ eligible iface = true
        /\ net.Addrs iface = inr addrs
        /\ addrs = (apre ++ a :: apost)%list
        /\ forallb (fun x => negb (is_usable x)) apre = true
        /\ usable a = Some ip4
        /\ len ip4 = 4 /\ net.at_ ip4 0 <> 127
        /\ s = net.dotted ip4
  | inl err =>
      (err = "network not found" /\ forallb passed_over ifaces = true)
      \/ exists pre iface post,
           ifaces = (pre ++ iface :: post)%list
           /\ forallb passed_over pre = true
           /\ eligible iface = true
           /\ net.Addrs iface = inl err
  end.
Proof.
  unfold LANIP. induction ifaces as [|i r IH]; [left; split; reflexivity|].
  simpl scanInterfaces.
  assert (Hskip : passed_over i = true ->
                  match scanInterfaces r with
                  | inr s =>
                      exists pre iface post addrs apre a apost ip4,
                        (i :: r) = (pre ++ iface :: post)%list
                        /\ forallb passed_over pre = true
                        /\ eligible iface = true
                        /\ net.Addrs iface = inr addrs
                        /\ addrs = (apre ++ a :: apost)%list
                        /\ forallb (fun x => negb (is_usable x)) apre = true
                        /\ usable a = Some ip4
                        /\ len ip4 = 4 /\ net.at_ ip4 0 <> 127
                        /\ s = net.dotted ip4
                  | inl err =>
                      (err = "network not found" /\ forallb passed_over (i :: r) = true)
                      \/ exists pre iface post,
                           (i :: r) = (pre ++ iface :: post)%list
                           /\ forallb passed_over pre = true
                           /\ eligible iface = true
                           /\ net.Addrs iface = inl err
                  end).
  { intros Hp. destruct (scanInterfaces r) as [err|s].
    - destruct IH as [[-> Hall] | (pre & iface & post & -> & Hpre & He & Ha)].
      + left. split; [reflexivity|]. simpl. rewrite Hp. exact Hall.
      + right. exists (i :: pre), iface, post. repeat split; try assumption.
        simpl. rewrite Hp. exact Hpre.
    - destruct IH as (pre & iface & post & addrs & apre & a & apost & ip4
                      & -> & Hpre & He & Ha & Hs & Hn & Hu & Hl & H127 & ->).
      exists (i :: pre), iface, post, addrs, apre, a, apost, ip4.
      repeat split; try assumption. simpl. rewrite Hp. exact Hpre. }
  unfold passed_over, eligible in Hskip.
  destruct (Z.land (net.Flags i) net.FlagUp =? 0) eqn:Hup;
    [apply Hskip; reflexivity|].
  destruct (Z.land (net.Flags i) net.FlagLoopback =? 0) eqn:Hlo;
    [|apply Hskip; reflexivity].
  simpl negb. cbv iota.
  destruct (net.Addrs i) as [err|addrs] eqn:Ha.
  - right. exists [], i, r. repeat split.
    + unfold eligible. rewrite Hup, Hlo. reflexivity.
    + exact Ha.
  - pose proof (firstIPv4_first addrs) as Hf.
    destruct (firstIPv4 addrs) as [s|].
    + destruct Hf as (apre & a & apost & ip4 & Hs & Hn & Hu & ->).
      exists [], i, r, addrs, apre, a, apost, ip4. repeat split; try assumption.
      * unfold eligible. rewrite Hup, Hlo. reflexivity.
      * unfold usable in Hu. destruct (net.To4 (addr_ip a)) as [x|] eqn:H4; [|discriminate].
        destruct (net.at_ x 0 =? 127); [discriminate|]. injection Hu as <-.
        exact (To4_len _ _ H4).
      * unfold usable in Hu. destruct (net.To4 (addr_ip a)) as [x|]; [|discriminate].
        destruct (Z.eqb_spec (net.at_ x 0) 127); [discriminate|]. injection Hu as <-.
        assumption.
    + apply Hskip. simpl. exact Hf.
Qed.

Example LANIP_interfaces : LANIP (inr Ex.interfaces) = inr "192.168.1.5".
Proof. vm_compute. reflexivity. Qed.

Example LANIP_Addrs_fails :
  LANIP (inr (net.mkInterface 1 (inl "route ip+net: no such network interface")
              :: Ex.interfaces))
  = inl "route ip+net: no such network interface".
Proof. vm_compute. reflexivity. Qed.

(** ** The loop of the speed-test screen *)

(** X23.  A turn of the loop of [buildSpeedTest] does not depend on the
    hour of the day.  The messages [waiting] and [no test yet], which are
    chosen by the hour, are never written: the branch that writes them is
    entered only when there is no result yet and no fetch is due, and a
    fetch is always due while there is no result. *)
Theorem turn_ignores_the_hour (Error : error -> string) (Hour1 Hour2 : time.Time -> Z)
        (opts : display.CmdLineOpts) (v : display.Vars) (w : World) :
  display.turn Error Hour1 opts v w = display.turn Error Hour2 opts v w.
Proof.
  unfold display.turn. destruct (clock w) as [now_ w1].
  destruct (display.lastResult v) as [r|]; [|reflexivity].
  destruct (clock w1) as [t w2].
  destruct (5 * time.Minute <=? time.Sub t (display.lastFetchTime v)); reflexivity.
Qed.

(** X24.  An error whose text contains [login failed] is never shown as
    [rate limited]: unless it also mentions a timeout, an unreachable host
    or a refused connection, the screen says [auth error],
    [403 forbidden], [check credentials].  [GetUDMProSpeedtest] writes
    [login failed: ] in front of every error of [Login], so this is what
    the screen says of a login that the gateway rejects with status 429. *)
Theorem login_error_is_never_rate_limited (msg : string) (v : display.Vars) :
  strings.Contains msg "login failed" = true ->
  display.dmsg (display.showError msg v) <> "rate limited"
  /\ (strings.Contains msg "timeout" = false ->
      strings.Contains msg "cannot reach" = false ->
      strings.Contains msg "connection refused" = false ->
      display.showError msg v
      = display.set_lines "auth error" "403 forbidden" "check credentials" v).
Proof.
  intros Hl. unfold display.showError. rewrite Hl. simpl orb. split.
  - destruct (strings.Contains msg "timeout" || strings.Contains msg "cannot reach");
      [discriminate|].
    destruct (strings.Contains msg "connection refused"); discriminate.
  - intros -> -> ->. reflexivity.
Qed.

Lemma login_error_is_never_rate_limited_witness :
  let inner := "login failed with status: 429 (rate limited) - please wait before retrying" in
  display.showError ("login failed: " ++ inner) display.initial
  = display.set_lines "auth error" "403 forbidden" "check credentials" display.initial.
Proof.
  cbv zeta.
  apply (login_error_is_never_rate_limited
           ("login failed: "
            ++ "login failed with status: 429 (rate limited) - please wait before retrying")
           display.initial);
    vm_compute; reflexivity.
Defined.

(** X25.  A turn of the loop that fetches a result which is not newer
    than the one it knows changes nothing on the screen: it only notes the
    time of the fetch.  The lines an earlier turn wrote for an error stay,
    and the relative time of the result is not brought up to date. *)
Theorem not_newer_keeps_the_lines
        (Error : error -> string) (Hour : time.Time -> Z)
        (opts : display.CmdLineOpts) (v : display.Vars) (w w3 : World)
        (r0 r : SpeedtestResult) :
  display.lastResult v = Some r0 ->
  5 * time.Minute <= time.Sub (reading (after_reading w)) (display.lastFetchTime v) ->
  GetUDMProSpeedtest (display.UDMBaseURL opts) (display.UDMUsername opts)
                     (display.UDMPassword opts) (display.UDMSite opts)
                     (display.UDMVersion opts) (after_reading (after_reading w))
  = (Ok r, w3) ->
  display.lastKnownTimestamp v <> 0 ->
  Timestamp r <= display.lastKnownTimestamp v ->
  display.turn Error Hour opts v w
  = (Ok (display.mkVars (display.lastResult v) (reading w) (display.lastKnownTimestamp v)
                        (display.dmsg v) (display.umsg v) (display.tmsg v)),
     w3).
Proof.
  intros Hr Hdue Hfetch Hk Hold. unfold display.turn.
  rewrite clock_reading, Hr, clock_reading.
  apply Z.leb_le in Hdue. rewrite Hdue, Hfetch.
  destruct (Z.eqb_spec (display.lastKnownTimestamp v) 0); [contradiction|].
  destruct (Z.ltb_spec (display.lastKnownTimestamp v) (Timestamp r)); [lia|].
  reflexivity.
Qed.

Lemma not_newer_keeps_the_lines_witness :
  let w := Ex.world Ex.gateway in
  display.turn (fun _ => "") (fun _ => 0) Ex.opts Ex.after_error w
  = (Ok (display.mkVars (Some (mkSpeedtestResult 80 0 0 200)) Ex.t0 200
                        "network error" "check UDM IP" "verify connectivity"),
     snd (GetUDMProSpeedtest "https://gw/" "admin" "secret" "default" "8.0.28" w)).
Proof.
  cbv zeta.
  apply (not_newer_keeps_the_lines (fun _ => "") (fun _ => 0) Ex.opts Ex.after_error
           (Ex.world Ex.gateway)
           (snd (GetUDMProSpeedtest "https://gw/" "admin" "secret" "default" "8.0.28"
                   (Ex.world Ex.gateway)))
           (mkSpeedtestResult 80 0 0 200) (mkSpeedtestResult 80 0 0 200)).
  - reflexivity.
  - vm_compute. discriminate.
  - vm_compute. reflexivity.
  - discriminate.
  - simpl. lia.
Defined.

Lemma set_lines_tracked (d u t : string) (v : display.Vars) :
  knows_its_result v -> tracked v (display.set_lines d u t v).
Proof.
  intros Hinv. unfold tracked, knows_its_result. simpl.
  repeat split; [exact Hinv | lia | intros r Hr; left; exact Hr].
Qed.

(** The part of a turn that follows the call of [GetUDMProSpeedtest]. *)
Lemma fetched_tracked (Error : error -> string) (opts : display.CmdLineOpts)
      (v v' : display.Vars) (now_ : time.Time) (w2 : World) :
  fst (match GetUDMProSpeedtest (display.UDMBaseURL opts) (display.UDMUsername opts)
               (display.UDMPassword opts) (display.UDMSite opts)
               (display.UDMVersion opts) w2 with
       | (Ok result, w3) =>
           if (display.lastKnownTimestamp v =? 0)
              || (display.lastKnownTimestamp v <? Timestamp result)
           then
             let (rel, w4) := GetRelativeTime (Timestamp result) w3 in
             (Ok (display.mkVars (Some result) now_ (Timestamp result)
                    (FormatSpeed (DownloadMbps result))
                    (FormatSpeed (UploadMbps result)) rel), w4)
           else
             (Ok (display.mkVars (display.lastResult v) now_
                    (display.lastKnownTimestamp v)
                    (display.dmsg v) (display.umsg v) (display.tmsg v)), w3)
       | (Err e, w3) => (Ok (display.showError (Error e) v), w3)
       | (Panic p, w3) => (Panic p, w3)
       | (OutOfFuel, w3) => (OutOfFuel, w3)
       end) = Ok v' ->
  knows_its_result v -> tracked v v'.
Proof.
  pose proof (GetUDMProSpeedtest_ok_inv (display.UDMBaseURL opts) (display.UDMUsername opts)
                (display.UDMPassword opts) (display.UDMSite opts)
                (display.UDMVersion opts) w2) as Hm.
  cbv zeta in Hm.
  destruct (GetUDMProSpeedtest (display.UDMBaseURL opts) (display.UDMUsername opts)
              (display.UDMPassword opts) (display.UDMSite opts)
              (display.UDMVersion opts) w2) as [[r|e|p|] w3]; try discriminate.
  - destruct (Hm r eq_refl) as [Hmeas _].
    destruct (Z.eqb_spec (display.lastKnownTimestamp v) 0) as [H0|H0]; simpl orb.
    + destruct (GetRelativeTime (Timestamp r) w3) as [rel w4]. simpl.
      intros [= <-] Hinv. unfold tracked, knows_its_result. simpl. repeat split.
      * intros r' [= <-]. reflexivity.
      * intros Hne. contradiction.
      * intros r' [= <-]. right. exact Hmeas.
    + destruct (Z.ltb_spec (display.lastKnownTimestamp v) (Timestamp r)).
      * destruct (GetRelativeTime (Timestamp r) w3) as [rel w4]. simpl.
        intros [= <-] Hinv. unfold tracked, knows_its_result. simpl. repeat split.
        -- intros r' [= <-]. reflexivity.
        -- intros _. lia.
        -- intros r' [= <-]. right. exact Hmeas.
      * simpl. intros [= <-] Hinv. unfold tracked, knows_its_result. simpl. repeat split.
        -- exact Hinv.
        -- lia.
        -- intros r' Hr'. left. exact Hr'.
  - simpl. intros [= <-] Hinv. unfold display.showError.
    repeat match goal with |- context [if ?b then _ else _] => destruct b end;
      apply set_lines_tracked; exact Hinv.
Qed.

(** X26.  The loop keeps track of the result it shows: after every turn
    the timestamp it knows is the one of the result it holds; once that
    timestamp is not zero it never goes back; and a result it comes to hold
    has a positive download or upload. *)
Theorem turn_keeps_track (Error : error -> string) (Hour : time.Time -> Z)
        (opts : display.CmdLineOpts) (v v' : display.Vars) (w : World) :
  fst (display.turn Error Hour opts v w) = Ok v' ->
  (forall r, display.lastResult v = Some r -> display.lastKnownTimestamp v = Timestamp r) ->
  (forall r, display.lastResult v' = Some r -> display.lastKnownTimestamp v' = Timestamp r)
  /\ (display.lastKnownTimestamp v <> 0 ->
      display.lastKnownTimestamp v <= display.lastKnownTimestamp v')
  /\ (forall r, display.lastResult v' = Some r ->
                display.lastResult v = Some r \/ measured r = true).
Proof.
  intros Hturn Hinv. change (knows_its_result v) in Hinv. change (tracked v v').
  revert Hturn.
  unfold display.turn. destruct (clock w) as [now_ w1].
  destruct (display.lastResult v) as [r0|] eqn:Hr0.
  - destruct (clock w1) as [t w2].
    destruct (5 * time.Minute <=? time.Sub t (display.lastFetchTime v)).
    + intros H. apply (fetched_tracked Error opts v v' now_ w2); [|exact Hinv].
      rewrite Hr0. exact H.
    + destruct (GetRelativeTime (Timestamp r0) w2) as [rel w3]. simpl.
      intros [= <-]. apply set_lines_tracked. exact Hinv.
  - intros H. apply (fetched_tracked Error opts v v' now_ w1); [|exact Hinv].
    rewrite Hr0. exact H.
Qed.

Lemma turn_keeps_track_witness :
  let v' := display.mkVars (Some (mkSpeedtestResult 80 0 0 200)) Ex.t0 200
                           "80.0 Mb/s" "0.0 Mb/s" "19675 days ago" in
  fst (display.turn (fun _ => "") (fun _ => 0) Ex.opts display.initial (Ex.world Ex.gateway))
  = Ok v'
  /\ (forall r, display.lastResult v' = Some r -> display.lastKnownTimestamp v' = Timestamp r).
Proof.
  cbv zeta. split; [vm_compute; reflexivity|].
  apply (turn_keeps_track (fun _ => "") (fun _ => 0) Ex.opts display.initial _
           (Ex.world Ex.gateway)).
  - vm_compute. reflexivity.
  - intros r H. discriminate H.
Defined.

(** ** Calls of [GetUDMProSpeedtest] that end without a panic *)

Lemma returned_bind {A B : Type} (m : M A) (k : A -> M B) (s : State) :
  returned (fst (m s)) = true ->
  (forall a s', m s = (Ok a, s') -> returned (fst (k a s')) = true) ->
  returned (fst (bind m k s)) = true.
Proof.
  intros Hm Hk. rewrite bind_at. destruct (m s) as [[a|e|p|] s']; try discriminate.
  - apply Hk. reflexivity.
  - reflexivity.
Qed.

Lemma returned_wrap {A : Type} (f : error -> error) (m : M A) (s : State) :
  returned (fst (m s)) = true -> returned (fst (wrap f m s)) = true.
Proof. unfold wrap. destruct (m s) as [[a|e|p|] s']; intros H; try discriminate; reflexivity. Qed.

Lemma legacy_GetSpeedtestResults_returned (s : State) :
  IsUniFiOS (client s) = false -> returned (fst (GetSpeedtestResults s)) = true.
Proof.
  intros HU. unfold GetSpeedtestResults. rewrite bind_at, getCachedSpeedtest_run.
  assert (Hfetch : forall s1, IsUniFiOS (client s1) = false ->
            returned (fst ((t <- Now ;;
                            let end_ := time.UnixMilli t in
                            let start := wrap64 (end_ - 24 * 60 * 60 * 1000) in
                            result <- GetSpeedtestResultsInRange start end_ ;;
                            setCachedSpeedtest (Some result) ;;;
                            ret result) s1)) = true).
  { intros s1 H1. rewrite bind_at, Now_reading. cbv zeta.
    apply returned_bind.
    - apply legacy_fetch_returned. exact H1.
    - intros r s' _. rewrite bind_at, setCachedSpeedtest_run. reflexivity. }
  destruct (Result (cache (client s))) as [r0|].
  - destruct (time.Sub (reading (world s)) (CachedAt (cache (client s)))
              <? TTL (cache (client s))); [reflexivity|].
    apply Hfetch. exact HU.
  - apply Hfetch. exact HU.
Qed.

Lemma legacy_gateway_returned (baseURL username password site version : string)
      (w : World) :
  (forall resp rest, wire w = Answered resp :: rest -> StatusCode resp <> 200) ->
  returned (fst (GetUDMProSpeedtest baseURL username password site version w)) = true.
Proof.
  intros Hleg. unfold GetUDMProSpeedtest. rewrite NewUDMProClient_run. cbv zeta.
  destruct (url_error w (strings.TrimRight baseURL "/" ++ "/")); [reflexivity|].
  destruct (wire w) as [|[cause|resp] rest] eqn:Hw; try reflexivity.
  destruct (Z.eqb_spec (StatusCode resp) 200) as [H200|_];
    [exfalso; exact (Hleg resp rest eq_refl H200)|].
  set (s0 := mkState _ _).
  assert (HU0 : IsUniFiOS (client s0) = false) by reflexivity.
  assert (H : returned (fst ((wrap ErrLoginFailed Login ;;;
                              wrap ErrFetchFailed GetSpeedtestResults) s0)) = true).
  { apply returned_bind.
    - apply returned_wrap. apply safe_returned. exact safe_Login.
    - intros u s1 HL. apply returned_wrap. apply legacy_GetSpeedtestResults_returned.
      pose proof (keeps_wrap same_static ErrLoginFailed Login Login_static s0) as Hs.
      rewrite HL in Hs. destruct Hs as [Hs _]. simpl in Hs. rewrite Hs. exact HU0. }
  destruct ((wrap ErrLoginFailed Login ;;; wrap ErrFetchFailed GetSpeedtestResults) s0)
    as [r s']. exact H.
Qed.

(** X27.  With a gateway that is not detected as UniFi OS (the probe is
    not answered with status 200), neither [GetUDMProSpeedtest] nor a
    turn of the loop of the screen panics, and on every finite sequence
    of answers of the gateway each of them ends: the first with a result
    or an error, the second with the variables of the screen.  The
    sequence has to be finite: the retry on 401 has no bound of its own,
    and a gateway that answered 401 for ever would be asked for ever. *)
Theorem legacy_gateway_never_crashes
        (Error : error -> string) (Hour : time.Time -> Z)
        (opts : display.CmdLineOpts) (v : display.Vars) (w : World) :
  (forall resp rest, wire w = Answered resp :: rest -> StatusCode resp <> 200) ->
  returned (fst (GetUDMProSpeedtest (display.UDMBaseURL opts) (display.UDMUsername opts)
                   (display.UDMPassword opts) (display.UDMSite opts)
                   (display.UDMVersion opts) w)) = true
  /\ returned (fst (display.turn Error Hour opts v w)) = true.
Proof.
  intros Hleg. split; [apply legacy_gateway_returned; exact Hleg|].
  assert (Hfetch : forall w2 now_,
             wire w2 = wire w ->
             returned
               (fst (match GetUDMProSpeedtest (display.UDMBaseURL opts)
                             (display.UDMUsername opts) (display.UDMPassword opts)
                             (display.UDMSite opts) (display.UDMVersion opts) w2 with
                     | (Ok result, w3) =>
                         if (display.lastKnownTimestamp v =? 0)
                            || (display.lastKnownTimestamp v <? Timestamp result)
                         then
                           let (rel, w4) := GetRelativeTime (Timestamp result) w3 in
                           (Ok (display.mkVars (Some result) now_ (Timestamp result)
                                  (FormatSpeed (DownloadMbps result))
                                  (FormatSpeed (UploadMbps result)) rel), w4)
                         else
                           (Ok (display.mkVars (display.lastResult v) now_
                                  (display.lastKnownTimestamp v)
                                  (display.dmsg v) (display.umsg v) (display.tmsg v)), w3)
                     | (Err e, w3) => (Ok (display.showError (Error e) v), w3)
                     | (Panic p, w3) => (Panic p, w3)
                     | (OutOfFuel, w3) => (OutOfFuel, w3)
                     end)) = true).
  { intros w2 now_ Hw2.
    pose proof (legacy_gateway_returned (display.UDMBaseURL opts) (display.UDMUsername opts)
                  (display.UDMPassword opts) (display.UDMSite opts)
                  (display.UDMVersion opts) w2) as H.
    destruct (GetUDMProSpeedtest (display.UDMBaseURL opts) (display.UDMUsername opts)
                (display.UDMPassword opts) (display.UDMSite opts)
                (display.UDMVersion opts) w2) as [[r|e|p|] w3].
    - destruct ((display.lastKnownTimestamp v =? 0)
                || (display.lastKnownTimestamp v <? Timestamp r)); [|reflexivity].
      destruct (GetRelativeTime (Timestamp r) w3). reflexivity.
    - reflexivity.
    - apply H. intros resp rest Hr. apply (Hleg resp rest). rewrite <- Hw2. exact Hr.
    - apply H. intros resp rest Hr. apply (Hleg resp rest). rewrite <- Hw2. exact Hr. }
  unfold display.turn. rewrite clock_reading.
  destruct (display.lastResult v) as [r0|].
  - rewrite clock_reading.
    destruct (5 * time.Minute <=? time.Sub (reading (after_reading w))
                                           (display.lastFetchTime v)).
    + apply Hfetch. reflexivity.
    + destruct (GetRelativeTime (Timestamp r0) (after_reading (after_reading w))).
      reflexivity.
  - apply Hfetch. reflexivity.
Qed.

Lemma legacy_gateway_never_crashes_witness :
  let w := Ex.world [Ex.answer 301 [] ""; Ex.login_ok; Ex.unauthorized] in
  returned (fst (GetUDMProSpeedtest "https://gw/" "admin" "secret" "default" "8.0.28" w))
  = true
  /\ returned (fst (display.turn (fun _ => "") (fun _ => 0) Ex.opts display.initial w))
     = true.
Proof.
  apply (legacy_gateway_never_crashes (fun _ => "") (fun _ => 0) Ex.opts display.initial
           (Ex.world [Ex.answer 301 [] ""; Ex.login_ok; Ex.unauthorized])).
  intros resp rest [= <- <-]. discriminate.
Defined.
